(** * io-functions-admin: the backup-and-delete cascade and its orchestrators

    A shallow embedding of [DeleteUserDataActivity/handler.ts] (the cascade
    that backs up and then deletes every document of a user) and of the
    [UserDataDownloadOrchestrator] that follows it in the same file, with the
    properties of the design document proved, or refuted, on the embedding.

    Conventions.
    - A [TaskEither] of fp-ts 1.x is a function from the state of the outside
      world to an [Either] and the next state.  The world is the chronological
      list of the calls made to the storage services, each with its outcome.
    - The answers of the services are read from records of functions (the
      models) which receive the history of calls, so that an answer may
      depend on everything that happened before.
    - [taskEitherSeq] chains its arguments and stops at the first [Left];
      [taskEither] (the parallel instance) starts every argument, waits for
      all of them with [Promise.all] and returns the first [Left] in argument
      order.  The embedding runs parallel arguments in argument order, each
      to completion, which is one of the schedules the runtime admits; no
      argument is skipped when an earlier one fails.
    - [debug] only writes to the console and is the identity on its value. *)

From Stdlib Require Import String Ascii List Bool Arith Lia NArith ZArith.
From Stdlib Require Import DecimalString.
Import ListNotations.
Open Scope string_scope.
Open Scope list_scope.

Set Implicit Arguments.
Set Warnings "-register-all".

(** ** fp-ts data types *)

Inductive Either (L A : Type) : Type :=
| Left (l : L)
| Right (a : A).
Arguments Left {L A} l.
Arguments Right {L A} a.

Definition isLeft {L A} (e : Either L A) : bool :=
  match e with Left _ => true | Right _ => false end.

Definition isRight {L A} (e : Either L A) : bool := negb (isLeft e).

Definition either_map {L A B} (f : A -> B) (e : Either L A) : Either L B :=
  match e with Left l => Left l | Right a => Right (f a) end.

Definition either_mapLeft {L M A} (f : L -> M) (e : Either L A) : Either M A :=
  match e with Left l => Left (f l) | Right a => Right a end.

Definition either_bimap {L M A B} (f : L -> M) (g : A -> B) (e : Either L A)
  : Either M B :=
  match e with Left l => Left (f l) | Right a => Right (g a) end.

(** [fa.ap(fab)] of [Either]: a [Left] function wins over a [Left] value. *)
Definition either_ap {L A B} (fab : Either L (A -> B)) (fa : Either L A)
  : Either L B :=
  match fab with
  | Left l => Left l
  | Right f => match fa with Left l => Left l | Right a => Right (f a) end
  end.

(** ** Tasks over an explicit state *)

Definition Task (S A : Type) : Type := S -> A * S.

Definition TaskEither (S L A : Type) : Type := Task S (Either L A).

Section Combinators.
Context {S : Type}.

(** [taskEither.of]; [of] is a keyword here. *)
Definition taskEither_of {L A} (a : A) : TaskEither S L A :=
  fun s => (Right a, s).

Definition fromEither {L A} (e : Either L A) : TaskEither S L A :=
  fun s => (e, s).

Definition map {L A B} (f : A -> B) (t : TaskEither S L A) : TaskEither S L B :=
  fun s => let (e, s') := t s in (either_map f e, s').

Definition mapLeft {L M A} (f : L -> M) (t : TaskEither S L A)
  : TaskEither S M A :=
  fun s => let (e, s') := t s in (either_mapLeft f e, s').

Definition bimap {L M A B} (f : L -> M) (g : A -> B) (t : TaskEither S L A)
  : TaskEither S M B :=
  fun s => let (e, s') := t s in (either_bimap f g e, s').

Definition chain {L A B} (t : TaskEither S L A) (f : A -> TaskEither S L B)
  : TaskEither S L B :=
  fun s => match t s with
           | (Left l, s') => (Left l, s')
           | (Right a, s') => f a s'
           end.

Definition foldTaskEither {L A M B}
           (onLeft : L -> TaskEither S M B) (onRight : A -> TaskEither S M B)
           (t : TaskEither S L A) : TaskEither S M B :=
  fun s => match t s with
           | (Left l, s') => onLeft l s'
           | (Right a, s') => onRight a s'
           end.

(** [taskEither.ap]: both sides run, whatever the other side answers, and
    the result holds the [Left] of the function side before that of the
    argument side.  The two promises are started together, so that their
    calls can interleave; the history keeps one schedule of them, the calls
    of the function side before those of the argument side.  What is stated
    below of two concurrent sides is what holds in every schedule: the calls
    that are made, their outcomes and the result; the order of the calls is
    stated only inside a side that the source runs in sequence. *)
Definition ap_par {L A B} (fab : TaskEither S L (A -> B)) (fa : TaskEither S L A)
  : TaskEither S L B :=
  fun s => let (ef, s1) := fab s in
           let (ea, s2) := fa s1 in
           (either_ap ef ea, s2).

(** [taskEitherSeq.ap]: [fab.chain(f => fa.map(f))]. *)
Definition ap_seq {L A B} (fab : TaskEither S L (A -> B)) (fa : TaskEither S L A)
  : TaskEither S L B :=
  chain fab (fun f => map f fa).

(** [array.sequence(taskEither)]: a left-to-right [reduce] that appends each
    result with [snoc], through the parallel [ap]. *)
Definition array_sequence {L A} (ts : list (TaskEither S L A))
  : TaskEither S L (list A) :=
  fold_left
    (fun fas fa => ap_par (map (fun (xs : list A) (a : A) => xs ++ [a]) fas) fa)
    ts (taskEither_of []).

(** [sequenceT(F)(a, b)] and [sequenceT(F)(a, b, c)]: [F.map] on the first
    argument, then [F.ap] on each of the others. *)
Definition sequenceT2_seq {L A B} (a : TaskEither S L A) (b : TaskEither S L B)
  : TaskEither S L (A * B) :=
  ap_seq (map (fun x y => (x, y)) a) b.

Definition sequenceT3_seq {L A B C} (a : TaskEither S L A) (b : TaskEither S L B)
           (c : TaskEither S L C) : TaskEither S L (A * B * C) :=
  ap_seq (ap_seq (map (fun x y z => (x, y, z)) a) b) c.

Definition sequenceT3_par {L A B C} (a : TaskEither S L A) (b : TaskEither S L B)
           (c : TaskEither S L C) : TaskEither S L (A * B * C) :=
  ap_par (ap_par (map (fun x y z => (x, y, z)) a) b) c.
End Combinators.

(** A promise either rejects with a value, turned into an [Error] by
    [toError], or resolves. *)
Inductive PromiseOutcome (R : Type) : Type :=
| Rejects (message : string)
| Resolves (r : R).
Arguments Rejects {R} message.
Arguments Resolves {R} r.

(** [tryCatch(lazyPromise, toError)]; an [Error] is kept as its message. *)
Definition tryCatch {S R} (lazyPromise : Task S (PromiseOutcome R))
  : TaskEither S string R :=
  fun s => match lazyPromise s with
           | (Rejects message, s') => (Left message, s')
           | (Resolves r, s') => (Right r, s')
           end.

(** The left values of the models: [QueryError | Error].  A [QueryError] is
    kept as its [JSON.stringify] text. *)
Inductive QueryErrorOrError : Type :=
| IsError (message : string)
| IsQueryError (json : string).

(** handler.ts:131-140 *)
Definition fromQueryEither {S R}
           (lazyPromise : Task S (PromiseOutcome (Either QueryErrorOrError R)))
  : TaskEither S string R :=
  chain (tryCatch lazyPromise)
        (fun errorOrResult =>
           mapLeft (fun err => match err with
                               | IsError message => message
                               | IsQueryError json => ("QueryError: " ++ json)%string
                               end)
                   (fromEither errorOrResult)).

(** ** The documents of the user

    Only the fields the cascade reads are kept; [JSON.stringify] of a whole
    document is a parameter of the development. *)

Module RetrievedProfile.
Record t := { fiscalCode : string; id : string; version : N }.
End RetrievedProfile.

Module RetrievedMessageWithoutContent.
Record t := { fiscalCode : string; id : string }.
End RetrievedMessageWithoutContent.

Module RetrievedMessageStatus.
Record t := { messageId : string; id : string; version : N }.
End RetrievedMessageStatus.

Module RetrievedNotification.
Record t := { messageId : string; id : string }.
End RetrievedNotification.

Module RetrievedNotificationStatus.
Record t := { notificationId : string; id : string; version : N }.
End RetrievedNotificationStatus.

Module MessageContent.
Record t := { subject : string; markdown : string }.
End MessageContent.

(** ** Calls to the storage services and the world *)

(** The queries behind the three iterators the cascade drains. *)
Inductive Query : Type :=
| ProfileVersions (fiscalCode : string)
| MessageStatusVersions (messageId : string)
| NotificationStatusVersions (notificationId : string).

Inductive Call : Type :=
| CreateBlockBlobFromText (containerName blobName text : string)
| ExecuteNext (q : Query)
| DeleteProfileVersion (fiscalCode id : string)
| DeleteNotification (messageId id : string)
| DeleteNotificationStatusVersion (notificationId id : string)
| DeleteMessage (fiscalCode id : string)
| DeleteMessageStatusVersion (messageId id : string)
| GetContentFromBlob (messageId : string)
| DeleteContentFromBlob (messageId : string)
| FindMessages (fiscalCode : string)
| FindNotificationsForMessage (messageId : string).

(** One call with its outcome: [ok] says that it resolved with a result. *)
Record Event : Type := { call : Call; ok : bool }.

(** The world is the history of calls, oldest first. *)
Definition World : Type := list Event.

Definition resolved {R} (o : PromiseOutcome (Either QueryErrorOrError R)) : bool :=
  match o with Resolves (Right _) => true | _ => false end.

(** A method of a model: its answer is read from the history, and the call
    is appended to the history with its outcome. *)
Definition invoke {R} (c : Call)
           (answer : World -> PromiseOutcome (Either QueryErrorOrError R))
  : Task World (PromiseOutcome (Either QueryErrorOrError R)) :=
  fun w => let o := answer w in (o, w ++ [{| call := c; ok := resolved o |}]).

(** [IResultIterator<T>]: a cursor over the pages still to come.  The answer
    of each [executeNext] may depend on the history at the time of the call;
    past the last page the iterator answers [none]. *)
Definition Page (T : Type) : Type :=
  PromiseOutcome (Either QueryErrorOrError (option (list T))).

Record IResultIterator (T : Type) : Type :=
  { query : Query; pages : list (World -> Page T) }.

Definition executeNext {T} : Task (IResultIterator T * World) (Page T) :=
  fun '(iterator, w) =>
    match pages iterator with
    | [] =>
        (Resolves (Right None),
         (iterator, w ++ [{| call := ExecuteNext (query iterator); ok := true |}]))
    | page :: rest =>
        let o := page w in
        (o, ({| query := query iterator; pages := rest |},
             w ++ [{| call := ExecuteNext (query iterator); ok := resolved o |}]))
    end.

(** A task on the world, run where an iterator is in scope as well. *)
Definition liftW {X L A} (t : TaskEither World L A) : TaskEither (X * World) L A :=
  fun '(x, w) => let (e, w') := t w in (e, (x, w')).

(** A task that shares one iterator, run on the world alone. *)
Definition withIterator {X L A} (x : X) (t : TaskEither (X * World) L A)
  : TaskEither World L A :=
  fun w => let '(e, (_, w')) := t (x, w) in (e, w').

(** ** The models *)

Module ProfileModel.
Record t := {
  pagesOfAllVersions : string -> list (World -> Page RetrievedProfile.t);
  answerDeleteProfileVersion :
    string -> string -> World -> PromiseOutcome (Either QueryErrorOrError string) }.
Definition findAllVersionsByModelId (m : t) (fiscalCode : string)
  : IResultIterator RetrievedProfile.t :=
  {| query := ProfileVersions fiscalCode; pages := pagesOfAllVersions m fiscalCode |}.
Definition deleteProfileVersion (m : t) (fiscalCode id : string) :=
  invoke (DeleteProfileVersion fiscalCode id) (answerDeleteProfileVersion m fiscalCode id).
End ProfileModel.

Module MessageModel.
Record t := {
  (* [iteratorToArray(messageModel.findMessages(fiscalCode))] as one call *)
  answerFindMessages :
    string -> World ->
    PromiseOutcome (Either QueryErrorOrError (list RetrievedMessageWithoutContent.t));
  answerGetContentFromBlob :
    string -> World -> PromiseOutcome (Either QueryErrorOrError (option MessageContent.t));
  answerDeleteContentFromBlob :
    string -> World -> PromiseOutcome (Either QueryErrorOrError bool);
  answerDeleteMessage :
    string -> string -> World -> PromiseOutcome (Either QueryErrorOrError string) }.
Definition findMessages (m : t) (fiscalCode : string) :=
  invoke (FindMessages fiscalCode) (answerFindMessages m fiscalCode).
Definition getContentFromBlob (m : t) (messageId : string) :=
  invoke (GetContentFromBlob messageId) (answerGetContentFromBlob m messageId).
Definition deleteContentFromBlob (m : t) (messageId : string) :=
  invoke (DeleteContentFromBlob messageId) (answerDeleteContentFromBlob m messageId).
Definition deleteMessage (m : t) (fiscalCode id : string) :=
  invoke (DeleteMessage fiscalCode id) (answerDeleteMessage m fiscalCode id).
End MessageModel.

Module MessageStatusModel.
Record t := {
  pagesOfAllVersions : string -> list (World -> Page RetrievedMessageStatus.t);
  answerDeleteMessageStatusVersion :
    string -> string -> World -> PromiseOutcome (Either QueryErrorOrError string) }.
Definition findAllVersionsByModelId (m : t) (messageId : string)
  : IResultIterator RetrievedMessageStatus.t :=
  {| query := MessageStatusVersions messageId; pages := pagesOfAllVersions m messageId |}.
Definition deleteMessageStatusVersion (m : t) (messageId id : string) :=
  invoke (DeleteMessageStatusVersion messageId id)
         (answerDeleteMessageStatusVersion m messageId id).
End MessageStatusModel.

Module NotificationModel.
Record t := {
  (* [iteratorToArray(notificationModel.findNotificationsForMessage(id))] *)
  answerFindNotificationsForMessage :
    string -> World ->
    PromiseOutcome (Either QueryErrorOrError (list RetrievedNotification.t));
  answerDeleteNotification :
    string -> string -> World -> PromiseOutcome (Either QueryErrorOrError string) }.
Definition findNotificationsForMessage (m : t) (messageId : string) :=
  invoke (FindNotificationsForMessage messageId)
         (answerFindNotificationsForMessage m messageId).
Definition deleteNotification (m : t) (messageId id : string) :=
  invoke (DeleteNotification messageId id) (answerDeleteNotification m messageId id).
End NotificationModel.

Module NotificationStatusModel.
Record t := {
  pagesOfAllVersions : string -> list (World -> Page RetrievedNotificationStatus.t);
  answerDeleteNotificationStatusVersion :
    string -> string -> World -> PromiseOutcome (Either QueryErrorOrError string) }.
Definition findAllVersionsByNotificationId (m : t) (notificationId : string)
  : IResultIterator RetrievedNotificationStatus.t :=
  {| query := NotificationStatusVersions notificationId;
     pages := pagesOfAllVersions m notificationId |}.
Definition deleteNotificationStatusVersion (m : t) (notificationId id : string) :=
  invoke (DeleteNotificationStatusVersion notificationId id)
         (answerDeleteNotificationStatusVersion m notificationId id).
End NotificationStatusModel.

(** [BlobService.createBlockBlobFromText]: the error handed to the callback,
    if any. *)
Record BlobService : Type :=
  { answerCreateBlockBlobFromText : string -> string -> string -> World -> option string }.

(** ** Results of the activity (handler.ts:52-111) *)

(** [type DataFailure = QueryFailure | BlobCreationFailure | DocumentDeleteFailure] *)
Inductive DataFailure : Type :=
| QueryFailure (reason : string) (query : option string)
| BlobCreationFailure (reason : string)
| DocumentDeleteFailure (reason : string).

(** [ActivityResultFailure]: the tagged union of five failures. *)
Inductive ActivityResultFailure : Type :=
| UserNotFound
| InvalidInputFailure (reason : string)
| DataFailureOf (failure : DataFailure).

Inductive ActivityResult : Type :=
| ActivityResultSuccess
| ActivityResultFailureOf (failure : ActivityResultFailure).

Definition DataFailure_kind (f : DataFailure) : string :=
  match f with
  | QueryFailure _ _ => "QUERY_FAILURE"
  | BlobCreationFailure _ => "BLOB_FAILURE"
  | DocumentDeleteFailure _ => "DELETE_FAILURE"
  end.

Definition kind (r : ActivityResult) : string :=
  match r with
  | ActivityResultSuccess => "SUCCESS"
  | ActivityResultFailureOf UserNotFound => "USER_NOT_FOUND_FAILURE"
  | ActivityResultFailureOf (InvalidInputFailure _) => "INVALID_INPUT_FAILURE"
  | ActivityResultFailureOf (DataFailureOf f) => DataFailure_kind f
  end.

(** handler.ts:115-121 *)
Definition debug {T} (l : string) (e : T) : T := e.

(** handler.ts:153-158 *)
Definition toQueryFailure (err : QueryErrorOrError) : DataFailure :=
  QueryFailure
    (match err with
     | IsError message => message
     | IsQueryError json => ("QueryError: " ++ json)%string
     end)
    None.

(** handler.ts:164-168; the [Error] is its message. *)
Definition toDocumentDeleteFailure (err : string) : DataFailure :=
  DocumentDeleteFailure err.

(** handler.ts:113 *)
Definition logPrefix : string := "DeleteUserDataActivity".

(** handler.ts:175-205.  [logFailure] writes one line with
    [context.log.error] and returns nothing; it is kept as the line it
    writes.  In the template of a query failure an absent [query] prints
    as [undefined]. *)
Definition logFailure (failure : ActivityResultFailure) : string :=
  match failure with
  | InvalidInputFailure reason =>
      (logPrefix ++ "|Error decoding input|ERROR=" ++ reason)%string
  | DataFailureOf (QueryFailure reason query) =>
      (logPrefix ++ "|Error "
                 ++ match query with Some q => q | None => "undefined" end
                 ++ " query error|ERROR=" ++ reason)%string
  | DataFailureOf (BlobCreationFailure reason) =>
      (logPrefix ++ "|Error saving blob|ERROR=" ++ reason)%string
  | UserNotFound => (logPrefix ++ "|Error user not found|ERROR=")%string
  | DataFailureOf (DocumentDeleteFailure reason) =>
      (logPrefix ++ "|Error deleting data|ERROR=" ++ reason)%string
  end.

(** What a JavaScript array holds at run time: items, or arrays again. *)
Inductive Nested (T : Type) : Type :=
| Item (t : T)
| Arr (elements : list (Nested T)).
Arguments Item {T} t.
Arguments Arr {T} elements.

(** [String(n)] for a non-negative integer. *)
Definition Number_toString (n : N) : string :=
  NilEmpty.string_of_uint (N.to_uint n).

(** handler.ts:208-212 *)
Record IBlobServiceInfo : Type :=
  { blobService : BlobService; containerName : string; folder : option string }.

(** The template [`${folder}${folder ? "/" : ""}${blobName}`] of
    handler.ts:230: an absent folder prints as [undefined], and the empty
    string, like an absent folder, is falsy. *)
Definition backupBlobPath (folder : option string) (blobName : string) : string :=
  ((match folder with Some f => f | None => "undefined" end)
   ++ (match folder with
       | Some (String _ _) => "/"
       | _ => ""
       end)
   ++ blobName)%string.

Section Cascade.
(** [JSON.stringify] *)
Variable JSON_stringify : forall T : Type, T -> string.

(** handler.ts:222-242 *)
Definition saveDataToBlob {T} (info : IBlobServiceInfo) (blobName : string) (data : T)
  : TaskEither World DataFailure T :=
  bimap (fun err => BlobCreationFailure err) (fun _ : unit => data)
        (fun w : World =>
           let path := backupBlobPath (folder info) blobName in
           let text := JSON_stringify data in
           let answer :=
             answerCreateBlockBlobFromText (blobService info)
                                           (containerName info) path text w in
           (match answer with Some err => Left err | None => Right tt end,
            w ++ [{| call := CreateBlockBlobFromText (containerName info) path text;
                     ok := match answer with Some _ => false | None => true end |}])).

Section Walker.
Context {T : Type}.
Variable deleteSingle :
  T -> Task World (PromiseOutcome (Either QueryErrorOrError string)).
Variable userDataBackup : IBlobServiceInfo.
Variable makeBackupBlobName : T -> string.

(** handler.ts:251-315, over the state that holds the shared iterator.
    [fuel] bounds the depth of the recursion: every recursive call comes
    after an [executeNext] that consumed a page. *)
Fixpoint executeRecursive (fuel : nat)
  : TaskEither (IResultIterator T * World) DataFailure (list (Nested T)) :=
  match fuel with
  | O => taskEither_of []
  | S fuel' =>
      foldTaskEither
        (fun e => fromEither (Left e))
        (fun maybeResults : option (list T) =>
           match maybeResults with
           | None =>
               (* if the iterator content is none, exit the recursion *)
               taskEither_of []
           | Some items =>
               (* executes backup&delete for this set of items *)
               array_sequence
                 (List.map
                    (fun item : T =>
                       map (fun '(_, _, nextResults) =>
                              Arr (Item item :: nextResults))
                           (sequenceT3_seq
                              (liftW (saveDataToBlob userDataBackup
                                                     (makeBackupBlobName item) item))
                              (liftW (mapLeft toDocumentDeleteFailure
                                              (fromQueryEither (deleteSingle item))))
                              (* recursive step *)
                              (executeRecursive fuel')))
                    items)
           end)
        (bimap
           (debug "executeRecursiveBackupAndDelete executeNext result left")
           (debug "executeRecursiveBackupAndDelete executeNext result right")
           (foldTaskEither
              (fun e => fromEither (Left (toQueryFailure (IsError e))))
              (fun e => mapLeft toQueryFailure (fromEither e))
              (tryCatch executeNext)))
  end.

(** The entry point: one unit of fuel for each page still to come and one
    for the [executeNext] that finds the iterator exhausted. *)
Definition executeRecursiveBackupAndDelete (iterator : IResultIterator T)
  : TaskEither World DataFailure (list (Nested T)) :=
  withIterator iterator (executeRecursive (S (List.length (pages iterator)))).
End Walker.

(** handler.ts:324-342 *)
Definition backupAndDeleteProfile (profileModel : ProfileModel.t)
           (userDataBackup : IBlobServiceInfo) (fiscalCode : string)
  : TaskEither World DataFailure (list (Nested RetrievedProfile.t)) :=
  bimap (debug "backupAndDeleteProfile left") (debug "backupAndDeleteProfile right")
        (executeRecursiveBackupAndDelete
           (fun item => ProfileModel.deleteProfileVersion
                          profileModel (RetrievedProfile.fiscalCode item)
                          (RetrievedProfile.id item))
           userDataBackup
           (fun item => ("profile--" ++ Number_toString (RetrievedProfile.version item)
                                     ++ ".json")%string)
           (ProfileModel.findAllVersionsByModelId profileModel fiscalCode)).

(** handler.ts:351-385 *)
Definition backupAndDeleteNotification (notificationModel : NotificationModel.t)
           (userDataBackup : IBlobServiceInfo) (notification : RetrievedNotification.t)
  : TaskEither World DataFailure RetrievedNotification.t :=
  bimap (debug "backupAndDeleteNotification left")
        (debug "backupAndDeleteNotification right")
        (map (fun _ => notification)
             (sequenceT2_seq
                (saveDataToBlob userDataBackup
                                ("notification--" ++ RetrievedNotification.id notification
                                                  ++ ".json")%string
                                notification)
                (mapLeft toDocumentDeleteFailure
                         (fromQueryEither
                            (NotificationModel.deleteNotification
                               notificationModel
                               (RetrievedNotification.messageId notification)
                               (RetrievedNotification.id notification)))))).

(** handler.ts:394-417 *)
Definition backupAndDeleteNotificationStatus
           (notificationStatusModel : NotificationStatusModel.t)
           (userDataBackup : IBlobServiceInfo) (notification : RetrievedNotification.t)
  : TaskEither World DataFailure (list (Nested RetrievedNotificationStatus.t)) :=
  bimap (debug "backupAndDeleteNotificationStatus left")
        (debug "backupAndDeleteNotificationStatus right")
        (executeRecursiveBackupAndDelete
           (fun item => NotificationStatusModel.deleteNotificationStatusVersion
                          notificationStatusModel
                          (RetrievedNotificationStatus.notificationId item)
                          (RetrievedNotificationStatus.id item))
           userDataBackup
           (fun item => ("notification-status--"
                           ++ Number_toString (RetrievedNotificationStatus.version item)
                           ++ ".json")%string)
           (NotificationStatusModel.findAllVersionsByNotificationId
              notificationStatusModel (RetrievedNotification.id notification))).

(** handler.ts:426-457 *)
Definition backupAndDeleteMessage (messageModel : MessageModel.t)
           (userDataBackup : IBlobServiceInfo)
           (message : RetrievedMessageWithoutContent.t)
  : TaskEither World DataFailure RetrievedMessageWithoutContent.t :=
  bimap (debug "backupAndDeleteMessage left") (debug "backupAndDeleteMessage right")
        (map (fun _ => message)
             (sequenceT2_seq
                (saveDataToBlob userDataBackup
                                ("message--" ++ RetrievedMessageWithoutContent.id message
                                             ++ ".json")%string
                                message)
                (mapLeft toDocumentDeleteFailure
                         (fromQueryEither
                            (MessageModel.deleteMessage
                               messageModel
                               (RetrievedMessageWithoutContent.fiscalCode message)
                               (RetrievedMessageWithoutContent.id message)))))).

(** handler.ts:459-515.  The blob service of the message contents is the
    one behind [getContentFromBlob] and [deleteContentFromBlob]. *)
Definition backupAndDeleteMessageContent (messageModel : MessageModel.t)
           (userDataBackup : IBlobServiceInfo)
           (message : RetrievedMessageWithoutContent.t)
  : TaskEither World DataFailure (option MessageContent.t) :=
  bimap
    (debug "backupAndDeleteMessageContent left")
    (debug "backupAndDeleteMessageContent right")
    (foldTaskEither
       (fun _ : string =>
          (* unfortunately, a document not found is threated like a query error *)
          taskEither_of None)
       (fun maybeContent : option MessageContent.t =>
          match maybeContent with
          | None =>
              (* no document found, no document to delete *)
              taskEither_of None
          | Some content =>
              map (fun _ => Some content)
                  (sequenceT2_seq
                     (saveDataToBlob
                        userDataBackup
                        ("messagecontent--" ++ RetrievedMessageWithoutContent.id message
                                            ++ ".json")%string
                        content)
                     (mapLeft toDocumentDeleteFailure
                              (fromQueryEither
                                 (MessageModel.deleteContentFromBlob
                                    messageModel
                                    (RetrievedMessageWithoutContent.id message)))))
          end)
       (fromQueryEither
          (MessageModel.getContentFromBlob
             messageModel (RetrievedMessageWithoutContent.id message)))).

(** handler.ts:524-543 *)
Definition backupAndDeleteMessageStatus (messageStatusModel : MessageStatusModel.t)
           (userDataBackup : IBlobServiceInfo)
           (message : RetrievedMessageWithoutContent.t)
  : TaskEither World DataFailure (list (Nested RetrievedMessageStatus.t)) :=
  bimap (debug "backupAndDeleteMessageStatus left")
        (debug "backupAndDeleteMessageStatus right")
        (executeRecursiveBackupAndDelete
           (fun item => MessageStatusModel.deleteMessageStatusVersion
                          messageStatusModel
                          (RetrievedMessageStatus.messageId item)
                          (RetrievedMessageStatus.id item))
           userDataBackup
           (fun item => ("message-status--"
                           ++ Number_toString (RetrievedMessageStatus.version item)
                           ++ ".json")%string)
           (MessageStatusModel.findAllVersionsByModelId
              messageStatusModel (RetrievedMessageWithoutContent.id message))).

(** handler.ts:554-600 *)
Definition backupAndDeleteAllNotificationsData
           (message : RetrievedMessageWithoutContent.t)
           (notificationModel : NotificationModel.t)
           (notificationStatusModel : NotificationStatusModel.t)
           (userDataBackup : IBlobServiceInfo)
  : TaskEither World DataFailure
               (list (list (Nested RetrievedNotificationStatus.t)
                      * RetrievedNotification.t)) :=
  bimap
    (debug "backupAndDeleteAllNotificationsData left")
    (debug "backupAndDeleteAllNotificationsData right")
    (foldTaskEither
       (fun e => fromEither (Left e))
       (fun notifications : list RetrievedNotification.t =>
          array_sequence
            (List.map
               (fun notification =>
                  sequenceT2_seq
                    (backupAndDeleteNotificationStatus
                       notificationStatusModel userDataBackup notification)
                    (backupAndDeleteNotification
                       notificationModel userDataBackup notification))
               notifications))
       (mapLeft
          (fun e => toQueryFailure (IsError e))
          (bimap
             (debug "findNotificationsForMessage query result left")
             (debug "findNotificationsForMessage query result right")
             (fromQueryEither
                (NotificationModel.findNotificationsForMessage
                   notificationModel
                   (RetrievedMessageWithoutContent.id message)))))).

(** The three child cascades of one message, joined by
    [sequenceT(taskEither)] at handler.ts:641-658. *)
Definition backupAndDeleteMessageChildren
           (messageModel : MessageModel.t)
           (messageStatusModel : MessageStatusModel.t)
           (notificationModel : NotificationModel.t)
           (notificationStatusModel : NotificationStatusModel.t)
           (userDataBackup : IBlobServiceInfo)
           (retrievedMessage : RetrievedMessageWithoutContent.t) :=
  sequenceT3_par
    (backupAndDeleteMessageContent messageModel userDataBackup retrievedMessage)
    (backupAndDeleteMessageStatus messageStatusModel userDataBackup retrievedMessage)
    (backupAndDeleteAllNotificationsData
       retrievedMessage notificationModel notificationStatusModel userDataBackup).

(** The function mapped over the messages at handler.ts:637-666: the
    children, then the message itself. *)
Definition backupAndDeleteOneMessageData
           (messageModel : MessageModel.t)
           (messageStatusModel : MessageStatusModel.t)
           (notificationModel : NotificationModel.t)
           (notificationStatusModel : NotificationStatusModel.t)
           (userDataBackup : IBlobServiceInfo)
           (retrievedMessage : RetrievedMessageWithoutContent.t)
  : TaskEither World DataFailure RetrievedMessageWithoutContent.t :=
  chain
    (backupAndDeleteMessageChildren
       messageModel messageStatusModel notificationModel notificationStatusModel
       userDataBackup retrievedMessage)
    (fun _ => backupAndDeleteMessage messageModel userDataBackup retrievedMessage).

(** handler.ts:612-673 *)
Definition backupAndDeleteAllMessagesData
           (messageModel : MessageModel.t)
           (messageStatusModel : MessageStatusModel.t)
           (notificationModel : NotificationModel.t)
           (notificationStatusModel : NotificationStatusModel.t)
           (userDataBackup : IBlobServiceInfo)
           (fiscalCode : string)
  : TaskEither World DataFailure (list RetrievedMessageWithoutContent.t) :=
  bimap
    (debug "backupAndDeleteAllMessagesData left")
    (debug "backupAndDeleteAllMessagesData right")
    (foldTaskEither
       (fun e => fromEither (Left e))
       (fun messages : list RetrievedMessageWithoutContent.t =>
          array_sequence
            (List.map
               (backupAndDeleteOneMessageData
                  messageModel messageStatusModel notificationModel
                  notificationStatusModel userDataBackup)
               messages))
       (mapLeft
          (fun e => toQueryFailure (IsError e))
          (fromQueryEither (MessageModel.findMessages messageModel fiscalCode)))).

(** handler.ts:691-721 *)
Definition backupAndDeleteAllUserData
           (messageModel : MessageModel.t)
           (messageStatusModel : MessageStatusModel.t)
           (notificationModel : NotificationModel.t)
           (notificationStatusModel : NotificationStatusModel.t)
           (profileModel : ProfileModel.t)
           (userDataBackup : IBlobServiceInfo)
           (fiscalCode : string)
  : TaskEither World DataFailure (list (Nested RetrievedProfile.t)) :=
  chain
    (backupAndDeleteAllMessagesData
       messageModel messageStatusModel notificationModel notificationStatusModel
       userDataBackup fiscalCode)
    (fun _ => backupAndDeleteProfile profileModel userDataBackup fiscalCode).
End Cascade.

(** ** The input of the activity *)

(** A value of type [unknown]. *)
Inductive JsValue : Type :=
| JsUndefined
| JsNull
| JsBoolean (b : bool)
| JsNumber (n : Z)
| JsString (s : string)
| JsArray (elements : list JsValue)
| JsObject (properties : list (string * JsValue)).

(** [o[name]] *)
Fixpoint property (properties : list (string * JsValue)) (name : string) : JsValue :=
  match properties with
  | [] => JsUndefined
  | (k, v) :: rest => if String.eqb k name then v else property rest name
  end.

(** The [t.Errors] of a failed [decode], kept as the value that was refused. *)
Record Errors : Type := { refused : JsValue }.

(** handler.ts:46-50 *)
Record ActivityInput : Type := { backupFolder : string; fiscalCode : string }.

(** handler.ts:722-731 *)
Record IActivityHandlerInput : Type := {
  messageModel : MessageModel.t;
  messageStatusModel : MessageStatusModel.t;
  notificationModel : NotificationModel.t;
  notificationStatusModel : NotificationStatusModel.t;
  profileModel : ProfileModel.t;
  userDataBackupBlobService : BlobService;
  userDataBackupContainerName : string }.

Section Activity.
Variable JSON_stringify : forall T : Type, T -> string.
(** The pattern of [FiscalCode] and [readableReport], of italia-ts-commons. *)
Variable isFiscalCode : string -> bool.
Variable readableReport : Errors -> string.

(** [ActivityInput.decode]: an object whose [backupFolder] is a non-empty
    string and whose [fiscalCode] is a fiscal code. *)
Definition ActivityInput_decode (input : JsValue) : Either Errors ActivityInput :=
  match input with
  | JsObject properties =>
      match property properties "backupFolder", property properties "fiscalCode" with
      | JsString (String c s), JsString fc =>
          if isFiscalCode fc
          then Right {| backupFolder := String c s; fiscalCode := fc |}
          else Left {| refused := input |}
      | _, _ => Left {| refused := input |}
      end
  | _ => Left {| refused := input |}
  end.

(** handler.ts:736-791.  [logFailure] writes to the log of the context and
    returns nothing; a [DataFailure] is an [ActivityResultFailure] by
    subtyping, written [DataFailureOf] here. *)
Definition createDeleteUserDataActivityHandler (deps : IActivityHandlerInput)
           (input : JsValue) : Task World ActivityResult :=
  fun w =>
    let (e, w') :=
      bimap
        (fun failure : ActivityResultFailure => failure)
        (fun _ => ActivityResultSuccess)
        (chain
           (* validtes the input *)
           (fromEither
              (either_mapLeft
                 (fun reason => InvalidInputFailure (readableReport reason))
                 (ActivityInput_decode input)))
           (* then perform backup&delete on all user data *)
           (fun decoded : ActivityInput =>
              mapLeft DataFailureOf
                      (backupAndDeleteAllUserData
                         JSON_stringify
                         (messageModel deps) (messageStatusModel deps)
                         (notificationModel deps) (notificationStatusModel deps)
                         (profileModel deps)
                         {| blobService := userDataBackupBlobService deps;
                            containerName := userDataBackupContainerName deps;
                            folder := Some (backupFolder decoded) |}
                         (fiscalCode decoded))))
        w in
    (* unfold the value from the either *)
    (match e with Left failure => ActivityResultFailureOf failure | Right r => r end, w').
End Activity.
(** * The orchestrator of the downloads (handler.ts:792-859) *)

Module UserDataDownloadOrchestrator.
Definition logPrefix : string := "UserDataDownloadOrchestrator".

(** Modelled from the spec: the generated enum [UserDataProcessingStatusEnum]
    is not in the sources; its members are the four statuses of a job, each
    with its name as value. *)
Inductive UserDataProcessingStatusEnum : Type := PENDING | WIP | CLOSED | FAILED.

Definition valueOf (status : UserDataProcessingStatusEnum) : string :=
  match status with
  | PENDING => "PENDING"
  | WIP => "WIP"
  | CLOSED => "CLOSED"
  | FAILED => "FAILED"
  end.

(** [doc.status] is the literal [status]. *)
Definition hasStatus (doc : JsValue) (status : UserDataProcessingStatusEnum) : bool :=
  match doc with
  | JsObject properties =>
      match property properties "status" with
      | JsString s => String.eqb s (valueOf status)
      | _ => false
      end
  | _ => false
  end.

(** What the orchestrator does besides computing: it writes to the log and
    schedules sub-orchestrators, each with a decoded request as input. *)
Inductive Effect (A : Type) : Type :=
| LogWarn (message : string)
| LogInfo (message : string)
| CallSubOrchestrator (name : string) (input : A).

Arguments LogWarn {A} message.
Arguments LogInfo {A} message.

(** The generator either throws or yields [Task.all] of the scheduled
    tasks, each kept as the name and the input of its sub-orchestrator. *)
Inductive Outcome (A : Type) : Type :=
| Throws (message : string)
| Yields (subTasks : list (string * A)).

Arguments Throws {A} message.

Section Handler.
(** [readableReport] and [t.UnknownRecord]. *)
Variable readableReport : Errors -> string.
Variable isUnknownRecord : JsValue -> bool.

(** The codec [UserDataProcessing] of io-functions-commons: the value it
    decodes from a document, which is not the document (its [createdAt] is
    a [Date]), or nothing when it refuses the document. *)
Variable UserDataProcessing : Type.
Variable UserDataProcessing_decode : JsValue -> option UserDataProcessing.

(** handler.ts:802-813: the intersection of [UserDataProcessing] with the
    records whose [status] is [PENDING] or [FAILED].  The second codec reads
    the [status] and leaves the value as it is, so that the value decoded
    is that of the first. *)
Definition ProcessableUserDataProcessing_decode (doc : JsValue)
  : Either Errors UserDataProcessing :=
  match UserDataProcessing_decode doc with
  | Some value =>
      if hasStatus doc PENDING || hasStatus doc FAILED
      then Right value
      else Left {| refused := doc |}
  | None => Left {| refused := doc |}
  end.

(** handler.ts:815 *)
Definition CosmosDbDocumentCollection_decode (input : JsValue)
  : Either Errors (list JsValue) :=
  match input with
  | JsArray documents =>
      if forallb isUnknownRecord documents
      then Right documents
      else Left {| refused := input |}
  | _ => Left {| refused := input |}
  end.

(** The [reduce] of handler.ts:832-845, with the warnings it logs. *)
Definition keepProcessable (decoded : list (Either Errors UserDataProcessing))
  : list UserDataProcessing * list (Effect UserDataProcessing) :=
  fold_left
    (fun (acc : list UserDataProcessing * list (Effect UserDataProcessing))
         maybeProcessable =>
       let (documents, logged) := acc in
       match maybeProcessable with
       | Left errors =>
           (documents,
            logged ++ [LogWarn (logPrefix ++ ": skipping document ["
                                          ++ readableReport errors ++ "]")%string])
       | Right value => (documents ++ [value], logged)
       end)
    decoded ([], []).

(** handler.ts:818-859 *)
Definition handler (input : JsValue)
  : Outcome UserDataProcessing * list (Effect UserDataProcessing) :=
  match CosmosDbDocumentCollection_decode input with
  | Left err =>
      (Throws (logPrefix ++ ": cannot decode input [" ++ readableReport err ++ "]")%string,
       [])
  | Right documents =>
      let (processable, warnings) :=
        keepProcessable (List.map ProcessableUserDataProcessing_decode documents) in
      let subTasks :=
        List.map (fun processableDoc =>
                    ("UserDataDownloadSubOrchestrator", processableDoc))
                 processable in
      (Yields subTasks,
       warnings
         ++ List.map (fun task : string * UserDataProcessing =>
                        CallSubOrchestrator (fst task) (snd task)) subTasks
         ++ [LogInfo (logPrefix ++ ": processing "
                                ++ Number_toString (N.of_nat (List.length subTasks))
                                ++ " document"
                                ++ (if Nat.eqb (List.length subTasks) 1 then "" else "s"))
                     %string])
  end.
End Handler.
End UserDataDownloadOrchestrator.
(** * The workflow of one job *)

Module UserDataDownloadSubOrchestrator.
Import UserDataDownloadOrchestrator.

(** Modelled from the spec: the handler of the sub-orchestrator
    ([getHandler(DELAY)] of the tests) is not in the sources.  The
    definitions of this module follow the state machine of the design
    document (the acceptance of a job, the transition to [WIP], the steps
    under a retry policy, the transition to [CLOSED], and the transition to
    [FAILED] on a failure); the names of the activities are those of the
    tests. *)
Record WorkflowJob : Type :=
  { id : string; userKey : string; status : UserDataProcessingStatusEnum;
    payload : string }.

Definition withStatus (job : WorkflowJob) (next : UserDataProcessingStatusEnum)
  : WorkflowJob :=
  {| id := id job; userKey := userKey job; status := next; payload := payload job |}.

(** The calls of the workflow: the update of the status of the job, and one
    attempt of a business step, with the number of attempts left after it. *)
Inductive Activity : Type :=
| SetUserDataProcessingStatus (currentRecord : WorkflowJob)
                              (nextStatus : UserDataProcessingStatusEnum)
| BusinessStep (name : string) (job : WorkflowJob) (attemptsLeft : nat).

Record Event : Type := { activity : Activity; succeeded : bool }.

(** The reason of the failure of a call, if it fails, given the calls made
    so far. *)
Definition Answers : Type := list Event -> Activity -> option string.

(** The retry policy: a fixed delay between two attempts, and a bounded
    number of attempts after the first. *)
Record RetryOptions : Type := { delay : nat; retries : nat }.

Inductive Result : Type :=
| OrchestratorSuccess
| NotProcessable
| ActivityFailure (activityName reason : string)
                  (extra : option UserDataProcessingStatusEnum).

(** The workflow returns a result, or ends with a fatal error. *)
Inductive Outcome : Type :=
| Returns (result : Result)
| FatalError (message : string).

Definition setUserDataProcessingStatusActivity : string :=
  "setUserDataProcessingStatusActivity".

(** The ordered business steps of the download. *)
Definition downloadSteps : list string :=
  ["extractUserDataActivity"; "sendUserDataDownloadMessageActivity"].

Section Workflow.
Variable answers : Answers.
Variable retryOptions : RetryOptions.
Variable steps : list string.

Definition callActivity (a : Activity) (h : list Event) : option string * list Event :=
  let r := answers h a in
  (r, h ++ [{| activity := a;
               succeeded := match r with None => true | Some _ => false end |}]).

(** Modelled from the spec: the retry policy of a step, which is attempted
    again, up to the bound, as long as it fails. *)
Fixpoint callActivityWithRetry (name : string) (job : WorkflowJob)
         (attemptsLeft : nat) (h : list Event) : option string * list Event :=
  match callActivity (BusinessStep name job attemptsLeft) h with
  | (None, h') => (None, h')
  | (Some reason, h') =>
      match attemptsLeft with
      | O => (Some reason, h')
      | S n => callActivityWithRetry name job n h'
      end
  end.

(** Modelled from the spec: the business steps in order, up to the first
    one that exhausts its attempts. *)
Fixpoint runSteps (names : list string) (job : WorkflowJob) (h : list Event)
  : option (string * string) * list Event :=
  match names with
  | [] => (None, h)
  | name :: rest =>
      match callActivityWithRetry name job (retries retryOptions) h with
      | (None, h') => runSteps rest job h'
      | (Some reason, h') => (Some (name, reason), h')
      end
  end.

(** Modelled from the spec: (d) the job goes to [FAILED]; if that cannot
    be persisted either, the error is fatal. *)
Definition toFailed (job : WorkflowJob) (failure : Result) (h : list Event)
  : Outcome * list Event :=
  match callActivity (SetUserDataProcessingStatus job FAILED) h with
  | (None, h') => (Returns failure, h')
  | (Some reason, h') => (FatalError reason, h')
  end.

(** Modelled from the spec: the handler of the sub-orchestrator, from the
    acceptance of the job to its last transition.  A job in progress or
    closed is not processed again; the tests read that outcome with the
    decoder of an invalid input. *)
Definition handler (job : WorkflowJob) : Outcome * list Event :=
  match status job with
  | WIP | CLOSED => (Returns NotProcessable, [])
  | PENDING | FAILED =>
      (* (a) the job goes to WIP *)
      match callActivity (SetUserDataProcessingStatus job WIP) [] with
      | (Some reason, h1) =>
          toFailed job
                 (ActivityFailure setUserDataProcessingStatusActivity reason (Some WIP))
                 h1
      | (None, h1) =>
          let current := withStatus job WIP in
          (* (b) the business steps *)
          match runSteps steps current h1 with
          | (Some (name, reason), h2) =>
              toFailed current (ActivityFailure name reason None) h2
          | (None, h2) =>
              (* (c) the job goes to CLOSED *)
              match callActivity (SetUserDataProcessingStatus current CLOSED) h2 with
              | (Some reason, h3) =>
                  toFailed current
                         (ActivityFailure setUserDataProcessingStatusActivity reason
                                          (Some CLOSED))
                         h3
              | (None, h3) => (Returns OrchestratorSuccess, h3)
              end
          end
      end
  end.
End Workflow.

(** The transitions of the status that were persisted, in order. *)
Definition persisted (h : list Event)
  : list (UserDataProcessingStatusEnum * UserDataProcessingStatusEnum) :=
  flat_map (fun e =>
              match activity e with
              | SetUserDataProcessingStatus currentRecord nextStatus =>
                  if succeeded e then [(status currentRecord, nextStatus)] else []
              | BusinessStep _ _ _ => []
              end) h.

(** A call that fails for good: an update of the status that fails, or the
    last attempt of a step that fails. *)
Definition fatal (e : Event) : bool :=
  negb (succeeded e)
  && match activity e with
     | SetUserDataProcessingStatus _ _ => true
     | BusinessStep _ _ attemptsLeft => Nat.eqb attemptsLeft 0
     end.

Definition nameOf (a : Activity) : string :=
  match a with
  | SetUserDataProcessingStatus _ _ => setUserDataProcessingStatusActivity
  | BusinessStep name _ _ => name
  end.

Definition extraOf (a : Activity) : option UserDataProcessingStatusEnum :=
  match a with
  | SetUserDataProcessingStatus _ nextStatus => Some nextStatus
  | BusinessStep _ _ _ => None
  end.
End UserDataDownloadSubOrchestrator.
(** * The handler of GetUser (GetUser/handler.ts) *)

Module GetUser.

(** What the handler reads of a [UserContract] of the API management: its
    optional [name]. *)
Record UserContract : Type := { name : option string }.

(** A page of a listing: an array with an optional [nextLink]. *)
Record Listing (T : Type) : Type := { value : list T; nextLink : option string }.
Arguments value {T} l.
Arguments nextLink {T} l.

(** The calls to the API management, and the world as their history. *)
Inductive Call : Type :=
| GetApiClient (subscriptionId : string)
| UserListByService (apimResourceGroup apim filter : string)
| GetUserGroups (apimResourceGroup apim userName : string)
| UserSubscriptionList (apimResourceGroup apim userName : string)
| UserSubscriptionListNext (nextLink : string).

Record Event : Type := { call : Call; ok : bool }.

Definition World : Type := list Event.

(** A task either never completes ([None]: the loop of the listing may run
    for ever) or completes with a value and the next world. *)
Definition Task (A : Type) : Type := World -> option (A * World).

Definition TaskEither (L A : Type) : Type := Task (Either L A).

Definition fromEither {L A} (e : Either L A) : TaskEither L A :=
  fun w => Some (e, w).

Definition map {L A B} (f : A -> B) (t : TaskEither L A) : TaskEither L B :=
  fun w => match t w with
           | None => None
           | Some (e, w') => Some (either_map f e, w')
           end.

Definition mapLeft {L M A} (f : L -> M) (t : TaskEither L A) : TaskEither M A :=
  fun w => match t w with
           | None => None
           | Some (e, w') => Some (either_mapLeft f e, w')
           end.

Definition chain {L A B} (t : TaskEither L A) (f : A -> TaskEither L B)
  : TaskEither L B :=
  fun w => match t w with
           | None => None
           | Some (Left l, w') => Some (Left l, w')
           | Some (Right a, w') => f a w'
           end.

(** [fromPredicate(predicate, whenFalse)] *)
Definition fromPredicate {L A} (predicate : A -> bool) (whenFalse : A -> L) (a : A)
  : TaskEither L A :=
  fromEither (if predicate a then Right a else Left (whenFalse a)).

(** [taskEither.ap]: both sides run, the function side first; the result
    waits for both. *)
Definition ap {L A B} (fab : TaskEither L (A -> B)) (fa : TaskEither L A)
  : TaskEither L B :=
  fun w => match fab w with
           | None => None
           | Some (ef, w1) =>
               match fa w1 with
               | None => None
               | Some (ea, w2) => Some (either_ap ef ea, w2)
               end
           end.

(** [sequenceT(taskEither)(a, b)] *)
Definition sequenceT {L A B} (a : TaskEither L A) (b : TaskEither L B)
  : TaskEither L (A * B) :=
  ap (map (fun x y => (x, y)) a) b.

(** [tryCatch(f, onRejected)] *)
Definition tryCatch {L R} (f : Task (PromiseOutcome R)) (onRejected : string -> L)
  : TaskEither L R :=
  fun w => match f w with
           | None => None
           | Some (Rejects reason, w') => Some (Left (onRejected reason), w')
           | Some (Resolves r, w') => Some (Right r, w')
           end.

(** [array.traverse(either)(ta, f)]: a left-to-right [reduce] through the
    [ap] of [Either], which keeps the first [Left]. *)
Definition array_traverse {L A B} (ta : list A) (f : A -> Either L B)
  : Either L (list B) :=
  fold_left (fun fbs a => either_ap (either_map (fun bs b => bs ++ [b]) fbs) (f a))
            ta (Right []).

(** [NonEmptyString.decode], of italia-ts-commons. *)
Definition NonEmptyString_decode (u : option string) : Either Errors string :=
  match u with
  | Some (String c s) => Right (String c s)
  | Some EmptyString => Left {| refused := JsString EmptyString |}
  | None => Left {| refused := JsUndefined |}
  end.

(** [Either.value]: the value of either side. *)
Definition either_value {L A} (e : Either L A) : L + A :=
  match e with Left l => inl l | Right a => inr a end.

Definition settled {R} (o : PromiseOutcome R) : bool :=
  match o with Resolves _ => true | Rejects _ => false end.

Record IServicePrincipalCreds : Type :=
  { clientId : string; secret : string; tenantId : string }.

Record IAzureApimConfig : Type :=
  { apim : string; apimResourceGroup : string; subscriptionId : string }.

Section Handler.
(** The contracts of the API management, the definitions of the API and the
    response of an internal error, of [@azure/arm-apimanagement], of the
    generated definitions and of italia-ts-commons. *)
Variables GroupContract SubscriptionContract Group Subscription UserInfo : Type.
Variable IResponseErrorInternal : Type.

(** [ApiManagementClient]: the answers of the methods the handler calls,
    given the history of calls. *)
Record ApiManagementClient : Type := {
  user_listByService :
    string -> string -> string -> World -> PromiseOutcome (list UserContract);
  userSubscription_list :
    string -> string -> string -> World -> PromiseOutcome (Listing SubscriptionContract);
  userSubscription_listNext :
    string -> World -> PromiseOutcome (Listing SubscriptionContract) }.

(** The answers of [getApiClient] and [getUserGroups], the conversions and
    the error handlers of [../utils], and the codec [UserInfo]: they are
    not in the sources and stay parameters. *)
Variable answerGetApiClient :
  IServicePrincipalCreds -> string -> World -> Either string ApiManagementClient.
Variable answerGetUserGroups :
  ApiManagementClient -> string -> string -> string -> World ->
  Either string (list GroupContract).
Variable groupContractToApiGroup : GroupContract -> Either string Group.
Variable subscriptionContractToApiSubscription :
  SubscriptionContract -> Either string Subscription.
Variable genericInternalErrorHandler : string -> string -> string -> IResponseErrorInternal.
Variable genericInternalValidationErrorHandler :
  string -> Errors -> string -> IResponseErrorInternal.
Variable UserInfo_decode :
  string + list Group -> string + list Subscription -> Either Errors UserInfo.

Inductive Response : Type :=
| ResponseSuccessJson (payload : UserInfo)
| ResponseErrorInternal (response : IResponseErrorInternal)
| ResponseErrorNotFound (title detail : string).

Definition getApiClient (servicePrincipalCreds : IServicePrincipalCreds)
           (subscriptionId : string) : TaskEither string ApiManagementClient :=
  fun w =>
    let r := answerGetApiClient servicePrincipalCreds subscriptionId w in
    Some (r, w ++ [{| call := GetApiClient subscriptionId; ok := isRight r |}]).

Definition getUserGroups (apiClient : ApiManagementClient)
           (apimResourceGroup apim userName : string)
  : TaskEither string (list GroupContract) :=
  fun w =>
    let r := answerGetUserGroups apiClient apimResourceGroup apim userName w in
    Some (r, w ++ [{| call := GetUserGroups apimResourceGroup apim userName;
                      ok := isRight r |}]).

(** The loop of handler.ts:93-99.  [fuel] bounds the number of pages that
    are asked for: without fuel left before a link that is not empty, the
    task does not complete. *)
Fixpoint listNextPages (fuel : nat) (apimClient : ApiManagementClient)
         (link : option string) (subscriptionList : list SubscriptionContract)
  : Task (PromiseOutcome (list SubscriptionContract)) :=
  match link with
  | Some (String c s) =>
      match fuel with
      | O => fun _ => None
      | S fuel' =>
          fun w =>
            let o := userSubscription_listNext apimClient (String c s) w in
            let w' := w ++ [{| call := UserSubscriptionListNext (String c s);
                               ok := settled o |}] in
            match o with
            | Rejects reason => Some (Rejects reason, w')
            | Resolves nextSubscriptionList =>
                listNextPages fuel' apimClient (nextLink nextSubscriptionList)
                              (subscriptionList ++ value nextSubscriptionList) w'
            end
      end
  | _ => fun w => Some (Resolves subscriptionList, w)
  end.

(** handler.ts:76-102; [toError] keeps the message. *)
Definition getUserSubscriptions (fuel : nat) (apimClient : ApiManagementClient)
           (apimResourceGroup apim userName : string)
  : TaskEither string (list SubscriptionContract) :=
  tryCatch
    (fun w =>
       let o := userSubscription_list apimClient apimResourceGroup apim userName w in
       let w' := w ++ [{| call := UserSubscriptionList apimResourceGroup apim userName;
                          ok := settled o |}] in
       match o with
       | Rejects reason => Some (Rejects reason, w')
       | Resolves subscriptionListResponse =>
           listNextPages fuel apimClient (nextLink subscriptionListResponse)
                         ([] ++ value subscriptionListResponse) w'
       end)
    (fun reason => reason).

(** handler.ts:104-249.  The context, the authorization, the address of
    the client and the attributes of the user are not read. *)
Definition GetUserHandler (fuel : nat) (servicePrincipalCreds : IServicePrincipalCreds)
           (azureApimConfig : IAzureApimConfig) (email : string) : Task Response :=
  let internalErrorHandler (errorMessage error : string) : Response :=
    ResponseErrorInternal
      (genericInternalErrorHandler ("GetUsers | " ++ errorMessage) error errorMessage) in
  let internalValidationErrorHandler (errorMessage : string) (errors : Errors)
    : Response :=
    ResponseErrorInternal
      (genericInternalValidationErrorHandler ("GetUsers | " ++ errorMessage) errors
                                             errorMessage) in
  fun w =>
    match
      chain
        (chain
           (chain
              (map
                 (fun contractLists : list GroupContract * list SubscriptionContract =>
                    let (groupContracts, subscriptionContracts) := contractLists in
                    let errorOrGroups :=
                      array_traverse groupContracts groupContractToApiGroup in
                    let errorOrSubscriptions :=
                      array_traverse subscriptionContracts
                                     subscriptionContractToApiSubscription in
                    (errorOrGroups, errorOrSubscriptions))
                 (chain
                    (chain
                       (chain
                          (chain
                             (mapLeft
                                (fun error =>
                                   internalErrorHandler "Could not get the APIM client."
                                                        error)
                                (getApiClient servicePrincipalCreds
                                              (subscriptionId azureApimConfig)))
                             (fun apiClient =>
                                tryCatch
                                  (fun w =>
                                     let o :=
                                       user_listByService
                                         apiClient
                                         (apimResourceGroup azureApimConfig)
                                         (apim azureApimConfig)
                                         ("email eq '" ++ email ++ "'") w in
                                     Some
                                       (match o with
                                        | Rejects reason => Rejects reason
                                        | Resolves userList =>
                                            Resolves (apiClient, userList)
                                        end,
                                        w ++ [{| call :=
                                                   UserListByService
                                                     (apimResourceGroup azureApimConfig)
                                                     (apim azureApimConfig)
                                                     ("email eq '" ++ email ++ "'");
                                                 ok := settled o |}]))
                                  (fun error =>
                                     internalErrorHandler
                                       "Could not list the user by email." error)))
                          (fromPredicate
                             (fun taskResults : ApiManagementClient * list UserContract =>
                                negb (Nat.eqb (List.length (snd taskResults)) 0))
                             (fun _ =>
                                ResponseErrorNotFound
                                  "Not found" "The required resource does not exist")))
                       (fun taskResults =>
                          map (fun userName => (fst taskResults, userName))
                              (mapLeft
                                 (fun errors =>
                                    internalValidationErrorHandler
                                      "Could not get user name from user contract."
                                      errors)
                                 (fromEither
                                    (NonEmptyString_decode
                                       (* [userList[0].name] *)
                                       match snd taskResults with
                                       | first :: _ => name first
                                       | [] => None
                                       end)))))
                    (fun taskResults =>
                       mapLeft
                         (fun error =>
                            internalErrorHandler
                              "Could not get user groups and subscriptions from APIM."
                              error)
                         (sequenceT
                            (getUserGroups (fst taskResults)
                                           (apimResourceGroup azureApimConfig)
                                           (apim azureApimConfig) (snd taskResults))
                            (getUserSubscriptions
                               fuel (fst taskResults)
                               (apimResourceGroup azureApimConfig)
                               (apim azureApimConfig) (snd taskResults))))))
              (fromPredicate
                 (fun userInfo : Either string (list Group)
                                 * Either string (list Subscription) =>
                    isRight (fst userInfo))
                 (fun userInfoWithError =>
                    internalErrorHandler
                      "Invalid group contract from APIM."
                      (* [errorOrGroups.value as Error] *)
                      match fst userInfoWithError with
                      | Left error => error
                      | Right _ => EmptyString
                      end)))
           (fromPredicate
              (fun userInfo : Either string (list Group)
                              * Either string (list Subscription) =>
                 isRight (snd userInfo))
              (fun userInfoWithError =>
                 internalErrorHandler
                   "Invalid subscription contract from APIM."
                   (* [errorOrSubscriptions.value as Error] *)
                   match snd userInfoWithError with
                   | Left error => error
                   | Right _ => EmptyString
                   end)))
        (fun userInfo =>
           fromEither
             (either_map
                ResponseSuccessJson
                (either_mapLeft
                   (fun errors =>
                      internalValidationErrorHandler "Invalid response payload." errors)
                   (UserInfo_decode (either_value (fst userInfo))
                                    (either_value (snd userInfo))))))
        w
    with
    | None => None
    | Some (response, w') =>
        (* [response.value] *)
        Some (match response with Left r => r | Right r => r end, w')
    end.
End Handler.
End GetUser.

(** * The vocabulary of the properties *)

(** ** Running the tasks of an array one after the other *)

Section RunAll.
Context {S L A : Type}.

(** Every task runs, whatever the outcome of the ones before it. *)
Fixpoint runAll (ts : list (TaskEither S L A)) (s : S) : list (Either L A) * S :=
  match ts with
  | [] => ([], s)
  | t :: ts' =>
      let (r, s1) := t s in
      let (rs, s2) := runAll ts' s1 in
      (r :: rs, s2)
  end.

(** The outcomes are joined from the left, so the first [Left] is kept. *)
Definition joinFrom (acc : Either L (list A)) (rs : list (Either L A))
  : Either L (list A) :=
  fold_left (fun acc r => either_ap (either_map (fun xs a => xs ++ [a]) acc) r) rs acc.
End RunAll.

(** ** Postconditions on the calls appended to the history *)

Class HasWorld (S : Type) : Type := worldOf : S -> World.
#[global] Instance HasWorld_World : HasWorld World := fun w => w.
#[global] Instance HasWorld_pair {X : Type} : HasWorld (X * World) := fun s => snd s.

(** From any state that satisfies [inv], the task [t] keeps [inv], only
    appends calls to the history, and its outcome and the appended calls
    satisfy [Q]. *)
Definition emits {S} `{HasWorld S} {A} (inv : S -> Prop) (t : Task S A)
           (Q : A -> list Event -> Prop) : Prop :=
  forall s, inv s ->
    exists d, inv (snd (t s)) /\ worldOf (snd (t s)) = worldOf s ++ d /\ Q (fst (t s)) d.

(** ** The shape of every run of the cascade

    Whatever the services answer, the calls of a run are a concatenation of
    a few steps: a query, the lookup of a message content, and the backup of
    a document followed, only when the backup succeeded, by its deletion.
    Next to the calls stands the failure the run reports, if any: the first
    one in the order of the concatenation. *)

Definition failureOf {A} (r : Either DataFailure A) : option DataFailure :=
  match r with Left f => Some f | Right _ => None end.

Definition firstFailure (o1 o2 : option DataFailure) : option DataFailure :=
  match o1 with Some f => Some f | None => o2 end.

Inductive Step : Type :=
| StepQuery (c : Call)
| StepLookup (c : Call)
| StepBackupThenDelete (save delete : Call).

Inductive Grammar (steps : Step -> Prop) : option DataFailure -> list Event -> Prop :=
| Grammar_nil : Grammar steps None []
| Grammar_query_ok c :
    steps (StepQuery c) -> Grammar steps None [{| call := c; ok := true |}]
| Grammar_query_failed c reason :
    steps (StepQuery c) ->
    Grammar steps (Some (QueryFailure reason None)) [{| call := c; ok := false |}]
| Grammar_lookup c b :
    steps (StepLookup c) -> Grammar steps None [{| call := c; ok := b |}]
| Grammar_backup_failed save delete reason :
    steps (StepBackupThenDelete save delete) ->
    Grammar steps (Some (BlobCreationFailure reason)) [{| call := save; ok := false |}]
| Grammar_backup_delete save delete :
    steps (StepBackupThenDelete save delete) ->
    Grammar steps None [{| call := save; ok := true |}; {| call := delete; ok := true |}]
| Grammar_delete_failed save delete reason :
    steps (StepBackupThenDelete save delete) ->
    Grammar steps (Some (DocumentDeleteFailure reason))
            [{| call := save; ok := true |}; {| call := delete; ok := false |}]
| Grammar_app o1 d1 o2 d2 :
    Grammar steps o1 d1 -> Grammar steps o2 d2 ->
    Grammar steps (firstFailure o1 o2) (d1 ++ d2).

Create HintDb cascade.
#[global] Hint Constructors Grammar : cascade.

(** A task follows [steps] when each of its runs is in the grammar. *)
Definition follows {S} `{HasWorld S} {A} (inv : S -> Prop) (steps : Step -> Prop)
           (t : TaskEither S DataFailure A) : Prop :=
  emits inv t (fun r d => Grammar steps (failureOf r) d).

(** ** The steps of each function of the cascade *)

Section StepsOfTheWalker.
Variable JSON_stringify : forall T : Type, T -> string.
Variable info : IBlobServiceInfo.

(** The call [saveDataToBlob] makes for a document. *)
Definition saveCall {T} (blobName : string) (data : T) : Call :=
  CreateBlockBlobFromText (containerName info)
                          (backupBlobPath (folder info) blobName)
                          (JSON_stringify data).

Section WalkerSteps.
Context {T : Type}.
Variable deleteCall : T -> Call.
Variable makeBackupBlobName : T -> string.
Variable q : Query.

Inductive WalkerSteps : Step -> Prop :=
| WalkerSteps_page : WalkerSteps (StepQuery (ExecuteNext q))
| WalkerSteps_item item :
    WalkerSteps (StepBackupThenDelete (saveCall (makeBackupBlobName item) item)
                                      (deleteCall item)).
End WalkerSteps.
End StepsOfTheWalker.

Section StepsOfTheCascade.
Variable JSON_stringify : forall T : Type, T -> string.
Variable info : IBlobServiceInfo.

Definition ProfileSteps (fiscalCode : string) : Step -> Prop :=
  WalkerSteps JSON_stringify info
    (fun item => DeleteProfileVersion (RetrievedProfile.fiscalCode item)
                                      (RetrievedProfile.id item))
    (fun item => ("profile--" ++ Number_toString (RetrievedProfile.version item)
                              ++ ".json")%string)
    (ProfileVersions fiscalCode).

Definition MessageStatusSteps (messageId : string) : Step -> Prop :=
  WalkerSteps JSON_stringify info
    (fun item => DeleteMessageStatusVersion (RetrievedMessageStatus.messageId item)
                                            (RetrievedMessageStatus.id item))
    (fun item => ("message-status--"
                    ++ Number_toString (RetrievedMessageStatus.version item)
                    ++ ".json")%string)
    (MessageStatusVersions messageId).

Definition NotificationStatusSteps (notificationId : string) : Step -> Prop :=
  WalkerSteps JSON_stringify info
    (fun item => DeleteNotificationStatusVersion
                   (RetrievedNotificationStatus.notificationId item)
                   (RetrievedNotificationStatus.id item))
    (fun item => ("notification-status--"
                    ++ Number_toString (RetrievedNotificationStatus.version item)
                    ++ ".json")%string)
    (NotificationStatusVersions notificationId).

Inductive NotificationSteps (notification : RetrievedNotification.t) : Step -> Prop :=
| NotificationSteps_status st :
    NotificationStatusSteps (RetrievedNotification.id notification) st ->
    NotificationSteps notification st
| NotificationSteps_self :
    NotificationSteps
      notification
      (StepBackupThenDelete
         (saveCall JSON_stringify info ("notification--" ++ RetrievedNotification.id notification
                                 ++ ".json")%string notification)
         (DeleteNotification (RetrievedNotification.messageId notification)
                             (RetrievedNotification.id notification))).

Inductive MessageContentSteps (message : RetrievedMessageWithoutContent.t)
  : Step -> Prop :=
| MessageContentSteps_lookup :
    MessageContentSteps
      message (StepLookup (GetContentFromBlob (RetrievedMessageWithoutContent.id message)))
| MessageContentSteps_content (content : MessageContent.t) :
    MessageContentSteps
      message
      (StepBackupThenDelete
         (saveCall JSON_stringify info ("messagecontent--" ++ RetrievedMessageWithoutContent.id message
                                   ++ ".json")%string content)
         (DeleteContentFromBlob (RetrievedMessageWithoutContent.id message))).

(** The steps of the three child cascades of a message. *)
Inductive MessageChildrenSteps (message : RetrievedMessageWithoutContent.t)
  : Step -> Prop :=
| MessageChildrenSteps_content st :
    MessageContentSteps message st -> MessageChildrenSteps message st
| MessageChildrenSteps_status st :
    MessageStatusSteps (RetrievedMessageWithoutContent.id message) st ->
    MessageChildrenSteps message st
| MessageChildrenSteps_find :
    MessageChildrenSteps
      message
      (StepQuery (FindNotificationsForMessage (RetrievedMessageWithoutContent.id message)))
| MessageChildrenSteps_notification notification st :
    NotificationSteps notification st -> MessageChildrenSteps message st.

Inductive MessageSteps (message : RetrievedMessageWithoutContent.t) : Step -> Prop :=
| MessageSteps_children st :
    MessageChildrenSteps message st -> MessageSteps message st
| MessageSteps_self :
    MessageSteps
      message
      (StepBackupThenDelete
         (saveCall JSON_stringify info ("message--" ++ RetrievedMessageWithoutContent.id message
                            ++ ".json")%string message)
         (DeleteMessage (RetrievedMessageWithoutContent.fiscalCode message)
                        (RetrievedMessageWithoutContent.id message))).

Inductive AllMessagesSteps (fiscalCode : string) : Step -> Prop :=
| AllMessagesSteps_find : AllMessagesSteps fiscalCode (StepQuery (FindMessages fiscalCode))
| AllMessagesSteps_message message st :
    MessageSteps message st -> AllMessagesSteps fiscalCode st.

Inductive AllUserDataSteps (fiscalCode : string) : Step -> Prop :=
| AllUserDataSteps_messages st :
    AllMessagesSteps fiscalCode st -> AllUserDataSteps fiscalCode st
| AllUserDataSteps_profile st :
    ProfileSteps fiscalCode st -> AllUserDataSteps fiscalCode st.
End StepsOfTheCascade.

(** ** What the grammar says about a run *)

Definition isSave (c : Call) : bool :=
  match c with CreateBlockBlobFromText _ _ _ => true | _ => false end.

Definition isDelete (c : Call) : bool :=
  match c with
  | DeleteProfileVersion _ _ | DeleteNotification _ _
  | DeleteNotificationStatusVersion _ _ | DeleteMessage _ _
  | DeleteMessageStatusVersion _ _ | DeleteContentFromBlob _ => true
  | _ => false
  end.

Definition isQueryCall (c : Call) : bool :=
  match c with
  | ExecuteNext _ | FindMessages _ | FindNotificationsForMessage _ => true
  | _ => false
  end.

(** Some call of the class [p] failed among [d]. *)
Definition failed (p : Call -> bool) (d : list Event) : bool :=
  existsb (fun e => p (call e) && negb (ok e)) d.

(** The steps name their calls by what they are. *)
Definition wellFormed (st : Step) : Prop :=
  match st with
  | StepQuery c => isQueryCall c = true
  | StepLookup c => isSave c = false /\ isDelete c = false /\ isQueryCall c = false
  | StepBackupThenDelete save delete => isSave save = true /\ isDelete delete = true
  end.

(** In the schedule the history keeps, every deletion comes right after the
    successful backup of the same document. *)
Inductive Guarded (steps : Step -> Prop) : list Event -> Prop :=
| Guarded_nil : Guarded steps []
| Guarded_other e d :
    isDelete (call e) = false -> Guarded steps d -> Guarded steps (e :: d)
| Guarded_backup save delete b d :
    steps (StepBackupThenDelete save delete) -> Guarded steps d ->
    Guarded steps ({| call := save; ok := true |} :: {| call := delete; ok := b |} :: d).

(** ** Calls on a given document *)

Definition stepCalls (P : Call -> Prop) (st : Step) : Prop :=
  match st with
  | StepQuery c | StepLookup c => P c
  | StepBackupThenDelete save delete => P save /\ P delete
  end.

(** The backup of the message itself and its deletion. *)
Definition onMessage (info : IBlobServiceInfo) (message : RetrievedMessageWithoutContent.t)
           (c : Call) : bool :=
  match c with
  | DeleteMessage _ id => String.eqb id (RetrievedMessageWithoutContent.id message)
  | CreateBlockBlobFromText _ blobName _ =>
      String.eqb blobName
                 (backupBlobPath (folder info)
                                 ("message--" ++ RetrievedMessageWithoutContent.id message
                                              ++ ".json"))
  | _ => false
  end.

(** The calls of the cascade over the versions of the profile. *)
Definition onProfile (info : IBlobServiceInfo) (c : Call) : bool :=
  match c with
  | ExecuteNext (ProfileVersions _) => true
  | DeleteProfileVersion _ _ => true
  | CreateBlockBlobFromText _ blobName _ =>
      String.prefix (backupBlobPath (folder info) "profile--") blobName
  | _ => false
  end.

(** ** The names of the backups *)

(** [s.includes(sub)] *)
Fixpoint includes (s sub : string) : bool :=
  String.prefix sub s
  || match s with
     | EmptyString => false
     | String _ s' => includes s' sub
     end.

Section BackupNames.
Variable JSON_stringify : forall T : Type, T -> string.
Variable backupFolder : string.

(** The name and the text of a backup.  A message, a notification and the
    content of a message are named after an id, a version of the profile
    after its version alone; of the two histories of statuses only the
    prefix is stated. *)
Inductive NamedBackup : string -> string -> Prop :=
| NamedBackup_message (message : RetrievedMessageWithoutContent.t) :
    NamedBackup (backupFolder ++ "/message--"
                              ++ RetrievedMessageWithoutContent.id message ++ ".json")
                (JSON_stringify message)
| NamedBackup_notification (notification : RetrievedNotification.t) :
    NamedBackup (backupFolder ++ "/notification--"
                              ++ RetrievedNotification.id notification ++ ".json")
                (JSON_stringify notification)
| NamedBackup_content (message : RetrievedMessageWithoutContent.t)
                      (content : MessageContent.t) :
    NamedBackup (backupFolder ++ "/messagecontent--"
                              ++ RetrievedMessageWithoutContent.id message ++ ".json")
                (JSON_stringify content)
| NamedBackup_profile (profile : RetrievedProfile.t) :
    NamedBackup (backupFolder ++ "/profile--"
                              ++ Number_toString (RetrievedProfile.version profile)
                              ++ ".json")
                (JSON_stringify profile)
| NamedBackup_message_status (rest : string) (status : RetrievedMessageStatus.t) :
    NamedBackup (backupFolder ++ "/message-status--" ++ rest) (JSON_stringify status)
| NamedBackup_notification_status (rest : string)
                                  (status : RetrievedNotificationStatus.t) :
    NamedBackup (backupFolder ++ "/notification-status--" ++ rest)
                (JSON_stringify status).

Definition namedBackupCall (containerName : string) (c : Call) : Prop :=
  forall container blobName text,
    c = CreateBlockBlobFromText container blobName text ->
    container = containerName /\ NamedBackup blobName text.
End BackupNames.

(** ** The activity *)

(** The first [executeNext] of an iterator finds no record. *)
Definition noRecords {T} (pgs : list (World -> Page T)) (w : World) : Prop :=
  match pgs with
  | [] => True
  | page :: _ => page w = Resolves (Right None) \/ page w = Resolves (Right (Some []))
  end.

Section BackupOfTheActivity.
Variable deps : IActivityHandlerInput.

(** Where the backups of a decoded input go. *)
Definition userDataBackupOf (decoded : ActivityInput) : IBlobServiceInfo :=
  {| blobService := userDataBackupBlobService deps;
     containerName := userDataBackupContainerName deps;
     folder := Some (backupFolder decoded) |}.
End BackupOfTheActivity.

(** ** The fuel of the walker *)

Section RecordTask.
Variable JSON_stringify : forall T : Type, T -> string.
Context {T : Type}.
Variable deleteSingle : T -> Task World (PromiseOutcome (Either QueryErrorOrError string)).
Variable userDataBackup : IBlobServiceInfo.
Variable makeBackupBlobName : T -> string.

(** The pages an iterator still holds. *)
Definition remaining (s : IResultIterator T * World) : nat := List.length (pages (fst s)).

(** The task of one record: its backup, its deletion, and the recursion
    [rest]. *)
Definition recordTask (rest : TaskEither (IResultIterator T * World) DataFailure
                                         (list (Nested T)))
           (item : T) : TaskEither (IResultIterator T * World) DataFailure (Nested T) :=
  map (fun '(_, _, nextResults) => Arr (Item item :: nextResults))
      (sequenceT3_seq
         (liftW (saveDataToBlob JSON_stringify userDataBackup
                                (makeBackupBlobName item) item))
         (liftW (mapLeft toDocumentDeleteFailure (fromQueryEither (deleteSingle item))))
         rest).
End RecordTask.

(** ** The documents the orchestrator skips *)

Section SkippedDocuments.
Import UserDataDownloadOrchestrator.
Variable readableReport : Errors -> string.
Context {A : Type}.

Definition skipping (errors : Errors) : Effect A :=
  LogWarn (logPrefix ++ ": skipping document [" ++ readableReport errors ++ "]")%string.
End SkippedDocuments.

(** ** The runs of the tasks mapped over an array *)

(** [Each P bs rs d]: the calls [d] split into one run for each element of
    [bs], in order, and the run of [b], with its outcome [r], satisfies
    [P b r]. *)
Inductive Each {B R : Type} (P : B -> R -> list Event -> Prop)
  : list B -> list R -> list Event -> Prop :=
| Each_nil : Each P [] [] []
| Each_cons b bs r rs d ds :
    P b r d -> Each P bs rs ds -> Each P (b :: bs) (r :: rs) (d ++ ds).

(** The message of the error a call ends with, as [fromQueryEither] and
    [toQueryFailure] print it. *)
Definition messageOf {R} (o : PromiseOutcome (Either QueryErrorOrError R)) : string :=
  match o with
  | Rejects message => message
  | Resolves (Left (IsError message)) => message
  | Resolves (Left (IsQueryError json)) => ("QueryError: " ++ json)%string
  | Resolves (Right _) => EmptyString
  end.

Definition isExecuteNext (c : Call) : bool :=
  match c with ExecuteNext _ => true | _ => false end.

Section RecordRuns.
Variable JSON_stringify : forall T : Type, T -> string.
Variable info : IBlobServiceInfo.
Context {T : Type}.
Variable deleteCall : T -> Call.
Variable makeBackupBlobName : T -> string.

(** The three ways the task of one record ends: its backup fails; its backup
    succeeds and its deletion fails; both succeed and the recursion runs,
    with an outcome and calls that satisfy [R]. *)
Inductive RecordRun (R : Either DataFailure (list (Nested T)) -> list Event -> Prop)
          (item : T) : Either DataFailure (Nested T) -> list Event -> Prop :=
| RecordRun_backup_failed reason :
    RecordRun R item (Left (BlobCreationFailure reason))
              [{| call := saveCall JSON_stringify info (makeBackupBlobName item) item;
                  ok := false |}]
| RecordRun_delete_failed reason :
    RecordRun R item (Left (DocumentDeleteFailure reason))
              [{| call := saveCall JSON_stringify info (makeBackupBlobName item) item;
                  ok := true |};
               {| call := deleteCall item; ok := false |}]
| RecordRun_recursion r d :
    R r d ->
    RecordRun R item (either_map (fun nextResults => Arr (Item item :: nextResults)) r)
              ({| call := saveCall JSON_stringify info (makeBackupBlobName item) item;
                  ok := true |}
                 :: {| call := deleteCall item; ok := true |} :: d).
End RecordRuns.

(** ** Calls made in a run *)

(** The call [c] was made among [d], whatever its outcome. *)
Definition called (c : Call) (d : list Event) : Prop :=
  exists b, In {| call := c; ok := b |} d.

(** ** The notifications of a message *)

Section OneNotification.
Variable JSON_stringify : forall T : Type, T -> string.

(** The function mapped over the notifications at handler.ts:579-592: the
    history of the statuses of the notification, then the notification. *)
Definition backupAndDeleteOneNotificationData
           (notificationModel : NotificationModel.t)
           (notificationStatusModel : NotificationStatusModel.t)
           (userDataBackup : IBlobServiceInfo)
           (notification : RetrievedNotification.t)
  : TaskEither World DataFailure
               (list (Nested RetrievedNotificationStatus.t) * RetrievedNotification.t) :=
  sequenceT2_seq
    (backupAndDeleteNotificationStatus
       JSON_stringify notificationStatusModel userDataBackup notification)
    (backupAndDeleteNotification JSON_stringify notificationModel userDataBackup notification).
End OneNotification.

(** The backup of the notification itself and its deletion. *)
Definition onNotification (info : IBlobServiceInfo) (notification : RetrievedNotification.t)
           (c : Call) : bool :=
  match c with
  | DeleteNotification _ id => String.eqb id (RetrievedNotification.id notification)
  | CreateBlockBlobFromText _ blobName _ =>
      String.eqb blobName
                 (backupBlobPath (folder info)
                                 ("notification--" ++ RetrievedNotification.id notification
                                                   ++ ".json"))
  | _ => false
  end.

(** The three child cascades of a message were started: the content of the
    message was looked up, the first page of the history of its statuses was
    asked for, and so were its notifications. *)
Definition childrenStarted (message : RetrievedMessageWithoutContent.t)
           (d : list Event) : Prop :=
  called (GetContentFromBlob (RetrievedMessageWithoutContent.id message)) d
  /\ called (ExecuteNext (MessageStatusVersions (RetrievedMessageWithoutContent.id message)))
            d
  /\ called (FindNotificationsForMessage (RetrievedMessageWithoutContent.id message)) d.

(** ** The documents the orchestrator schedules *)

Section ProcessableDocuments.
Import UserDataDownloadOrchestrator.
Context {UserDataProcessing : Type}.
Variable UserDataProcessing_decode : JsValue -> option UserDataProcessing.

(** A document the codec [ProcessableUserDataProcessing] accepts. *)
Definition isProcessable (doc : JsValue) : bool :=
  isRight (ProcessableUserDataProcessing_decode UserDataProcessing_decode doc).

(** The values decoded from the documents the codec accepts, in the order
    of the documents. *)
Definition decodedRequests (documents : list JsValue) : list UserDataProcessing :=
  flat_map (fun doc =>
              match ProcessableUserDataProcessing_decode UserDataProcessing_decode doc with
              | Right value => [value]
              | Left _ => []
              end)
           documents.
End ProcessableDocuments.

(** ** The failures the activity answers *)

(** A failure the cascade can produce or the failure of the decoder: not
    [UserNotFound], and no query failure that names its query. *)
Definition answeredFailure (failure : ActivityResultFailure) : Prop :=
  match failure with
  | UserNotFound => False
  | DataFailureOf (QueryFailure _ (Some _)) => False
  | _ => True
  end.

(** ** The listing of the subscriptions and the responses of GetUser *)

Section Listings.
Import GetUser.
Variables GroupContract SubscriptionContract Group Subscription UserInfo : Type.
Variable IResponseErrorInternal : Type.
Variable groupContractToApiGroup : GroupContract -> Either string Group.
Variable subscriptionContractToApiSubscription :
  SubscriptionContract -> Either string Subscription.
Variable genericInternalErrorHandler : string -> string -> string -> IResponseErrorInternal.
Variable genericInternalValidationErrorHandler :
  string -> Errors -> string -> IResponseErrorInternal.
Variable UserInfo_decode :
  string + list Group -> string + list Subscription -> Either Errors UserInfo.

(** [Pages apimClient link w pages rejected w']: from the world [w], the
    pages behind [link] are [pages], each one asked with [listNext] for the
    link of the page before; the listing ends at a page without link
    ([rejected] is [None]) or at a call that is rejected ([rejected] is its
    reason); [w'] is the world after these calls. *)
Inductive Pages (apimClient : ApiManagementClient SubscriptionContract)
  : option string -> World -> list (Listing SubscriptionContract) -> option string ->
    World -> Prop :=
| Pages_none w : Pages apimClient None w [] None w
| Pages_empty w : Pages apimClient (Some EmptyString) w [] None w
| Pages_rejected c s w reason :
    userSubscription_listNext apimClient (String c s) w = Rejects reason ->
    Pages apimClient (Some (String c s)) w [] (Some reason)
          (w ++ [{| call := UserSubscriptionListNext (String c s); ok := false |}])
| Pages_next c s w page pages rejected w' :
    userSubscription_listNext apimClient (String c s) w = Resolves page ->
    Pages apimClient (nextLink page)
          (w ++ [{| call := UserSubscriptionListNext (String c s); ok := true |}])
          pages rejected w' ->
    Pages apimClient (Some (String c s)) w (page :: pages) rejected w'.

(** The response of an internal error, as the two handlers of
    handler.ts:109-125 build it. *)
Definition internalError (errorMessage error : string)
  : Response UserInfo IResponseErrorInternal :=
  ResponseErrorInternal
    UserInfo
    (genericInternalErrorHandler ("GetUsers | " ++ errorMessage) error errorMessage).

Definition validationError (errorMessage : string) (errors : Errors)
  : Response UserInfo IResponseErrorInternal :=
  ResponseErrorInternal
    UserInfo
    (genericInternalValidationErrorHandler ("GetUsers | " ++ errorMessage) errors
                                           errorMessage).

(** The response the handler builds from the contracts of the groups and of
    the subscriptions. *)
Definition responseOfContracts (groupContracts : list GroupContract)
           (subscriptionContracts : list SubscriptionContract)
  : Response UserInfo IResponseErrorInternal :=
  match array_traverse groupContracts groupContractToApiGroup with
  | Left error => internalError "Invalid group contract from APIM." error
  | Right groups =>
      match array_traverse subscriptionContracts subscriptionContractToApiSubscription with
      | Left error => internalError "Invalid subscription contract from APIM." error
      | Right subscriptions =>
          match UserInfo_decode (inr groups) (inr subscriptions) with
          | Left errors => validationError "Invalid response payload." errors
          | Right userInfo => ResponseSuccessJson IResponseErrorInternal userInfo
          end
      end
  end.
End Listings.

(** ** Tactics *)

(** Names the calls a run appended once the run has been computed. *)
Ltac appended := eexists; split; [auto | split; [reflexivity|]].

Ltac invert_steps :=
  repeat match goal with
         | H : AllUserDataSteps _ _ _ _ |- _ => inversion H; clear H; subst
         | H : AllMessagesSteps _ _ _ _ |- _ => inversion H; clear H; subst
         | H : MessageSteps _ _ _ _ |- _ => inversion H; clear H; subst
         | H : MessageChildrenSteps _ _ _ _ |- _ => inversion H; clear H; subst
         | H : MessageContentSteps _ _ _ _ |- _ => inversion H; clear H; subst
         | H : NotificationSteps _ _ _ _ |- _ => inversion H; clear H; subst
         | H : ProfileSteps _ _ _ _ |- _ => inversion H; clear H; subst
         | H : MessageStatusSteps _ _ _ _ |- _ => inversion H; clear H; subst
         | H : NotificationStatusSteps _ _ _ _ |- _ => inversion H; clear H; subst
         end.

(** ** A small user, used for the concrete runs *)

Module Sample.
Definition JSON_stringify (T : Type) (data : T) : string := "{}".

Definition aFiscalCode : string := "SPNDNL80R13C523K".

Definition profile0 : RetrievedProfile.t :=
  {| RetrievedProfile.fiscalCode := aFiscalCode;
     RetrievedProfile.id := "SPNDNL80R13C523K-0000000000000000";
     RetrievedProfile.version := 0 |}.

Definition profile1 : RetrievedProfile.t :=
  {| RetrievedProfile.fiscalCode := aFiscalCode;
     RetrievedProfile.id := "SPNDNL80R13C523K-0000000000000001";
     RetrievedProfile.version := 1 |}.

Definition aMessage : RetrievedMessageWithoutContent.t :=
  {| RetrievedMessageWithoutContent.fiscalCode := aFiscalCode;
     RetrievedMessageWithoutContent.id := "A_MESSAGE_ID" |}.

Definition aMessageStatus : RetrievedMessageStatus.t :=
  {| RetrievedMessageStatus.messageId := "A_MESSAGE_ID";
     RetrievedMessageStatus.id := "A_MESSAGE_ID-0000000000000000";
     RetrievedMessageStatus.version := 0 |}.

Definition aNotification : RetrievedNotification.t :=
  {| RetrievedNotification.messageId := "A_MESSAGE_ID";
     RetrievedNotification.id := "A_NOTIFICATION_ID" |}.

(** Services that always answer well. *)
Definition deleted : string -> string -> World ->
                     PromiseOutcome (Either QueryErrorOrError string) :=
  fun _ id _ => Resolves (Right id).

Definition aBlobService : BlobService :=
  {| answerCreateBlockBlobFromText := fun _ _ _ _ => None |}.

(** Two versions of the profile, in one page. *)
Definition aProfileModel : ProfileModel.t :=
  {| ProfileModel.pagesOfAllVersions :=
       fun _ => [fun _ => Resolves (Right (Some [profile0; profile1]))];
     ProfileModel.answerDeleteProfileVersion := deleted |}.

(** A user without messages; no message has a content. *)
Definition noMessages : MessageModel.t :=
  {| MessageModel.answerFindMessages := fun _ _ => Resolves (Right []);
     MessageModel.answerGetContentFromBlob := fun _ _ => Resolves (Right None);
     MessageModel.answerDeleteContentFromBlob := fun _ _ => Resolves (Right true);
     MessageModel.answerDeleteMessage := deleted |}.

(** A user with one message. *)
Definition oneMessage : MessageModel.t :=
  {| MessageModel.answerFindMessages := fun _ _ => Resolves (Right [aMessage]);
     MessageModel.answerGetContentFromBlob := fun _ _ => Resolves (Right None);
     MessageModel.answerDeleteContentFromBlob := fun _ _ => Resolves (Right true);
     MessageModel.answerDeleteMessage := deleted |}.

(** One version of the status of each message. *)
Definition aMessageStatusModel : MessageStatusModel.t :=
  {| MessageStatusModel.pagesOfAllVersions :=
       fun _ => [fun _ => Resolves (Right (Some [aMessageStatus]))];
     MessageStatusModel.answerDeleteMessageStatusVersion := deleted |}.

(** The deletion of a version of the status of a message is refused. *)
Definition refusingMessageStatusModel : MessageStatusModel.t :=
  {| MessageStatusModel.pagesOfAllVersions :=
       fun _ => [fun _ => Resolves (Right (Some [aMessageStatus]))];
     MessageStatusModel.answerDeleteMessageStatusVersion :=
       fun _ _ _ => Resolves (Left (IsQueryError "{code:500}")) |}.

Definition noNotifications : NotificationModel.t :=
  {| NotificationModel.answerFindNotificationsForMessage :=
       fun _ _ => Resolves (Right []);
     NotificationModel.answerDeleteNotification := deleted |}.

Definition noNotificationStatuses : NotificationStatusModel.t :=
  {| NotificationStatusModel.pagesOfAllVersions := fun _ => [];
     NotificationStatusModel.answerDeleteNotificationStatusVersion := deleted |}.

Definition isFiscalCode (s : string) : bool := Nat.eqb (String.length s) 16.

Definition readableReport (errors : Errors) : string := "value is not a valid input".

Definition anInput : JsValue :=
  JsObject [("backupFolder", JsString "a-folder"); ("fiscalCode", JsString aFiscalCode)].

Definition aBackup : IBlobServiceInfo :=
  {| blobService := aBlobService; containerName := "user-data-backup";
     folder := Some "a-folder" |}.

(** The deletion of version 0 of the profile is refused, and so is the
    backup of version 1. *)
Definition refusingProfileModel : ProfileModel.t :=
  {| ProfileModel.pagesOfAllVersions :=
       fun _ => [fun _ => Resolves (Right (Some [profile0; profile1]))];
     ProfileModel.answerDeleteProfileVersion :=
       fun _ id _ =>
         if String.eqb id "SPNDNL80R13C523K-0000000000000000"
         then Rejects "delete refused"
         else Resolves (Right id) |}.

Definition refusingBackup : IBlobServiceInfo :=
  {| blobService :=
       {| answerCreateBlockBlobFromText :=
            fun _ blobName _ _ =>
              if String.eqb blobName "a-folder/profile--1.json"
              then Some "backup refused"
              else None |};
     containerName := "user-data-backup";
     folder := Some "a-folder" |}.

(** A pending request of download. *)
Definition aUserDataProcessing : UserDataDownloadSubOrchestrator.WorkflowJob :=
  {| UserDataDownloadSubOrchestrator.id := "A_USER_DATA_PROCESSING_ID";
     UserDataDownloadSubOrchestrator.userKey := aFiscalCode;
     UserDataDownloadSubOrchestrator.status := UserDataDownloadOrchestrator.PENDING;
     UserDataDownloadSubOrchestrator.payload := "DOWNLOAD" |}.

Definition aRetryPolicy : UserDataDownloadSubOrchestrator.RetryOptions :=
  {| UserDataDownloadSubOrchestrator.delay := 1;
     UserDataDownloadSubOrchestrator.retries := 2 |}.

(** Every activity succeeds. *)
Definition allWell : UserDataDownloadSubOrchestrator.Answers := fun _ _ => None.

(** The extraction of the data fails at every attempt. *)
Definition extractionFails : UserDataDownloadSubOrchestrator.Answers :=
  fun _ a =>
    match a with
    | UserDataDownloadSubOrchestrator.BusinessStep name _ _ =>
        if String.eqb name "extractUserDataActivity"
        then Some "any non-success value"
        else None
    | _ => None
    end.

(** The extraction of the data fails at every attempt, and the status
    [FAILED] cannot be persisted. *)
Definition extractionAndFailedFail : UserDataDownloadSubOrchestrator.Answers :=
  fun _ a =>
    match a with
    | UserDataDownloadSubOrchestrator.BusinessStep name _ _ =>
        if String.eqb name "extractUserDataActivity"
        then Some "any non-success value"
        else None
    | UserDataDownloadSubOrchestrator.SetUserDataProcessingStatus
        _ UserDataDownloadOrchestrator.FAILED => Some "any non-success value"
    | _ => None
    end.

(** A user without messages, with two versions of the profile. *)
Definition someDeps : IActivityHandlerInput :=
  {| messageModel := noMessages;
     messageStatusModel := aMessageStatusModel;
     notificationModel := noNotifications;
     notificationStatusModel := noNotificationStatuses;
     profileModel := aProfileModel;
     userDataBackupBlobService := aBlobService;
     userDataBackupContainerName := "user-data-backup" |}.
End Sample.
(** ** More users, for the concrete runs of the further properties *)

Module Cases.
(** The deletion and the name of the backup of a version of the profile, as
    [backupAndDeleteProfile] hands them to the walker. *)
Definition deleteProfileCall (item : RetrievedProfile.t) : Call :=
  DeleteProfileVersion (RetrievedProfile.fiscalCode item) (RetrievedProfile.id item).

Definition profileBlobName (item : RetrievedProfile.t) : string :=
  ("profile--" ++ Number_toString (RetrievedProfile.version item) ++ ".json")%string.

(** Every deletion succeeds. *)
Definition deletedProfile (item : RetrievedProfile.t)
  : World -> PromiseOutcome (Either QueryErrorOrError string) :=
  fun _ => Resolves (Right (RetrievedProfile.id item)).

(** The deletion of version 0 is refused. *)
Definition refusedFirst (item : RetrievedProfile.t)
  : World -> PromiseOutcome (Either QueryErrorOrError string) :=
  fun _ =>
    if N.eqb (RetrievedProfile.version item) 0
    then Rejects "delete refused"
    else Resolves (Right (RetrievedProfile.id item)).

(** An empty page, and after it a page that holds a record. *)
Definition emptyThenOne : list (World -> Page RetrievedProfile.t) :=
  [fun _ => Resolves (Right (Some []));
   fun _ => Resolves (Right (Some [Sample.profile0]))].

(** One page with the two versions of the profile. *)
Definition twoVersions : list (World -> Page RetrievedProfile.t) :=
  [fun _ => Resolves (Right (Some [Sample.profile0; Sample.profile1]))].

(** The first fetch answers a query error. *)
Definition brokenCursor : list (World -> Page RetrievedProfile.t) :=
  [fun _ => Resolves (Left (IsQueryError "{code:429}"))].

(** The backup of version 1 of the profile is refused. *)
Definition refusingDeps : IActivityHandlerInput :=
  {| messageModel := Sample.noMessages;
     messageStatusModel := Sample.aMessageStatusModel;
     notificationModel := Sample.noNotifications;
     notificationStatusModel := Sample.noNotificationStatuses;
     profileModel := Sample.aProfileModel;
     userDataBackupBlobService := blobService Sample.refusingBackup;
     userDataBackupContainerName := "user-data-backup" |}.

(** The query of the messages is rejected. *)
Definition unreachableMessages : MessageModel.t :=
  {| MessageModel.answerFindMessages := fun _ _ => Rejects "ECONNRESET";
     MessageModel.answerGetContentFromBlob := fun _ _ => Resolves (Right None);
     MessageModel.answerDeleteContentFromBlob := fun _ _ => Resolves (Right true);
     MessageModel.answerDeleteMessage := Sample.deleted |}.

Definition unreachableDeps : IActivityHandlerInput :=
  {| messageModel := unreachableMessages;
     messageStatusModel := Sample.aMessageStatusModel;
     notificationModel := Sample.noNotifications;
     notificationStatusModel := Sample.noNotificationStatuses;
     profileModel := Sample.aProfileModel;
     userDataBackupBlobService := Sample.aBlobService;
     userDataBackupContainerName := "user-data-backup" |}.

(** The input decoded. *)
Definition decodedInput : ActivityInput :=
  {| backupFolder := "a-folder"; fiscalCode := Sample.aFiscalCode |}.

(** An input whose backup folder is the empty string. *)
Definition noFolderInput : JsValue :=
  JsObject [("backupFolder", JsString "");
            ("fiscalCode", JsString Sample.aFiscalCode)].

(** A second message of the same user. *)
Definition anotherMessage : RetrievedMessageWithoutContent.t :=
  {| RetrievedMessageWithoutContent.fiscalCode := Sample.aFiscalCode;
     RetrievedMessageWithoutContent.id := "ANOTHER_MESSAGE_ID" |}.

Definition twoMessages : MessageModel.t :=
  {| MessageModel.answerFindMessages :=
       fun _ _ => Resolves (Right [Sample.aMessage; anotherMessage]);
     MessageModel.answerGetContentFromBlob := fun _ _ => Resolves (Right None);
     MessageModel.answerDeleteContentFromBlob := fun _ _ => Resolves (Right true);
     MessageModel.answerDeleteMessage := Sample.deleted |}.

(** Two messages; the deletion of a version of the status of a message is
    refused. *)
Definition twoMessagesDeps : IActivityHandlerInput :=
  {| messageModel := twoMessages;
     messageStatusModel := Sample.refusingMessageStatusModel;
     notificationModel := Sample.noNotifications;
     notificationStatusModel := Sample.noNotificationStatuses;
     profileModel := Sample.aProfileModel;
     userDataBackupBlobService := Sample.aBlobService;
     userDataBackupContainerName := "user-data-backup" |}.

(** One message, and every call succeeds. *)
Definition oneMessageDeps : IActivityHandlerInput :=
  {| messageModel := Sample.oneMessage;
     messageStatusModel := Sample.aMessageStatusModel;
     notificationModel := Sample.noNotifications;
     notificationStatusModel := Sample.noNotificationStatuses;
     profileModel := Sample.aProfileModel;
     userDataBackupBlobService := Sample.aBlobService;
     userDataBackupContainerName := "user-data-backup" |}.

(** A message whose content is found. *)
Definition aContent : MessageContent.t :=
  {| MessageContent.subject := "A subject"; MessageContent.markdown := "A markdown" |}.

Definition withContent : MessageModel.t :=
  {| MessageModel.answerFindMessages := fun _ _ => Resolves (Right [Sample.aMessage]);
     MessageModel.answerGetContentFromBlob := fun _ _ => Resolves (Right (Some aContent));
     MessageModel.answerDeleteContentFromBlob := fun _ _ => Resolves (Right true);
     MessageModel.answerDeleteMessage := Sample.deleted |}.

(** One version of the status of each notification; its deletion is
    refused. *)
Definition aNotificationStatus : RetrievedNotificationStatus.t :=
  {| RetrievedNotificationStatus.notificationId := "A_NOTIFICATION_ID";
     RetrievedNotificationStatus.id := "A_NOTIFICATION_ID-0000000000000000";
     RetrievedNotificationStatus.version := 0 |}.

Definition refusingNotificationStatuses : NotificationStatusModel.t :=
  {| NotificationStatusModel.pagesOfAllVersions :=
       fun _ => [fun _ => Resolves (Right (Some [aNotificationStatus]))];
     NotificationStatusModel.answerDeleteNotificationStatusVersion :=
       fun _ _ _ => Rejects "delete refused" |}.

(** A record is an object. *)
Definition isRecord (v : JsValue) : bool :=
  match v with JsObject _ => true | _ => false end.

(** An input that is not an object. *)
Definition notAnObject : JsValue := JsString "invalid".
End Cases.

(** ** Requests of the data of a user, for the concrete runs of the orchestrator *)

Module Requests.
(** A request as it is stored: the choice of the user, the time of the
    request as a string, the fiscal code, the status and the id. *)
Definition request (id status : string) : JsValue :=
  JsObject [("choice", JsString "DOWNLOAD");
            ("createdAt", JsString "2020-05-18T09:30:00.000Z");
            ("fiscalCode", JsString "SPNDNL80R13C523K");
            ("status", JsString status);
            ("userDataProcessingId", JsString id)].

Definition pendingRequest : JsValue := request "request-1" "PENDING".
Definition failedRequest : JsValue := request "request-2" "FAILED".
Definition closedRequest : JsValue := request "request-3" "CLOSED".
Definition wipRequest : JsValue := request "request-4" "WIP".

(** A record that is not a request: it has a status and nothing else. *)
Definition statusAlone : JsValue := JsObject [("status", JsString "PENDING")].

(** A [Date], kept as the string it is parsed from. *)
Inductive Date : Type := DateOf (iso : string).

(** A decoded request: its [createdAt] is a [Date]. *)
Record Request : Type :=
  { choice : string; createdAt : Date; fiscalCode : string; status : string;
    userDataProcessingId : string }.

Definition isStatus (s : string) : bool :=
  existsb (String.eqb s) ["PENDING"; "WIP"; "CLOSED"; "FAILED"].

(** A codec of the requests: every field is required, the status is one of
    the four, and [createdAt] is decoded to a [Date]. *)
Definition decodeRequest (doc : JsValue) : option Request :=
  match doc with
  | JsObject properties =>
      match property properties "choice", property properties "createdAt",
            property properties "fiscalCode", property properties "status",
            property properties "userDataProcessingId" with
      | JsString c, JsString d, JsString f, JsString s, JsString i =>
          if isStatus s
          then Some {| choice := c; createdAt := DateOf d; fiscalCode := f;
                       status := s; userDataProcessingId := i |}
          else None
      | _, _, _, _, _ => None
      end
  | _ => None
  end.

Definition decoded (id status : string) : Request :=
  {| choice := "DOWNLOAD"; createdAt := DateOf "2020-05-18T09:30:00.000Z";
     fiscalCode := "SPNDNL80R13C523K"; status := status;
     userDataProcessingId := id |}.
End Requests.

(** ** An API management, for the concrete runs of GetUser *)

Module Apim.
Import GetUser.

(** Contracts and definitions are kept as their names; the response of an
    internal error as its detail. *)
Definition aUser : UserContract := {| name := Some "a-user" |}.
Definition anotherUser : UserContract := {| name := Some "another-user" |}.

(** Two users are listed for the address; the subscriptions of a user come
    in two pages, and the second page has an empty link. *)
Definition aClient : ApiManagementClient string :=
  {| user_listByService := fun _ _ _ _ => Resolves [aUser; anotherUser];
     userSubscription_list :=
       fun _ _ _ _ => Resolves {| value := ["s1"; "s2"]; nextLink := Some "page-2" |};
     userSubscription_listNext :=
       fun link _ =>
         if String.eqb link "page-2"
         then Resolves {| value := ["s3"]; nextLink := Some "" |}
         else Rejects "unknown link" |}.

(** The second page of the subscriptions is rejected. *)
Definition aBrokenClient : ApiManagementClient string :=
  {| user_listByService := fun _ _ _ _ => Resolves [aUser; anotherUser];
     userSubscription_list :=
       fun _ _ _ _ => Resolves {| value := ["s1"; "s2"]; nextLink := Some "page-2" |};
     userSubscription_listNext := fun _ _ => Rejects "ETIMEDOUT" |}.

(** No user is listed for the address. *)
Definition anEmptyClient : ApiManagementClient string :=
  {| user_listByService := fun _ _ _ _ => Resolves [];
     userSubscription_list :=
       fun _ _ _ _ => Resolves {| value := []; nextLink := None |};
     userSubscription_listNext := fun _ _ => Rejects "unknown link" |}.

Definition creds : IServicePrincipalCreds :=
  {| clientId := "a-client"; secret := "a-secret"; tenantId := "a-tenant" |}.

Definition config : IAzureApimConfig :=
  {| apim := "an-apim"; apimResourceGroup := "a-group"; subscriptionId := "a-subscription" |}.

Definition getClient (client : ApiManagementClient string)
  : IServicePrincipalCreds -> string -> World -> Either string (ApiManagementClient string) :=
  fun _ _ _ => Right client.

Definition groups
  : ApiManagementClient string -> string -> string -> string -> World ->
    Either string (list string) :=
  fun _ _ _ _ _ => Right ["g1"; "broken"; "g3"].

Definition noGroups
  : ApiManagementClient string -> string -> string -> string -> World ->
    Either string (list string) :=
  fun _ _ _ _ _ => Left "groups unavailable".

(** The contract named [broken] does not convert. *)
Definition convert (contract : string) : Either string string :=
  if String.eqb contract "broken" then Left "invalid contract" else Right contract.

Definition internal : string -> string -> string -> string :=
  fun _ _ errorDetail => errorDetail.

Definition validation : string -> Errors -> string -> string :=
  fun _ _ errorDetail => errorDetail.

Definition decode (groups : string + list string) (subscriptions : string + list string)
  : Either Errors (list string * list string) :=
  match groups, subscriptions with
  | inr g, inr s => Right (g, s)
  | _, _ => Left {| refused := JsNull |}
  end.
End Apim.

(** * Lemmas on the combinators *)

Section ArraySequence.
Context {S L A : Type}.

Lemma fold_ap_par_runAll (ts : list (TaskEither S L A)) :
  forall (acc : TaskEither S L (list A)) (s : S),
    fold_left
      (fun fas fa => ap_par (map (fun (xs : list A) (a : A) => xs ++ [a]) fas) fa)
      ts acc s
    = (joinFrom (fst (acc s)) (fst (runAll ts (snd (acc s)))),
       snd (runAll ts (snd (acc s)))).
Proof.
  induction ts as [|t ts IH]; intros acc s; simpl.
  - destruct (acc s); reflexivity.
  - rewrite IH. unfold ap_par, map. destruct (acc s) as [e s0]; simpl.
    destruct (t s0) as [r s1]; simpl.
    destruct (runAll ts s1) as [rs s2]; reflexivity.
Qed.

Lemma array_sequence_runAll (ts : list (TaskEither S L A)) (s : S) :
  array_sequence ts s
  = (joinFrom (Right []) (fst (runAll ts s)), snd (runAll ts s)).
Proof. unfold array_sequence. rewrite fold_ap_par_runAll. reflexivity. Qed.

Lemma joinFrom_Left (l : L) (rs : list (Either L A)) :
  joinFrom (Left l) rs = Left l.
Proof. induction rs as [|r rs IH]; simpl; auto. Qed.

Lemma joinFrom_Right_cons (xs : list A) (r : Either L A) (rs : list (Either L A)) :
  joinFrom (Right xs) (r :: rs)
  = match r with
    | Left l => Left l
    | Right a => joinFrom (Right (xs ++ [a])) rs
    end.
Proof. destruct r; simpl; auto using joinFrom_Left. Qed.
End ArraySequence.

Lemma map_run {S L A B} (f : A -> B) (t : TaskEither S L A) (s : S) :
  map f t s = (either_map f (fst (t s)), snd (t s)).
Proof. unfold map. destruct (t s); reflexivity. Qed.

Lemma bimap_debug_run {S L A} l1 l2 (t : TaskEither S L A) (s : S) :
  bimap (debug l1) (debug l2) t s = t s.
Proof. unfold bimap, debug. destruct (t s) as [[l|a] s']; reflexivity. Qed.

Lemma mapLeft_ext {S L M A} (f : L -> M) (t t' : TaskEither S L A) :
  (forall s, t s = t' s) -> forall s, mapLeft f t s = mapLeft f t' s.
Proof. intros E s. unfold mapLeft. rewrite E. reflexivity. Qed.

Section EmitsRules.
Context {S : Type} `{HasWorld S}.
Variable inv : S -> Prop.

Lemma emits_ext {A} (t t' : Task S A) Q :
  (forall s, t s = t' s) -> emits inv t Q -> emits inv t' Q.
Proof. intros E Ht s Hs. rewrite <- E. auto. Qed.

Lemma emits_weaken {A} (t : Task S A) (Q Q' : A -> list Event -> Prop) :
  emits inv t Q -> (forall r d, Q r d -> Q' r d) -> emits inv t Q'.
Proof.
  intros Ht HQ s Hs. destruct (Ht s Hs) as (d & Hi & Hw & Hq). eauto.
Qed.

Lemma emits_fromEither {L A} (e : Either L A) (Q : Either L A -> list Event -> Prop) :
  Q e [] -> emits inv (fromEither e) Q.
Proof. intros Hq s Hs. exists []. simpl. rewrite app_nil_r. auto. Qed.

Lemma emits_of {L A} (a : A) (Q : Either L A -> list Event -> Prop) :
  Q (Right a) [] -> emits inv (taskEither_of a) Q.
Proof. intros Hq s Hs. exists []. simpl. rewrite app_nil_r. auto. Qed.

Lemma emits_bimap {L M A B} (f : L -> M) (g : A -> B) (t : TaskEither S L A) Q :
  emits inv t (fun r d => Q (either_bimap f g r) d) -> emits inv (bimap f g t) Q.
Proof.
  intros Ht s Hs. destruct (Ht s Hs) as (d & Hi & Hw & Hq).
  unfold bimap. destruct (t s) as [r s']; simpl in *. eauto.
Qed.

Lemma emits_map {L A B} (g : A -> B) (t : TaskEither S L A) Q :
  emits inv t (fun r d => Q (either_map g r) d) -> emits inv (map g t) Q.
Proof.
  intros Ht s Hs. destruct (Ht s Hs) as (d & Hi & Hw & Hq).
  unfold map. destruct (t s) as [r s']; simpl in *. eauto.
Qed.

Lemma emits_mapLeft {L M A} (f : L -> M) (t : TaskEither S L A) Q :
  emits inv t (fun r d => Q (either_mapLeft f r) d) -> emits inv (mapLeft f t) Q.
Proof.
  intros Ht s Hs. destruct (Ht s Hs) as (d & Hi & Hw & Hq).
  unfold mapLeft. destruct (t s) as [r s']; simpl in *. eauto.
Qed.

Lemma emits_foldTaskEither {L A M B} (onLeft : L -> TaskEither S M B)
      (onRight : A -> TaskEither S M B) (t : TaskEither S L A)
      (Q1 : Either L A -> list Event -> Prop)
      (Q2 : Either L A -> Either M B -> list Event -> Prop) Q :
  emits inv t Q1 ->
  (forall l, emits inv (onLeft l) (Q2 (Left l))) ->
  (forall a, emits inv (onRight a) (Q2 (Right a))) ->
  (forall r1 d1 r2 d2, Q1 r1 d1 -> Q2 r1 r2 d2 -> Q r2 (d1 ++ d2)) ->
  emits inv (foldTaskEither onLeft onRight t) Q.
Proof.
  intros Ht Hl Hr HQ s Hs. destruct (Ht s Hs) as (d1 & Hi & Hw & Hq).
  unfold foldTaskEither. destruct (t s) as [[l|a] s1]; simpl in *.
  - destruct (Hl l s1 Hi) as (d2 & Hi2 & Hw2 & Hq2).
    exists (d1 ++ d2). rewrite Hw2, Hw, app_assoc. eauto.
  - destruct (Hr a s1 Hi) as (d2 & Hi2 & Hw2 & Hq2).
    exists (d1 ++ d2). rewrite Hw2, Hw, app_assoc. eauto.
Qed.

Lemma emits_chain {L A B} (t : TaskEither S L A) (f : A -> TaskEither S L B)
      (Q1 : Either L A -> list Event -> Prop)
      (Q2 : A -> Either L B -> list Event -> Prop) Q :
  emits inv t Q1 ->
  (forall a, emits inv (f a) (Q2 a)) ->
  (forall l d, Q1 (Left l) d -> Q (Left l) d) ->
  (forall a d1 r d2, Q1 (Right a) d1 -> Q2 a r d2 -> Q r (d1 ++ d2)) ->
  emits inv (chain t f) Q.
Proof.
  intros Ht Hf HL HR s Hs. destruct (Ht s Hs) as (d1 & Hi & Hw & Hq).
  unfold chain. destruct (t s) as [[l|a] s1]; simpl in *.
  - exists d1. auto.
  - destruct (Hf a s1 Hi) as (d2 & Hi2 & Hw2 & Hq2).
    exists (d1 ++ d2). rewrite Hw2, Hw, app_assoc. eauto.
Qed.

Lemma emits_ap_par {L A B} (fab : TaskEither S L (A -> B)) (fa : TaskEither S L A)
      Q1 Q2 Q :
  emits inv fab Q1 ->
  emits inv fa Q2 ->
  (forall r1 d1 r2 d2, Q1 r1 d1 -> Q2 r2 d2 -> Q (either_ap r1 r2) (d1 ++ d2)) ->
  emits inv (ap_par fab fa) Q.
Proof.
  intros Hf Ha HQ s Hs. destruct (Hf s Hs) as (d1 & Hi & Hw & Hq).
  unfold ap_par. destruct (fab s) as [r1 s1]; simpl in *.
  destruct (Ha s1 Hi) as (d2 & Hi2 & Hw2 & Hq2).
  destruct (fa s1) as [r2 s2]; simpl in *.
  exists (d1 ++ d2). rewrite Hw2, Hw, app_assoc. eauto.
Qed.

Lemma emits_runAll {L A} (ts : list (TaskEither S L A))
      (Q1 : Either L A -> list Event -> Prop) :
  Forall (fun t => emits inv t Q1) ts ->
  emits inv (runAll ts)
        (fun rs d => exists ds, d = concat ds /\ Forall2 Q1 rs ds).
Proof.
  induction 1 as [|t ts Ht Hts IH]; intros s Hs; simpl.
  - exists []. rewrite app_nil_r. repeat split; auto. exists []. auto.
  - destruct (Ht s Hs) as (d1 & Hi & Hw & Hq).
    destruct (t s) as [r s1]; simpl in *.
    destruct (IH s1 Hi) as (d2 & Hi2 & Hw2 & ds & Hd & Hq2).
    destruct (runAll ts s1) as [rs s2]; simpl in *.
    exists (d1 ++ d2). rewrite Hw2, Hw, app_assoc. repeat split; auto.
    exists (d1 :: ds). simpl. subst d2. auto.
Qed.

Lemma emits_array_sequence {L A} (ts : list (TaskEither S L A))
      (Q1 : Either L A -> list Event -> Prop) Q :
  Forall (fun t => emits inv t Q1) ts ->
  (forall rs ds, Forall2 Q1 rs ds -> Q (joinFrom (Right []) rs) (concat ds)) ->
  emits inv (array_sequence ts) Q.
Proof.
  intros Hts HQ s Hs.
  pose proof (emits_runAll Hts) as HR.
  destruct (HR s Hs) as (d & Hi & Hw & ds & Hd & Hq).
  rewrite array_sequence_runAll. simpl. exists d. subst d. auto.
Qed.
End EmitsRules.

Lemma emits_liftW {X L A} (inv : X -> Prop) (t : TaskEither World L A) Q :
  emits (fun _ => True) t Q -> emits (fun s : X * World => inv (fst s)) (liftW t) Q.
Proof.
  intros Ht [x w] Hs. destruct (Ht w I) as (d & _ & Hw & Hq).
  unfold liftW. destruct (t w) as [r w']; simpl in *. eauto.
Qed.

Lemma emits_withIterator {X L A} (inv : X -> Prop) (x : X)
      (t : TaskEither (X * World) L A) Q :
  inv x ->
  emits (fun s : X * World => inv (fst s)) t Q ->
  emits (fun _ => True) (withIterator x t) Q.
Proof.
  intros Hx Ht w _. destruct (Ht (x, w) Hx) as (d & _ & Hw & Hq).
  unfold withIterator. destruct (t (x, w)) as [r [x' w']]; simpl in *. eauto.
Qed.

(** * Every run of the cascade is in the grammar *)

Lemma Grammar_mono (steps steps' : Step -> Prop) o d :
  (forall st, steps st -> steps' st) -> Grammar steps o d -> Grammar steps' o d.
Proof. intros Hs Hg. induction Hg; eauto with cascade. Qed.

Lemma failureOf_map {A B} (g : A -> B) (r : Either DataFailure A) :
  failureOf (either_map g r) = failureOf r.
Proof. destruct r; reflexivity. Qed.

Lemma failureOf_debug {A} (l1 l2 : string) (r : Either DataFailure A) :
  failureOf (either_bimap (debug l1) (debug l2) r) = failureOf r.
Proof. destruct r; reflexivity. Qed.

Lemma failureOf_ap {A B} (r1 : Either DataFailure (A -> B)) (r2 : Either DataFailure A) :
  failureOf (either_ap r1 r2) = firstFailure (failureOf r1) (failureOf r2).
Proof. destruct r1, r2; reflexivity. Qed.

Lemma Grammar_join (steps : Step -> Prop) {A} (rs : list (Either DataFailure A)) ds :
  Forall2 (fun r d => Grammar steps (failureOf r) d) rs ds ->
  forall xs, Grammar steps (failureOf (joinFrom (Right xs) rs)) (concat ds).
Proof.
  induction 1 as [|r d rs ds Hr Hrs IH]; intros xs; simpl concat.
  - constructor.
  - rewrite joinFrom_Right_cons. destruct r as [l|a]; simpl in *.
    + change (Some l) with (firstFailure (Some l) (failureOf (joinFrom (Right xs) rs))).
      constructor; auto.
    + change (failureOf (joinFrom (Right (xs ++ [a])) rs))
        with (firstFailure None (failureOf (joinFrom (Right (xs ++ [a])) rs))).
      constructor; auto.
Qed.

Section FollowsRules.
Context {S : Type} `{HasWorld S}.
Variable inv : S -> Prop.
Variable steps : Step -> Prop.

Lemma follows_of {A} (a : A) : follows inv steps (taskEither_of a).
Proof. apply emits_of. constructor. Qed.

Lemma follows_map {A B} (g : A -> B) (t : TaskEither S DataFailure A) :
  follows inv steps t -> follows inv steps (map g t).
Proof.
  intros Ht. apply emits_map. eapply emits_weaken; [exact Ht|].
  intros r d. simpl. rewrite failureOf_map. auto.
Qed.

Lemma follows_debug {A} l1 l2 (t : TaskEither S DataFailure A) :
  follows inv steps t -> follows inv steps (bimap (debug l1) (debug l2) t).
Proof.
  intros Ht. apply emits_bimap. eapply emits_weaken; [exact Ht|].
  intros r d. simpl. rewrite failureOf_debug. auto.
Qed.

Lemma follows_chain {A B} (t : TaskEither S DataFailure A)
      (f : A -> TaskEither S DataFailure B) :
  follows inv steps t -> (forall a, follows inv steps (f a)) ->
  follows inv steps (chain t f).
Proof.
  intros Ht Hf.
  eapply emits_chain with (Q2 := fun _ r d => Grammar steps (failureOf r) d);
    [exact Ht | exact Hf | auto |].
  intros a d1 r d2 H1 H2. simpl in *.
  change (failureOf r) with (firstFailure None (failureOf r)). constructor; auto.
Qed.

(** [foldTaskEither(e => fromEither(left(e)), onRight)] *)
Lemma follows_rethrow {A B} (t : TaskEither S DataFailure A)
      (onRight : A -> TaskEither S DataFailure B) :
  follows inv steps t -> (forall a, follows inv steps (onRight a)) ->
  follows inv steps (foldTaskEither (fun e => fromEither (Left e)) onRight t).
Proof.
  intros Ht Hf.
  eapply emits_foldTaskEither
    with (Q2 := fun r1 r2 d =>
                  match r1 with
                  | Left l => r2 = Left l /\ d = []
                  | Right _ => Grammar steps (failureOf r2) d
                  end);
    [exact Ht | | exact Hf |].
  - intros l. apply emits_fromEither. auto.
  - intros [l|a] d1 r2 d2 H1 H2; simpl in *.
    + destruct H2; subst. rewrite app_nil_r. auto.
    + change (failureOf r2) with (firstFailure None (failureOf r2)). constructor; auto.
Qed.

Lemma follows_ap_par {A B} (fab : TaskEither S DataFailure (A -> B))
      (fa : TaskEither S DataFailure A) :
  follows inv steps fab -> follows inv steps fa -> follows inv steps (ap_par fab fa).
Proof.
  intros Hf Ha. eapply emits_ap_par; [exact Hf | exact Ha |].
  intros r1 d1 r2 d2 H1 H2. simpl in *. rewrite failureOf_ap. constructor; auto.
Qed.

Lemma follows_ap_seq {A B} (fab : TaskEither S DataFailure (A -> B))
      (fa : TaskEither S DataFailure A) :
  follows inv steps fab -> follows inv steps fa -> follows inv steps (ap_seq fab fa).
Proof.
  intros Hf Ha. unfold ap_seq. apply follows_chain; auto.
  intros f. apply follows_map; auto.
Qed.

Lemma follows_array_sequence {A} (ts : list (TaskEither S DataFailure A)) :
  Forall (follows inv steps) ts -> follows inv steps (array_sequence ts).
Proof.
  intros Hts. eapply emits_array_sequence; [exact Hts|].
  intros rs ds Hq. apply Grammar_join; auto.
Qed.

Lemma follows_sequenceT2_seq {A B} (a : TaskEither S DataFailure A)
      (b : TaskEither S DataFailure B) :
  follows inv steps a -> follows inv steps b ->
  follows inv steps (sequenceT2_seq a b).
Proof.
  intros. unfold sequenceT2_seq. apply follows_ap_seq; auto.
  apply follows_map; auto.
Qed.

Lemma follows_sequenceT3_par {A B C} (a : TaskEither S DataFailure A)
      (b : TaskEither S DataFailure B) (c : TaskEither S DataFailure C) :
  follows inv steps a -> follows inv steps b -> follows inv steps c ->
  follows inv steps (sequenceT3_par a b c).
Proof.
  intros. unfold sequenceT3_par. repeat apply follows_ap_par; auto.
  apply follows_map; auto.
Qed.
End FollowsRules.

Lemma follows_mono {S} `{HasWorld S} {A} inv (steps steps' : Step -> Prop)
      (t : TaskEither S DataFailure A) :
  (forall st, steps st -> steps' st) -> follows inv steps t -> follows inv steps' t.
Proof.
  intros Hs Ht. eapply emits_weaken; [exact Ht|].
  intros r d. apply Grammar_mono; auto.
Qed.

Section Steps.
Variable JSON_stringify : forall T : Type, T -> string.
Variable info : IBlobServiceInfo.

Lemma saveDataToBlob_run {T} (blobName : string) (data : T) (w : World) :
  saveDataToBlob JSON_stringify info blobName data w
  = match answerCreateBlockBlobFromText
            (blobService info) (containerName info)
            (backupBlobPath (folder info) blobName) (JSON_stringify data) w with
    | Some err => (Left (BlobCreationFailure err),
                   w ++ [{| call := saveCall JSON_stringify info blobName data; ok := false |}])
    | None => (Right data, w ++ [{| call := saveCall JSON_stringify info blobName data; ok := true |}])
    end.
Proof.
  unfold saveDataToBlob, bimap, saveCall.
  destruct (answerCreateBlockBlobFromText _ _ _ _ w); reflexivity.
Qed.

(** [fromQueryEither(() => model.delete(...)).mapLeft(toDocumentDeleteFailure)] *)
Lemma delete_run {R} (c : Call) answer (w : World) :
  mapLeft toDocumentDeleteFailure (fromQueryEither (@invoke R c answer)) w
  = (match answer w with
     | Rejects message => Left (DocumentDeleteFailure message)
     | Resolves (Left (IsError message)) => Left (DocumentDeleteFailure message)
     | Resolves (Left (IsQueryError json)) =>
         Left (DocumentDeleteFailure ("QueryError: " ++ json)%string)
     | Resolves (Right r) => Right r
     end,
     w ++ [{| call := c; ok := resolved (answer w) |}]).
Proof.
  unfold mapLeft, fromQueryEither, chain, tryCatch, invoke, fromEither.
  destruct (answer w) as [m|[[m|j]|r]]; reflexivity.
Qed.

(** The backup of a document, then its deletion. *)
Lemma follows_backup_then_delete (steps : Step -> Prop) {T R B}
      (blobName : string) (data : T) (c : Call) answer (f : T -> R -> B) :
  steps (StepBackupThenDelete (saveCall JSON_stringify info blobName data) c) ->
  follows (fun _ : World => True) steps
          (ap_seq (map f (saveDataToBlob JSON_stringify info blobName data))
                  (mapLeft toDocumentDeleteFailure (fromQueryEither (invoke c answer)))).
Proof.
  intros Hst w _. unfold ap_seq, chain.
  rewrite map_run, saveDataToBlob_run.
  destruct (answerCreateBlockBlobFromText _ _ _ _ w) as [err|]; simpl.
  - appended. simpl. eauto with cascade.
  - rewrite map_run, delete_run. simpl. unfold worldOf, HasWorld_World.
    rewrite <- app_assoc. simpl.
    appended.
    destruct (answer _) as [m|[[m|j]|r]]; simpl; eauto with cascade.
Qed.

Lemma liftW_backup_then_delete {X T R B} (a : TaskEither World DataFailure T)
      (b : TaskEither World DataFailure R) (f : T -> R -> B) (s : X * World) :
  liftW (ap_seq (map f a) b) s = ap_seq (map f (liftW a)) (liftW b) s.
Proof.
  destruct s as [x w]. unfold liftW, ap_seq, chain, map.
  destruct (a w) as [[l|t] w1]; simpl; auto.
  destruct (b w1) as [[l|r] w2]; reflexivity.
Qed.

(** A query whose [Error] becomes a [QueryFailure]. *)
Lemma follows_query (steps : Step -> Prop) {R} (c : Call) answer :
  steps (StepQuery c) ->
  follows (fun _ : World => True) steps
          (mapLeft (fun e => toQueryFailure (IsError e))
                   (fromQueryEither (@invoke R c answer))).
Proof.
  intros Hst w _.
  unfold mapLeft, fromQueryEither, chain, tryCatch, invoke, fromEither.
  destruct (answer w) as [m|[[m|j]|r]]; simpl; appended; simpl; eauto with cascade.
Qed.

(** The first half of the walker: one page is asked for. *)
Lemma follows_executeNext (steps : Step -> Prop) {T} (q : Query) l1 l2 :
  steps (StepQuery (ExecuteNext q)) ->
  follows (fun s : IResultIterator T * World => query (fst s) = q) steps
          (bimap (debug l1) (debug l2)
                 (foldTaskEither
                    (fun e => fromEither (Left (toQueryFailure (IsError e))))
                    (fun e => mapLeft toQueryFailure (fromEither e))
                    (tryCatch executeNext))).
Proof.
  intros Hst [it w] Hq. simpl in Hq. subst q.
  unfold bimap, foldTaskEither, tryCatch, executeNext, mapLeft, fromEither.
  destruct (pages it) as [|page rest]; simpl.
  - appended. simpl. eauto with cascade.
  - destruct (page w) as [m|[[m|j]|r]]; simpl;
      appended; simpl; eauto with cascade.
Qed.

Section WalkerRuns.
Context {T : Type}.
Variable deleteCall : T -> Call.
Variable answer : T -> World -> PromiseOutcome (Either QueryErrorOrError string).
Variable makeBackupBlobName : T -> string.
Variable q : Query.

Lemma follows_executeRecursive (fuel : nat) :
  follows (fun s : IResultIterator T * World => query (fst s) = q) (WalkerSteps JSON_stringify info deleteCall makeBackupBlobName q)
          (executeRecursive JSON_stringify
                            (fun item => invoke (deleteCall item) (answer item))
                            info makeBackupBlobName fuel).
Proof.
  induction fuel as [|fuel IH]; simpl.
  - apply follows_of.
  - apply follows_rethrow.
    + apply follows_executeNext. constructor.
    + intros [items|]; [|apply follows_of].
      apply follows_array_sequence. apply Forall_forall.
      intros t Ht. apply in_map_iff in Ht. destruct Ht as (item & <- & _).
      apply follows_map. unfold sequenceT3_seq. apply follows_ap_seq; [|exact IH].
      eapply emits_ext; [intros s; apply liftW_backup_then_delete|].
      apply (emits_liftW (fun it : IResultIterator T => query it = q)).
      apply follows_backup_then_delete. constructor.
Qed.

Lemma follows_executeRecursiveBackupAndDelete (pgs : list (World -> Page T)) :
  follows (fun _ : World => True) (WalkerSteps JSON_stringify info deleteCall makeBackupBlobName q)
          (executeRecursiveBackupAndDelete
             JSON_stringify (fun item => invoke (deleteCall item) (answer item))
             info makeBackupBlobName {| query := q; pages := pgs |}).
Proof.
  unfold executeRecursiveBackupAndDelete.
  apply (emits_withIterator (fun it : IResultIterator T => query it = q));
    [reflexivity|].
  apply follows_executeRecursive.
Qed.
End WalkerRuns.
End Steps.

Section CascadeSteps.
Variable JSON_stringify : forall T : Type, T -> string.
Variable info : IBlobServiceInfo.
Variable messageModel : MessageModel.t.
Variable messageStatusModel : MessageStatusModel.t.
Variable notificationModel : NotificationModel.t.
Variable notificationStatusModel : NotificationStatusModel.t.
Variable profileModel : ProfileModel.t.

Lemma follows_backupAndDeleteProfile (fiscalCode : string) :
  follows (fun _ : World => True) (ProfileSteps JSON_stringify info fiscalCode)
          (backupAndDeleteProfile JSON_stringify profileModel info fiscalCode).
Proof.
  apply follows_debug.
  exact (follows_executeRecursiveBackupAndDelete
           JSON_stringify info _ _ _ _ (ProfileModel.pagesOfAllVersions profileModel fiscalCode)).
Qed.

Lemma follows_backupAndDeleteMessageStatus message :
  follows (fun _ : World => True) (MessageStatusSteps JSON_stringify info (RetrievedMessageWithoutContent.id message))
          (backupAndDeleteMessageStatus JSON_stringify messageStatusModel info message).
Proof.
  apply follows_debug.
  exact (follows_executeRecursiveBackupAndDelete
           JSON_stringify info _ _ _ _
           (MessageStatusModel.pagesOfAllVersions
              messageStatusModel (RetrievedMessageWithoutContent.id message))).
Qed.

Lemma follows_backupAndDeleteNotificationStatus notification :
  follows (fun _ : World => True) (NotificationStatusSteps JSON_stringify info (RetrievedNotification.id notification))
          (backupAndDeleteNotificationStatus
             JSON_stringify notificationStatusModel info notification).
Proof.
  apply follows_debug.
  exact (follows_executeRecursiveBackupAndDelete
           JSON_stringify info _ _ _ _
           (NotificationStatusModel.pagesOfAllVersions
              notificationStatusModel (RetrievedNotification.id notification))).
Qed.

Lemma follows_backupAndDeleteNotification notification :
  follows (fun _ : World => True) (NotificationSteps JSON_stringify info notification)
          (backupAndDeleteNotification JSON_stringify notificationModel info notification).
Proof.
  apply follows_debug, follows_map. unfold sequenceT2_seq.
  apply follows_backup_then_delete. apply NotificationSteps_self.
Qed.

Lemma follows_backupAndDeleteMessage message :
  follows (fun _ : World => True) (MessageSteps JSON_stringify info message)
          (backupAndDeleteMessage JSON_stringify messageModel info message).
Proof.
  apply follows_debug, follows_map. unfold sequenceT2_seq.
  apply follows_backup_then_delete. apply MessageSteps_self.
Qed.

Lemma follows_backupAndDeleteMessageContent message :
  follows (fun _ : World => True) (MessageContentSteps JSON_stringify info message)
          (backupAndDeleteMessageContent JSON_stringify messageModel info message).
Proof.
  apply follows_debug.
  eapply emits_foldTaskEither
    with (Q1 := fun _ d =>
                  exists b,
                    d = [{| call := GetContentFromBlob
                                      (RetrievedMessageWithoutContent.id message);
                            ok := b |}])
         (Q2 := fun _ r d => Grammar (MessageContentSteps JSON_stringify info message) (failureOf r) d).
  - intros w _. unfold fromQueryEither, chain, tryCatch, MessageModel.getContentFromBlob,
      invoke, mapLeft, fromEither.
    destruct (MessageModel.answerGetContentFromBlob _ _ w) as [m|[[m|j]|r]]; simpl;
      appended; eauto.
  - intros l. apply follows_of.
  - intros [content|]; [|apply follows_of].
    apply follows_map. unfold sequenceT2_seq.
    apply follows_backup_then_delete. constructor.
  - intros r1 d1 r2 d2 [b ->] H2.
    change (failureOf r2) with (firstFailure None (failureOf r2)).
    constructor; auto. constructor. constructor.
Qed.

Lemma follows_backupAndDeleteAllNotificationsData message :
  follows (fun _ : World => True) (MessageChildrenSteps JSON_stringify info message)
          (backupAndDeleteAllNotificationsData
             JSON_stringify message notificationModel notificationStatusModel info).
Proof.
  apply follows_debug, follows_rethrow.
  - eapply emits_ext;
      [intros s; apply mapLeft_ext; intros s'; symmetry; apply bimap_debug_run|].
    apply follows_query. apply MessageChildrenSteps_find.
  - intros notifications. apply follows_array_sequence, Forall_forall.
    intros t Ht. apply in_map_iff in Ht. destruct Ht as (notification & <- & _).
    apply follows_sequenceT2_seq.
    + eapply follows_mono; [|apply follows_backupAndDeleteNotificationStatus].
      intros st Hst. eapply MessageChildrenSteps_notification.
      apply NotificationSteps_status. exact Hst.
    + eapply follows_mono; [|apply follows_backupAndDeleteNotification].
      intros st Hst. eapply MessageChildrenSteps_notification. exact Hst.
Qed.

Lemma follows_backupAndDeleteMessageChildren message :
  follows (fun _ : World => True) (MessageChildrenSteps JSON_stringify info message)
          (backupAndDeleteMessageChildren
             JSON_stringify messageModel messageStatusModel notificationModel
             notificationStatusModel info message).
Proof.
  apply follows_sequenceT3_par.
  - eapply follows_mono; [|apply follows_backupAndDeleteMessageContent].
    apply MessageChildrenSteps_content.
  - eapply follows_mono; [|apply follows_backupAndDeleteMessageStatus].
    apply MessageChildrenSteps_status.
  - apply follows_backupAndDeleteAllNotificationsData.
Qed.

Lemma follows_backupAndDeleteOneMessageData message :
  follows (fun _ : World => True) (MessageSteps JSON_stringify info message)
          (backupAndDeleteOneMessageData
             JSON_stringify messageModel messageStatusModel notificationModel
             notificationStatusModel info message).
Proof.
  apply follows_chain.
  - eapply follows_mono; [|apply follows_backupAndDeleteMessageChildren].
    apply MessageSteps_children.
  - intros _. apply follows_backupAndDeleteMessage.
Qed.

Lemma follows_backupAndDeleteAllMessagesData (fiscalCode : string) :
  follows (fun _ : World => True) (AllMessagesSteps JSON_stringify info fiscalCode)
          (backupAndDeleteAllMessagesData
             JSON_stringify messageModel messageStatusModel notificationModel
             notificationStatusModel info fiscalCode).
Proof.
  apply follows_debug, follows_rethrow.
  - apply follows_query. constructor.
  - intros messages. apply follows_array_sequence, Forall_forall.
    intros t Ht. apply in_map_iff in Ht. destruct Ht as (message & <- & _).
    eapply follows_mono; [|apply follows_backupAndDeleteOneMessageData].
    apply AllMessagesSteps_message.
Qed.

Lemma follows_backupAndDeleteAllUserData (fiscalCode : string) :
  follows (fun _ : World => True) (AllUserDataSteps JSON_stringify info fiscalCode)
          (backupAndDeleteAllUserData
             JSON_stringify messageModel messageStatusModel notificationModel
             notificationStatusModel profileModel info fiscalCode).
Proof.
  apply follows_chain.
  - eapply follows_mono; [|apply follows_backupAndDeleteAllMessagesData].
    apply AllUserDataSteps_messages.
  - intros _. eapply follows_mono; [|apply follows_backupAndDeleteProfile].
    apply AllUserDataSteps_profile.
Qed.
End CascadeSteps.

(** * What the grammar says about a run *)

Lemma failed_app p d1 d2 : failed p (d1 ++ d2) = failed p d1 || failed p d2.
Proof. apply existsb_app. Qed.

Lemma isSave_not_others c : isSave c = true -> isDelete c = false /\ isQueryCall c = false.
Proof. destruct c; simpl; intros; try discriminate; auto. Qed.

Lemma isDelete_not_others c : isDelete c = true -> isSave c = false /\ isQueryCall c = false.
Proof. destruct c; simpl; intros; try discriminate; auto. Qed.

Lemma isQueryCall_not_others c :
  isQueryCall c = true -> isSave c = false /\ isDelete c = false.
Proof. destruct c; simpl; intros; try discriminate; auto. Qed.

Lemma Guarded_app steps d1 d2 :
  Guarded steps d1 -> Guarded steps d2 -> Guarded steps (d1 ++ d2).
Proof.
  induction 1; simpl; intros;
    [auto | apply Guarded_other; auto | apply Guarded_backup; auto].
Qed.

Section GrammarFacts.
Variable steps : Step -> Prop.
Hypothesis steps_wellFormed : forall st, steps st -> wellFormed st.

Lemma Grammar_Guarded o d : Grammar steps o d -> Guarded steps d.
Proof.
  induction 1 as [|c Hc|c reason Hc|c b Hc|s k reason Hs|s k Hs|s k reason Hs
                  |o1 d1 o2 d2 _ IH1 _ IH2];
    try (apply steps_wellFormed in Hc; simpl in Hc);
    try (pose proof (steps_wellFormed Hs) as [Hsave Hdel]).
  - constructor.
  - constructor; [apply isQueryCall_not_others; auto | constructor].
  - constructor; [apply isQueryCall_not_others; auto | constructor].
  - constructor; [apply Hc | constructor].
  - constructor; [apply isSave_not_others; auto | constructor].
  - econstructor; [eassumption | constructor].
  - econstructor; [eassumption | constructor].
  - apply Guarded_app; auto.
Qed.

(** A failed backup makes the run fail, and the failure a run reports is
    that of a call of the matching class that failed in the run. *)
Lemma Grammar_accounts o d :
  Grammar steps o d ->
  (failed isSave d = true -> o <> None)
  /\ (forall f, o = Some f ->
                match f with
                | QueryFailure _ _ => failed isQueryCall d = true
                | BlobCreationFailure _ => failed isSave d = true
                | DocumentDeleteFailure _ => failed isDelete d = true
                end).
Proof.
  induction 1 as [|c Hc|c reason Hc|c b Hc|s k reason Hs|s k Hs|s k reason Hs
                  |o1 d1 o2 d2 _ [IH1a IH1b] _ [IH2a IH2b]];
    try (apply steps_wellFormed in Hc; simpl in Hc);
    try (pose proof (steps_wellFormed Hs) as [Hsave Hdel]).
  - split; [discriminate|]. intros f E; discriminate.
  - unfold failed; simpl. rewrite andb_false_r.
    split; [discriminate|]. intros f E; discriminate.
  - unfold failed; simpl.
    split; [discriminate|]. intros f E. inversion E; subst. rewrite Hc. reflexivity.
  - destruct Hc as (Hc & _). unfold failed; simpl. rewrite Hc. simpl.
    split; [discriminate|]. intros f E; discriminate.
  - unfold failed; simpl.
    split; [discriminate|]. intros f E. inversion E; subst. rewrite Hsave. reflexivity.
  - unfold failed; simpl. rewrite !andb_false_r.
    split; [discriminate|]. intros f E; discriminate.
  - destruct (isDelete_not_others _ Hdel) as [Hk _]. unfold failed; simpl.
    rewrite Hk, andb_false_r. simpl.
    split; [discriminate|]. intros f E. inversion E; subst.
    rewrite Hdel. simpl. apply orb_true_r.
  - split.
    + rewrite failed_app. intros Hf. apply orb_true_iff in Hf.
      destruct o1 as [f1|]; simpl; [discriminate|].
      destruct Hf as [Hf|Hf]; [elim (IH1a Hf); reflexivity | auto].
    + intros f E. destruct o1 as [f1|]; simpl in E.
      * inversion E; subst. specialize (IH1b f eq_refl).
        destruct f; rewrite failed_app, IH1b; reflexivity.
      * specialize (IH2b f E).
        destruct f; rewrite failed_app, IH2b; apply orb_true_r.
Qed.
End GrammarFacts.

Lemma AllUserDataSteps_wellFormed JSON_stringify info fiscalCode st :
  AllUserDataSteps JSON_stringify info fiscalCode st -> wellFormed st.
Proof. intros Hst. invert_steps; simpl; auto. Qed.

(** The call before a deletion is the successful backup of the document. *)
Lemma Guarded_before (steps : Step -> Prop) d :
  (forall st, steps st -> wellFormed st) ->
  Guarded steps d ->
  forall pre e post,
    d = pre ++ e :: post -> isDelete (call e) = true ->
    exists pre' save,
      pre = pre' ++ [{| call := save; ok := true |}]
      /\ steps (StepBackupThenDelete save (call e)).
Proof.
  intros Hwf. induction 1 as [|e0 d Hnd Hd IH|save delete b d Hst Hd IH];
    intros pre e post E He.
  - destruct pre; discriminate.
  - destruct pre as [|x pre]; simpl in E; inversion E; subst.
    + congruence.
    + destruct (IH _ _ _ eq_refl He) as (pre' & s & -> & Hs).
      eexists (_ :: pre'), s. split; [reflexivity | auto].
  - destruct pre as [|x [|y pre]]; simpl in E; inversion E; subst.
    + destruct (Hwf _ Hst) as [Hs _]. apply isSave_not_others in Hs.
      simpl in He. destruct Hs; congruence.
    + exists [], save. auto.
    + destruct (IH _ _ _ eq_refl He) as (pre' & s & -> & Hs).
      eexists (_ :: _ :: pre'), s. split; [reflexivity | auto].
Qed.

Lemma Grammar_calls (steps : Step -> Prop) (P : Call -> Prop) o d :
  (forall st, steps st -> stepCalls P st) ->
  Grammar steps o d -> Forall (fun e => P (call e)) d.
Proof.
  intros HP. induction 1 as [|c Hc|c reason Hc|c b Hc|s k reason Hs|s k Hs|s k reason Hs
                             |o1 d1 o2 d2 _ IH1 _ IH2];
    try (apply HP in Hc; simpl in Hc); try (apply HP in Hs; destruct Hs);
    repeat constructor; auto.
  apply Forall_app; auto.
Qed.

Lemma append_cancel_l (p a b : string) : (p ++ a)%string = (p ++ b)%string -> a = b.
Proof. induction p as [|c p IH]; simpl; intros E; [auto | injection E; auto]. Qed.

Lemma backupBlobPath_inj (folder : option string) (a b : string) :
  backupBlobPath folder a = backupBlobPath folder b -> a = b.
Proof.
  unfold backupBlobPath. intros E.
  apply append_cancel_l in E. apply append_cancel_l in E. exact E.
Qed.

(** * The fuel of the walker is never exhausted *)

Section Fuel.
Variable JSON_stringify : forall T : Type, T -> string.
Context {T : Type}.
Variable deleteSingle : T -> Task World (PromiseOutcome (Either QueryErrorOrError string)).
Variable userDataBackup : IBlobServiceInfo.
Variable makeBackupBlobName : T -> string.

Lemma liftW_remaining {L A} (t : TaskEither World L A) (s : IResultIterator T * World) :
  remaining (snd (liftW t s)) = remaining s.
Proof. destruct s as [it w]. unfold liftW. destruct (t w); reflexivity. Qed.

Lemma recordTask_agree rest rest' (bound : nat) (item : T) s :
  (forall s', remaining s' <= bound ->
              rest s' = rest' s' /\ remaining (snd (rest s')) <= remaining s') ->
  remaining s <= bound ->
  recordTask JSON_stringify deleteSingle userDataBackup makeBackupBlobName rest item s = recordTask JSON_stringify deleteSingle userDataBackup makeBackupBlobName rest' item s
  /\ remaining (snd (recordTask JSON_stringify deleteSingle userDataBackup makeBackupBlobName rest item s)) <= remaining s.
Proof.
  intros Hrest Hs. unfold recordTask, sequenceT3_seq, ap_seq, chain.
  rewrite !map_run.
  pose proof (liftW_remaining
                (saveDataToBlob JSON_stringify userDataBackup
                                (makeBackupBlobName item) item) s) as H1.
  destruct (liftW (saveDataToBlob _ _ _ _) s) as [[f|a] s1]; simpl in *.
  - split; [reflexivity | lia].
  - rewrite !map_run.
    pose proof (liftW_remaining
                  (mapLeft toDocumentDeleteFailure (fromQueryEither (deleteSingle item)))
                  s1) as H2.
    destruct (liftW (mapLeft _ _) s1) as [[f|b] s2]; simpl in *.
    + split; [reflexivity | lia].
    + rewrite !map_run. destruct (Hrest s2) as [E Hle]; [lia|].
      rewrite <- E. simpl. split; [reflexivity | lia].
Qed.

Lemma runAll_agree rest rest' (bound : nat) (items : list T) :
  (forall s', remaining s' <= bound ->
              rest s' = rest' s' /\ remaining (snd (rest s')) <= remaining s') ->
  forall s, remaining s <= bound ->
    runAll (List.map (recordTask JSON_stringify deleteSingle userDataBackup makeBackupBlobName rest) items) s
    = runAll (List.map (recordTask JSON_stringify deleteSingle userDataBackup makeBackupBlobName rest') items) s
    /\ remaining (snd (runAll (List.map (recordTask JSON_stringify deleteSingle userDataBackup makeBackupBlobName rest) items) s)) <= remaining s.
Proof.
  intros Hrest. induction items as [|item items IH]; intros s Hs; simpl.
  - split; [reflexivity | lia].
  - destruct (@recordTask_agree rest rest' bound item s Hrest Hs) as [E Hle].
    rewrite <- E.
    destruct (recordTask JSON_stringify deleteSingle userDataBackup makeBackupBlobName rest item s) as [r s1]; simpl in *.
    destruct (IH s1) as [E' Hle']; [lia|]. rewrite <- E'.
    destruct (runAll (List.map (recordTask JSON_stringify deleteSingle userDataBackup makeBackupBlobName rest) items) s1) as [rs s2]; simpl in *.
    split; [reflexivity | lia].
Qed.

Lemma executeRecursive_unfold (fuel : nat) :
  executeRecursive JSON_stringify deleteSingle userDataBackup makeBackupBlobName (S fuel)
  = foldTaskEither
      (fun e => fromEither (Left e))
      (fun maybeResults : option (list T) =>
         match maybeResults with
         | None => taskEither_of []
         | Some items =>
             array_sequence
               (List.map
                  (recordTask JSON_stringify deleteSingle userDataBackup makeBackupBlobName
                              (executeRecursive JSON_stringify deleteSingle userDataBackup
                                                makeBackupBlobName fuel))
                  items)
         end)
      (bimap
         (debug "executeRecursiveBackupAndDelete executeNext result left")
         (debug "executeRecursiveBackupAndDelete executeNext result right")
         (foldTaskEither
            (fun e => fromEither (Left (toQueryFailure (IsError e))))
            (fun e => mapLeft toQueryFailure (fromEither e))
            (tryCatch executeNext))).
Proof. reflexivity. Qed.

(** With more fuel than pages the walker gives the same run whatever the
    fuel, and it never adds a page to the iterator. *)
Lemma executeRecursive_fuel (n : nat) :
  forall m s,
    remaining s < n -> remaining s < m ->
    executeRecursive JSON_stringify deleteSingle userDataBackup makeBackupBlobName n s
    = executeRecursive JSON_stringify deleteSingle userDataBackup makeBackupBlobName m s
    /\ remaining
         (snd (executeRecursive JSON_stringify deleteSingle userDataBackup
                                makeBackupBlobName n s))
       <= remaining s.
Proof.
  induction n as [|n IH]; intros m s Hn Hm; [lia|].
  destruct m as [|m]; [lia|].
  rewrite !executeRecursive_unfold. unfold foldTaskEither at 1 3 5.
  rewrite bimap_debug_run.
  destruct s as [it w]. unfold remaining in Hn, Hm. simpl in Hn, Hm.
  unfold foldTaskEither, tryCatch, executeNext, mapLeft, fromEither.
  destruct (pages it) as [|page rest] eqn:Hpages; simpl.
  - unfold remaining. simpl. rewrite Hpages. simpl. split; [reflexivity | lia].
  - destruct (page w) as [msg|[[msg|j]|[items|]]]; simpl;
      try (unfold remaining; simpl; rewrite Hpages; simpl; split; [reflexivity | lia]).
    rewrite !array_sequence_runAll.
    set (s1 := ({| query := query it; pages := rest |},
                w ++ [{| call := ExecuteNext (query it); ok := true |}])).
    destruct (@runAll_agree
                (executeRecursive JSON_stringify deleteSingle userDataBackup
                                  makeBackupBlobName n)
                (executeRecursive JSON_stringify deleteSingle userDataBackup
                                  makeBackupBlobName m)
                (List.length rest) items) with (s := s1) as [E Hle].
    + intros s' Hs'. apply IH; simpl in *; lia.
    + unfold s1, remaining. simpl. lia.
    + rewrite <- E. simpl. split; [reflexivity|].
      unfold remaining in *. simpl in *. rewrite Hpages. simpl. lia.
Qed.

(** The entry point gives the run of any larger fuel. *)
Lemma executeRecursiveBackupAndDelete_fuel (iterator : IResultIterator T) (extra : nat)
      (w : World) :
  executeRecursiveBackupAndDelete JSON_stringify deleteSingle userDataBackup
                                  makeBackupBlobName iterator w
  = withIterator iterator
                 (executeRecursive JSON_stringify deleteSingle userDataBackup
                                   makeBackupBlobName
                                   (S (List.length (pages iterator)) + extra)) w.
Proof.
  unfold executeRecursiveBackupAndDelete, withIterator.
  destruct (@executeRecursive_fuel (S (List.length (pages iterator)))
                                   (S (List.length (pages iterator)) + extra)
                                   (iterator, w)) as [E _];
    [unfold remaining; simpl; lia | unfold remaining; simpl; lia |].
  rewrite E. reflexivity.
Qed.
End Fuel.

(** * The properties of the design document *)

(** ** C1: a failed backup *)

(** C1 (as amended).  In every run of the cascade over the data of a user,
    a deletion is invoked only after the successful backup of the same
    document, which the task of a record runs before it, so that no document
    whose backup failed is deleted; when a backup fails the cascade fails;
    the failure is a Blob failure when no deletion and no query failed in
    the run; and the failure the cascade returns is always that of a call of
    its class, a query, a backup or a deletion, that failed in the run. *)
Theorem failed_backup_prevents_delete
        (JSON_stringify : forall T : Type, T -> string)
        (messageModel : MessageModel.t) (messageStatusModel : MessageStatusModel.t)
        (notificationModel : NotificationModel.t)
        (notificationStatusModel : NotificationStatusModel.t)
        (profileModel : ProfileModel.t) (userDataBackup : IBlobServiceInfo)
        (fiscalCode : string) (w : World) :
  let run :=
    backupAndDeleteAllUserData
      JSON_stringify messageModel messageStatusModel notificationModel
      notificationStatusModel profileModel userDataBackup fiscalCode w in
  exists d,
    snd run = w ++ d
    /\ (forall pre e post,
           d = pre ++ e :: post -> isDelete (call e) = true ->
           exists save,
             In {| call := save; ok := true |} pre
             /\ AllUserDataSteps JSON_stringify userDataBackup fiscalCode
                                 (StepBackupThenDelete save (call e)))
    /\ (failed isSave d = true -> exists failure, fst run = Left failure)
    /\ (failed isSave d = true -> failed isDelete d = false ->
        failed isQueryCall d = false ->
        exists reason, fst run = Left (BlobCreationFailure reason))
    /\ (forall failure,
           fst run = Left failure ->
           failed match failure with
                  | QueryFailure _ _ => isQueryCall
                  | BlobCreationFailure _ => isSave
                  | DocumentDeleteFailure _ => isDelete
                  end d = true).
Proof.
  intros run.
  pose proof (follows_backupAndDeleteAllUserData
                JSON_stringify userDataBackup messageModel messageStatusModel
                notificationModel notificationStatusModel profileModel fiscalCode) as HF.
  destruct (HF w I) as (d & _ & Hw & Hg). clear HF.
  fold run in Hw, Hg. exists d. split; [exact Hw|].
  pose proof (@AllUserDataSteps_wellFormed JSON_stringify userDataBackup fiscalCode) as Hwf.
  destruct (Grammar_accounts Hwf Hg) as [Hfail Hkind].
  split; [|split; [|split]].
  - intros pre e post E He.
    assert (HG : Guarded (AllUserDataSteps JSON_stringify userDataBackup fiscalCode) d)
      by (apply Grammar_Guarded with (o := failureOf (fst run)); auto).
    pose proof (Guarded_before Hwf HG) as Hbefore.
    destruct (Hbefore pre e post E He) as (pre' & save & -> & Hstep).
    exists save. split; [|exact Hstep].
    apply in_or_app. right. left. reflexivity.
  - intros Hs. destruct (fst run) as [f|a]; [eauto|]. elim (Hfail Hs); reflexivity.
  - intros Hs Hd Hq. destruct (fst run) as [f|a]; [|elim (Hfail Hs); reflexivity].
    specialize (Hkind f eq_refl). destruct f; [congruence | eauto | congruence].
  - intros failure E. rewrite E in Hkind. specialize (Hkind failure eq_refl).
    destruct failure; exact Hkind.
Qed.

(** A run where the backup of one version fails and the theorem gives the
    Blob failure. *)
Lemma failed_backup_prevents_delete_witness :
  exists reason,
    fst (backupAndDeleteAllUserData
           Sample.JSON_stringify Sample.noMessages Sample.aMessageStatusModel
           Sample.noNotifications Sample.noNotificationStatuses Sample.aProfileModel
           Sample.refusingBackup Sample.aFiscalCode [])
    = Left (BlobCreationFailure reason).
Proof.
  destruct (failed_backup_prevents_delete
              Sample.JSON_stringify Sample.noMessages Sample.aMessageStatusModel
              Sample.noNotifications Sample.noNotificationStatuses Sample.aProfileModel
              Sample.refusingBackup Sample.aFiscalCode [])
    as (d & Hd & _ & _ & Hblob & _).
  simpl app in Hd. subst d. apply Hblob; vm_compute; reflexivity.
Defined.

(** C1 as stated fails: the backup of version 1 of the profile fails, and the
    cascade reports the Delete failure of version 0, which stands before it
    in the page. *)
Lemma failed_backup_reported_as_delete_failure :
  let run :=
    backupAndDeleteAllUserData
      Sample.JSON_stringify Sample.noMessages Sample.aMessageStatusModel
      Sample.noNotifications Sample.noNotificationStatuses
      Sample.refusingProfileModel Sample.refusingBackup Sample.aFiscalCode [] in
  In {| call := CreateBlockBlobFromText "user-data-backup" "a-folder/profile--1.json" "{}";
        ok := false |} (snd run)
  /\ fst run = Left (DocumentDeleteFailure "delete refused")
  /\ DataFailure_kind (DocumentDeleteFailure "delete refused") <> "BLOB_FAILURE".
Proof.
  vm_compute. split; [|split].
  - do 4 right. left. reflexivity.
  - reflexivity.
  - discriminate.
Qed.

(** ** C2: the walker on a page of two records *)

(** C2 fails on a page of more than one record.  On a single page with two
    versions of a profile the walker recurses after each record, so that
    [executeNext] is called three times and not twice, and the result is an
    array of two arrays and not the flat array of the two records. *)
Lemma walker_recurses_after_each_record :
  let run :=
    backupAndDeleteProfile Sample.JSON_stringify Sample.aProfileModel Sample.aBackup
                           Sample.aFiscalCode [] in
  fst run = Right [Arr [Item Sample.profile0]; Arr [Item Sample.profile1]]
  /\ List.map call (snd run)
     = [ExecuteNext (ProfileVersions Sample.aFiscalCode);
        CreateBlockBlobFromText "user-data-backup" "a-folder/profile--0.json" "{}";
        DeleteProfileVersion Sample.aFiscalCode "SPNDNL80R13C523K-0000000000000000";
        ExecuteNext (ProfileVersions Sample.aFiscalCode);
        CreateBlockBlobFromText "user-data-backup" "a-folder/profile--1.json" "{}";
        DeleteProfileVersion Sample.aFiscalCode "SPNDNL80R13C523K-0000000000000001";
        ExecuteNext (ProfileVersions Sample.aFiscalCode)].
Proof. vm_compute. split; reflexivity. Qed.

(** ** C3: the children of a message before the message *)

Lemma MessageChildrenSteps_not_onMessage JSON_stringify info message st :
  MessageChildrenSteps JSON_stringify info message st ->
  stepCalls (fun c => onMessage info message c = false) st.
Proof.
  intros Hst. invert_steps; simpl; auto; split; auto;
    apply String.eqb_neq; intros E; apply backupBlobPath_inj in E; discriminate E.
Qed.

Lemma sequenceT3_par_run {S L A B C} (a : TaskEither S L A) (b : TaskEither S L B)
      (c : TaskEither S L C) (s : S) :
  sequenceT3_par a b c s
  = (either_ap (either_ap (either_map (fun x y z => (x, y, z)) (fst (a s)))
                          (fst (b (snd (a s)))))
               (fst (c (snd (b (snd (a s)))))),
     snd (c (snd (b (snd (a s)))))).
Proof.
  unfold sequenceT3_par, ap_par. rewrite map_run.
  destruct (a s) as [ra s1]; simpl. destruct (b s1) as [rb s2]; simpl.
  destruct (c s2) as [rc s3]; reflexivity.
Qed.

(** C3.  When the cascade over the content of a message, over the history of
    its status or over its notifications fails, the processing of the message
    ends with the three of them and fails: every call it made is a call of
    the children, and none is the backup or the deletion of the message. *)
Theorem child_failure_prevents_message_delete
        (JSON_stringify : forall T : Type, T -> string)
        (messageModel : MessageModel.t) (messageStatusModel : MessageStatusModel.t)
        (notificationModel : NotificationModel.t)
        (notificationStatusModel : NotificationStatusModel.t)
        (userDataBackup : IBlobServiceInfo)
        (message : RetrievedMessageWithoutContent.t) (w : World) :
  let content :=
    backupAndDeleteMessageContent JSON_stringify messageModel userDataBackup message w in
  let status :=
    backupAndDeleteMessageStatus JSON_stringify messageStatusModel userDataBackup message
                                 (snd content) in
  let notifications :=
    backupAndDeleteAllNotificationsData
      JSON_stringify message notificationModel notificationStatusModel userDataBackup
      (snd status) in
  let run :=
    backupAndDeleteOneMessageData
      JSON_stringify messageModel messageStatusModel notificationModel
      notificationStatusModel userDataBackup message w in
  isLeft (fst content) = true \/ isLeft (fst status) = true
  \/ isLeft (fst notifications) = true ->
  exists failure d,
    run = (Left failure, w ++ d)
    /\ snd notifications = w ++ d
    /\ Forall (fun e => onMessage userDataBackup message (call e) = false) d.
Proof.
  intros content status notifications run Hfail.
  pose proof (follows_backupAndDeleteMessageChildren
                JSON_stringify userDataBackup messageModel messageStatusModel
                notificationModel notificationStatusModel message) as HF.
  destruct (HF w I) as (d & _ & Hw & Hg). clear HF.
  unfold run, backupAndDeleteOneMessageData, chain.
  unfold backupAndDeleteMessageChildren in *.
  rewrite sequenceT3_par_run in *. fold content. fold status. fold notifications.
  simpl in Hw, Hg. fold content in Hw, Hg. fold status in Hw, Hg.
  fold notifications in Hw, Hg.
  assert (Hcalls : Forall (fun e => onMessage userDataBackup message (call e) = false) d).
  { eapply (@Grammar_calls _ (fun c => onMessage userDataBackup message c = false));
      [|exact Hg].
    apply MessageChildrenSteps_not_onMessage. }
  unfold worldOf, HasWorld_World in Hw.
  destruct (fst content) as [f1|c1]; simpl.
  - exists f1, d. rewrite Hw. auto.
  - destruct (fst status) as [f2|c2]; simpl.
    + exists f2, d. rewrite Hw. auto.
    + destruct (fst notifications) as [f3|c3]; simpl.
      * exists f3, d. rewrite Hw. auto.
      * simpl in Hfail. destruct Hfail as [H|[H|H]]; discriminate.
Qed.

(** The deletion of the only version of the status of a message is refused:
    the message is neither backed up nor deleted. *)
Lemma child_failure_prevents_message_delete_witness :
  isLeft (fst (backupAndDeleteMessageStatus
                 Sample.JSON_stringify Sample.refusingMessageStatusModel Sample.aBackup
                 Sample.aMessage
                 (snd (backupAndDeleteMessageContent
                         Sample.JSON_stringify Sample.oneMessage Sample.aBackup
                         Sample.aMessage [])))) = true
  /\ exists failure d,
      backupAndDeleteOneMessageData
        Sample.JSON_stringify Sample.oneMessage Sample.refusingMessageStatusModel
        Sample.noNotifications Sample.noNotificationStatuses Sample.aBackup
        Sample.aMessage [] = (Left failure, d)
      /\ Forall (fun e => onMessage Sample.aBackup Sample.aMessage (call e) = false) d.
Proof.
  split; [vm_compute; reflexivity|].
  destruct (child_failure_prevents_message_delete
              Sample.JSON_stringify Sample.oneMessage Sample.refusingMessageStatusModel
              Sample.noNotifications Sample.noNotificationStatuses Sample.aBackup
              Sample.aMessage [])
    as (failure & d & Hrun & _ & Hcalls).
  - right. left. vm_compute. reflexivity.
  - exists failure, d. split; [exact Hrun | exact Hcalls].
Defined.

(** ** C4: the messages before the profile *)

Lemma prefix_append (p a b : string) :
  String.prefix (p ++ a) (p ++ b) = String.prefix a b.
Proof.
  induction p as [|c p IH]; simpl; auto.
  destruct (ascii_dec c c); [exact IH | congruence].
Qed.

Lemma prefix_backupBlobPath (folder : option string) (a b : string) :
  String.prefix (backupBlobPath folder a) (backupBlobPath folder b) = String.prefix a b.
Proof. unfold backupBlobPath. rewrite !prefix_append. reflexivity. Qed.

Lemma AllMessagesSteps_not_onProfile JSON_stringify info fiscalCode st :
  AllMessagesSteps JSON_stringify info fiscalCode st ->
  stepCalls (fun c => onProfile info c = false) st.
Proof.
  intros Hst. invert_steps; simpl; auto; split; auto;
    rewrite prefix_backupBlobPath; reflexivity.
Qed.

(** C4.  The cascade over the messages makes no call on the profile.  When
    it fails, the cascade over the data of the user ends there with the same
    failure, so that the profile is neither backed up nor deleted; when it
    succeeds, the cascade over the versions of the profile starts from the
    world the messages left. *)
Theorem profile_after_messages
        (JSON_stringify : forall T : Type, T -> string)
        (messageModel : MessageModel.t) (messageStatusModel : MessageStatusModel.t)
        (notificationModel : NotificationModel.t)
        (notificationStatusModel : NotificationStatusModel.t)
        (profileModel : ProfileModel.t) (userDataBackup : IBlobServiceInfo)
        (fiscalCode : string) (w : World) :
  let messages :=
    backupAndDeleteAllMessagesData
      JSON_stringify messageModel messageStatusModel notificationModel
      notificationStatusModel userDataBackup fiscalCode w in
  let run :=
    backupAndDeleteAllUserData
      JSON_stringify messageModel messageStatusModel notificationModel
      notificationStatusModel profileModel userDataBackup fiscalCode w in
  exists d,
    snd messages = w ++ d
    /\ Forall (fun e => onProfile userDataBackup (call e) = false) d
    /\ (forall failure, fst messages = Left failure -> run = (Left failure, w ++ d))
    /\ (isRight (fst messages) = true ->
        run = backupAndDeleteProfile JSON_stringify profileModel userDataBackup
                                     fiscalCode (w ++ d)).
Proof.
  intros messages run.
  pose proof (follows_backupAndDeleteAllMessagesData
                JSON_stringify userDataBackup messageModel messageStatusModel
                notificationModel notificationStatusModel fiscalCode) as HF.
  destruct (HF w I) as (d & _ & Hw & Hg). clear HF.
  fold messages in Hw, Hg. unfold worldOf, HasWorld_World in Hw.
  exists d. split; [exact Hw|]. split.
  - eapply (@Grammar_calls _ (fun c => onProfile userDataBackup c = false)); [|exact Hg].
    apply AllMessagesSteps_not_onProfile.
  - unfold run, backupAndDeleteAllUserData, chain. fold messages.
    rewrite <- Hw. destruct messages as [[f|a] w1]; simpl; split.
    + intros failure E. inversion E; subst. reflexivity.
    + discriminate.
    + discriminate.
    + reflexivity.
Qed.

(** The deletion of a version of the status of the only message is refused:
    the cascade over the data of the user fails without a call on the
    profile. *)
Lemma profile_after_messages_witness :
  exists failure d,
    backupAndDeleteAllUserData
      Sample.JSON_stringify Sample.oneMessage Sample.refusingMessageStatusModel
      Sample.noNotifications Sample.noNotificationStatuses Sample.aProfileModel
      Sample.aBackup Sample.aFiscalCode [] = (Left failure, d)
    /\ Forall (fun e => onProfile Sample.aBackup (call e) = false) d.
Proof.
  destruct (profile_after_messages
              Sample.JSON_stringify Sample.oneMessage Sample.refusingMessageStatusModel
              Sample.noNotifications Sample.noNotificationStatuses Sample.aProfileModel
              Sample.aBackup Sample.aFiscalCode [])
    as (d & _ & Hcalls & Hfail & _).
  eexists. exists d. split; [|exact Hcalls].
  apply Hfail. vm_compute. reflexivity.
Defined.

(** ** The activity unfolded *)

Section ActivityRuns.
Variable JSON_stringify : forall T : Type, T -> string.
Variable isFiscalCode : string -> bool.
Variable readableReport : Errors -> string.
Variable deps : IActivityHandlerInput.

Lemma handler_run_invalid (input : JsValue) (errors : Errors) (w : World) :
  ActivityInput_decode isFiscalCode input = Left errors ->
  createDeleteUserDataActivityHandler JSON_stringify isFiscalCode readableReport deps input w
  = (ActivityResultFailureOf (InvalidInputFailure (readableReport errors)), w).
Proof.
  intros E. unfold createDeleteUserDataActivityHandler, bimap, chain, fromEither.
  rewrite E. reflexivity.
Qed.

Lemma handler_run_decoded (input : JsValue) (decoded : ActivityInput) (w : World) :
  ActivityInput_decode isFiscalCode input = Right decoded ->
  createDeleteUserDataActivityHandler JSON_stringify isFiscalCode readableReport deps input w
  = let run :=
      backupAndDeleteAllUserData
        JSON_stringify (messageModel deps) (messageStatusModel deps)
        (notificationModel deps) (notificationStatusModel deps) (profileModel deps)
        (userDataBackupOf deps decoded) (fiscalCode decoded) w in
    (match fst run with
     | Left failure => ActivityResultFailureOf (DataFailureOf failure)
     | Right _ => ActivityResultSuccess
     end, snd run).
Proof.
  intros E. unfold createDeleteUserDataActivityHandler, bimap, chain, fromEither, mapLeft.
  rewrite E. simpl. unfold userDataBackupOf.
  destruct (backupAndDeleteAllUserData _ _ _ _ _ _ _ _ w) as [[f|a] w']; reflexivity.
Qed.

Lemma ActivityInput_decode_nonempty (input : JsValue) (decoded : ActivityInput) :
  ActivityInput_decode isFiscalCode input = Right decoded ->
  exists c s, backupFolder decoded = String c s.
Proof.
  unfold ActivityInput_decode. intros E.
  destruct input; try discriminate.
  destruct (property properties "backupFolder"); try discriminate.
  destruct s as [|c s]; try discriminate.
  destruct (property properties "fiscalCode"); try discriminate.
  destruct (isFiscalCode s0); try discriminate.
  inversion E; subst. simpl. eauto.
Qed.
End ActivityRuns.

(** ** C5: the names of the backups *)

Section BackupNamesOfTheSteps.
Variable JSON_stringify : forall T : Type, T -> string.
Variable backupFolder : string.

Lemma AllUserDataSteps_named (info : IBlobServiceInfo) (fiscalCode : string) st :
  folder info = Some backupFolder -> backupFolder <> EmptyString ->
  AllUserDataSteps JSON_stringify info fiscalCode st ->
  stepCalls (namedBackupCall JSON_stringify backupFolder (containerName info)) st.
Proof.
  intros Hfolder Hne Hst.
  assert (Hpath : forall name,
             backupBlobPath (folder info) name = (backupFolder ++ "/" ++ name)%string).
  { intros name. unfold backupBlobPath. rewrite Hfolder.
    destruct backupFolder; [congruence | reflexivity]. }
  invert_steps; simpl; try (match goal with |- _ /\ _ => split end);
    intros container blobName text E; try discriminate E;
    unfold saveCall in E; rewrite Hpath in E; inversion E; subst;
    (split; [reflexivity|]).
  - apply NamedBackup_content.
  - apply NamedBackup_message_status.
  - apply NamedBackup_notification_status.
  - apply NamedBackup_notification.
  - apply NamedBackup_message.
  - apply NamedBackup_profile.
Qed.
End BackupNamesOfTheSteps.

(** C5 (as amended).  Every backup the activity writes goes to the container
    of the backups, under the folder of the input, with the serialized
    document as its text.  The blob of a message, of a notification and of
    the content of a message is [<entityType>--<id>.json], with the id of the
    message for a content; the blob of a version of the profile is
    [profile--<version>.json], without the id. *)
Theorem backups_are_named_after_id_or_version
        (JSON_stringify : forall T : Type, T -> string)
        (isFiscalCode : string -> bool) (readableReport : Errors -> string)
        (deps : IActivityHandlerInput) (input : JsValue) (decoded : ActivityInput)
        (w : World) :
  ActivityInput_decode isFiscalCode input = Right decoded ->
  exists d,
    snd (createDeleteUserDataActivityHandler
           JSON_stringify isFiscalCode readableReport deps input w) = w ++ d
    /\ Forall (fun e =>
                 namedBackupCall JSON_stringify (backupFolder decoded)
                                 (userDataBackupContainerName deps) (call e)) d.
Proof.
  intros E.
  rewrite (@handler_run_decoded JSON_stringify isFiscalCode readableReport deps
                                input decoded w E).
  simpl.
  pose proof (follows_backupAndDeleteAllUserData
                JSON_stringify (userDataBackupOf deps decoded) (messageModel deps)
                (messageStatusModel deps) (notificationModel deps)
                (notificationStatusModel deps) (profileModel deps)
                (fiscalCode decoded)) as HF.
  destruct (HF w I) as (d & _ & Hw & Hg). clear HF.
  exists d. split; [exact Hw|].
  eapply (@Grammar_calls
            _ (namedBackupCall JSON_stringify (backupFolder decoded)
                               (userDataBackupContainerName deps))); [|exact Hg].
  intros st Hst.
  apply (AllUserDataSteps_named (info := userDataBackupOf deps decoded)) with (3 := Hst).
  - reflexivity.
  - destruct (ActivityInput_decode_nonempty _ _ E) as (c & s & ->). discriminate.
Qed.

(** The two versions of a profile are backed up as [profile--0.json] and
    [profile--1.json] in the folder of the input. *)
Lemma backups_are_named_after_id_or_version_witness :
  exists d,
    snd (createDeleteUserDataActivityHandler
           Sample.JSON_stringify Sample.isFiscalCode Sample.readableReport
           Sample.someDeps Sample.anInput []) = d
    /\ Forall (fun e =>
                 namedBackupCall Sample.JSON_stringify "a-folder" "user-data-backup"
                                 (call e)) d.
Proof.
  exact (backups_are_named_after_id_or_version
           Sample.JSON_stringify Sample.isFiscalCode Sample.readableReport
           Sample.someDeps Sample.anInput
           (decoded := {| backupFolder := "a-folder"; fiscalCode := Sample.aFiscalCode |})
           [] eq_refl).
Defined.

(** C5 as stated fails: version 0 of the profile is backed up and deleted,
    and no blob written in the run has the id of that document in its name. *)
Lemma profile_backup_name_lacks_id :
  let run :=
    createDeleteUserDataActivityHandler
      Sample.JSON_stringify Sample.isFiscalCode Sample.readableReport
      Sample.someDeps Sample.anInput [] in
  fst run = ActivityResultSuccess
  /\ In {| call := DeleteProfileVersion Sample.aFiscalCode
                                        (RetrievedProfile.id Sample.profile0);
           ok := true |} (snd run)
  /\ In {| call := CreateBlockBlobFromText "user-data-backup" "a-folder/profile--0.json"
                                           (Sample.JSON_stringify Sample.profile0);
           ok := true |} (snd run)
  /\ Forall (fun e =>
               match call e with
               | CreateBlockBlobFromText _ blobName _ =>
                   includes blobName (RetrievedProfile.id Sample.profile0) = false
               | _ => True
               end) (snd run).
Proof.
  vm_compute. repeat split; auto 10.
Qed.

(** ** C9: a message without content *)

(** C9.  When the content of a message is not found, be it that the lookup
    resolves with [none] or that it fails, the content step succeeds with
    [none] after the lookup alone, without a backup and without a deletion;
    and when the two other children succeed as well, the message itself is
    backed up and deleted next. *)
Theorem missing_content_is_not_a_failure
        (JSON_stringify : forall T : Type, T -> string)
        (messageModel : MessageModel.t) (messageStatusModel : MessageStatusModel.t)
        (notificationModel : NotificationModel.t)
        (notificationStatusModel : NotificationStatusModel.t)
        (userDataBackup : IBlobServiceInfo)
        (message : RetrievedMessageWithoutContent.t) (w : World) :
  let answer :=
    MessageModel.answerGetContentFromBlob
      messageModel (RetrievedMessageWithoutContent.id message) w in
  let lookup :=
    {| call := GetContentFromBlob (RetrievedMessageWithoutContent.id message);
       ok := resolved answer |} in
  let status :=
    backupAndDeleteMessageStatus JSON_stringify messageStatusModel userDataBackup message
                                 (w ++ [lookup]) in
  let notifications :=
    backupAndDeleteAllNotificationsData
      JSON_stringify message notificationModel notificationStatusModel userDataBackup
      (snd status) in
  (forall content, answer <> Resolves (Right (Some content))) ->
  backupAndDeleteMessageContent JSON_stringify messageModel userDataBackup message w
  = (Right None, w ++ [lookup])
  /\ (isRight (fst status) = true -> isRight (fst notifications) = true ->
      backupAndDeleteOneMessageData
        JSON_stringify messageModel messageStatusModel notificationModel
        notificationStatusModel userDataBackup message w
      = backupAndDeleteMessage JSON_stringify messageModel userDataBackup message
                               (snd notifications)).
Proof.
  intros answer lookup status notifications Hmissing.
  assert (Hcontent :
            backupAndDeleteMessageContent JSON_stringify messageModel userDataBackup message w
            = (Right None, w ++ [lookup])).
  { unfold backupAndDeleteMessageContent, bimap, foldTaskEither, fromQueryEither, chain,
      tryCatch, MessageModel.getContentFromBlob, invoke, mapLeft, fromEither.
    fold answer. unfold lookup.
    destruct answer as [m|[[m|j]|[content|]]] eqn:E; simpl; try reflexivity.
    elim (Hmissing content). reflexivity. }
  split; [exact Hcontent|].
  intros Hstatus Hnotifications.
  unfold backupAndDeleteOneMessageData, chain, backupAndDeleteMessageChildren.
  rewrite sequenceT3_par_run, Hcontent. simpl fst. simpl snd.
  fold status. fold notifications.
  destruct (fst status) as [f|a]; [discriminate|].
  destruct (fst notifications) as [f|b]; [discriminate|].
  reflexivity.
Qed.

(** A message without content, with one version of its status and without
    notifications: after the lookup of the content, the status is backed up
    and deleted, and then the message. *)
Lemma missing_content_is_not_a_failure_witness :
  backupAndDeleteMessageContent Sample.JSON_stringify Sample.oneMessage Sample.aBackup
                                Sample.aMessage []
  = (Right None, [{| call := GetContentFromBlob "A_MESSAGE_ID"; ok := true |}])
  /\ List.map call
              (snd (backupAndDeleteOneMessageData
                      Sample.JSON_stringify Sample.oneMessage Sample.aMessageStatusModel
                      Sample.noNotifications Sample.noNotificationStatuses Sample.aBackup
                      Sample.aMessage []))
     = [GetContentFromBlob "A_MESSAGE_ID";
        ExecuteNext (MessageStatusVersions "A_MESSAGE_ID");
        CreateBlockBlobFromText "user-data-backup" "a-folder/message-status--0.json" "{}";
        DeleteMessageStatusVersion "A_MESSAGE_ID" "A_MESSAGE_ID-0000000000000000";
        ExecuteNext (MessageStatusVersions "A_MESSAGE_ID");
        FindNotificationsForMessage "A_MESSAGE_ID";
        CreateBlockBlobFromText "user-data-backup" "a-folder/message--A_MESSAGE_ID.json" "{}";
        DeleteMessage Sample.aFiscalCode "A_MESSAGE_ID"].
Proof.
  destruct (missing_content_is_not_a_failure
              Sample.JSON_stringify Sample.oneMessage Sample.aMessageStatusModel
              Sample.noNotifications Sample.noNotificationStatuses Sample.aBackup
              Sample.aMessage [])
    as [Hcontent Hnext].
  - intros content. discriminate.
  - split; [exact Hcontent|].
    rewrite Hnext; vm_compute; reflexivity.
Defined.

(** ** C10: no user-not-found failure *)

(** C10.  Whatever the input and the answers of the services, the result of
    the activity is not of kind [USER_NOT_FOUND_FAILURE]; and for a user
    without messages and without versions of the profile it is the success,
    after the two queries alone. *)
Theorem activity_never_reports_user_not_found
        (JSON_stringify : forall T : Type, T -> string)
        (isFiscalCode : string -> bool) (readableReport : Errors -> string)
        (deps : IActivityHandlerInput) (input : JsValue) (w : World) :
  let run :=
    createDeleteUserDataActivityHandler
      JSON_stringify isFiscalCode readableReport deps input w in
  kind (fst run) <> "USER_NOT_FOUND_FAILURE"
  /\ forall decoded,
      let found := {| call := FindMessages (fiscalCode decoded); ok := true |} in
      ActivityInput_decode isFiscalCode input = Right decoded ->
      MessageModel.answerFindMessages (messageModel deps) (fiscalCode decoded) w
      = Resolves (Right []) ->
      noRecords (ProfileModel.pagesOfAllVersions (profileModel deps) (fiscalCode decoded))
                (w ++ [found]) ->
      run = (ActivityResultSuccess,
             w ++ [found;
                   {| call := ExecuteNext (ProfileVersions (fiscalCode decoded));
                      ok := true |}]).
Proof.
  intros run. split.
  - unfold run.
    destruct (ActivityInput_decode isFiscalCode input) as [errors|decoded] eqn:E.
    + rewrite (@handler_run_invalid JSON_stringify isFiscalCode readableReport deps
                                    input errors w E).
      simpl. discriminate.
    + rewrite (@handler_run_decoded JSON_stringify isFiscalCode readableReport deps
                                    input decoded w E).
      simpl.
      destruct (fst (backupAndDeleteAllUserData _ _ _ _ _ _ _ _ w)) as [[r q|r|r]|a];
        simpl; discriminate.
  - intros decoded found E Hfind Hpages. unfold run.
    rewrite (@handler_run_decoded JSON_stringify isFiscalCode readableReport deps
                                  input decoded w E).
    assert (Hmessages :
              backupAndDeleteAllMessagesData
                JSON_stringify (messageModel deps) (messageStatusModel deps)
                (notificationModel deps) (notificationStatusModel deps)
                (userDataBackupOf deps decoded) (fiscalCode decoded) w
              = (Right [], w ++ [found])).
    { unfold backupAndDeleteAllMessagesData, bimap, foldTaskEither, mapLeft,
        fromQueryEither, chain, tryCatch, MessageModel.findMessages, invoke, fromEither.
      rewrite Hfind. reflexivity. }
    assert (Hprofile :
              backupAndDeleteProfile JSON_stringify (profileModel deps)
                                     (userDataBackupOf deps decoded) (fiscalCode decoded)
                                     (w ++ [found])
              = (Right [],
                 (w ++ [found])
                   ++ [{| call := ExecuteNext (ProfileVersions (fiscalCode decoded));
                          ok := true |}])).
    { unfold backupAndDeleteProfile, executeRecursiveBackupAndDelete, withIterator.
      rewrite bimap_debug_run. simpl executeRecursive.
      unfold foldTaskEither, bimap, tryCatch, executeNext,
        ProfileModel.findAllVersionsByModelId. simpl pages. simpl query.
      unfold noRecords in Hpages.
      destruct (ProfileModel.pagesOfAllVersions (profileModel deps) (fiscalCode decoded))
        as [|page rest]; simpl.
      - reflexivity.
      - destruct Hpages as [-> | ->]; reflexivity. }
    simpl. unfold backupAndDeleteAllUserData, chain.
    rewrite Hmessages, Hprofile. simpl. rewrite <- app_assoc. reflexivity.
Qed.

(** A user without messages whose profile iterator is exhausted. *)
Lemma activity_never_reports_user_not_found_witness :
  createDeleteUserDataActivityHandler
    Sample.JSON_stringify Sample.isFiscalCode Sample.readableReport
    {| messageModel := Sample.noMessages;
       messageStatusModel := Sample.aMessageStatusModel;
       notificationModel := Sample.noNotifications;
       notificationStatusModel := Sample.noNotificationStatuses;
       profileModel :=
         {| ProfileModel.pagesOfAllVersions := fun _ => [];
            ProfileModel.answerDeleteProfileVersion := Sample.deleted |};
       userDataBackupBlobService := Sample.aBlobService;
       userDataBackupContainerName := "user-data-backup" |}
    Sample.anInput []
  = (ActivityResultSuccess,
     [{| call := FindMessages Sample.aFiscalCode; ok := true |};
      {| call := ExecuteNext (ProfileVersions Sample.aFiscalCode); ok := true |}]).
Proof.
  apply (activity_never_reports_user_not_found
           Sample.JSON_stringify Sample.isFiscalCode Sample.readableReport _
           Sample.anInput [])
    with (decoded := {| backupFolder := "a-folder"; fiscalCode := Sample.aFiscalCode |}).
  - reflexivity.
  - reflexivity.
  - exact I.
Defined.

(** ** The documents the orchestrator keeps *)

Section Skipping.
Import UserDataDownloadOrchestrator.
Variable readableReport : Errors -> string.
Context {A : Type}.

Lemma keepProcessable_from (decoded : list (Either Errors A)) :
  forall documents logged,
    fold_left
      (fun (acc : list A * list (Effect A)) maybeProcessable =>
         let (documents, logged) := acc in
         match maybeProcessable with
         | Left errors => (documents, logged ++ [skipping readableReport errors])
         | Right value => (documents ++ [value], logged)
         end)
      decoded (documents, logged)
    = (documents ++ fst (keepProcessable readableReport decoded),
       logged ++ snd (keepProcessable readableReport decoded)).
Proof.
  unfold keepProcessable, skipping.
  induction decoded as [|r decoded IH]; intros documents logged; simpl.
  - rewrite !app_nil_r. reflexivity.
  - destruct r as [errors|value]; rewrite IH; symmetry; rewrite IH; simpl;
      rewrite <- !app_assoc; reflexivity.
Qed.

Lemma keepProcessable_cons r (decoded : list (Either Errors A)) :
  keepProcessable readableReport (r :: decoded)
  = match r with
    | Left errors =>
        (fst (keepProcessable readableReport decoded),
         skipping readableReport errors :: snd (keepProcessable readableReport decoded))
    | Right value =>
        (value :: fst (keepProcessable readableReport decoded),
         snd (keepProcessable readableReport decoded))
    end.
Proof.
  unfold keepProcessable at 1, skipping. simpl.
  destruct r as [errors|value]; rewrite keepProcessable_from; reflexivity.
Qed.
End Skipping.

Lemma hasStatus_unique (doc : JsValue)
      (s1 s2 : UserDataDownloadOrchestrator.UserDataProcessingStatusEnum) :
  UserDataDownloadOrchestrator.hasStatus doc s1 = true ->
  UserDataDownloadOrchestrator.hasStatus doc s2 = true -> s1 = s2.
Proof.
  unfold UserDataDownloadOrchestrator.hasStatus. destruct doc; try discriminate.
  destruct (property properties "status"); try discriminate.
  intros E1 E2. apply String.eqb_eq in E1, E2. subst s.
  destruct s1, s2; try reflexivity; discriminate.
Qed.

(** ** The runs of the workflow *)

Section WorkflowFacts.
Import UserDataDownloadOrchestrator.
Import UserDataDownloadSubOrchestrator.
Variable answers : Answers.
Variable retryOptions : RetryOptions.
Variable steps : list string.

Lemma persisted_app h1 h2 : persisted (h1 ++ h2) = persisted h1 ++ persisted h2.
Proof. apply flat_map_app. Qed.

(** The attempts of a step: failures that are retried, then either a
    success or the failure of the last attempt. *)
Lemma callActivityWithRetry_run name job (n : nat) :
  forall h,
  exists pre e,
    snd (callActivityWithRetry answers name job n h) = h ++ pre ++ [e]
    /\ forallb (fun x => negb (fatal x)) pre = true
    /\ persisted (pre ++ [e]) = []
    /\ nameOf (activity e) = name /\ extraOf (activity e) = None
    /\ match fst (callActivityWithRetry answers name job n h) with
       | None => succeeded e = true
       | Some _ => fatal e = true
       end.
Proof.
  induction n as [|n IH]; intros h; simpl; unfold callActivity.
  - destruct (answers h (BusinessStep name job 0)) as [reason|]; simpl;
      eexists [], _; simpl; repeat split; reflexivity.
  - destruct (answers h (BusinessStep name job (S n))) as [reason|]; simpl.
    + destruct (IH (h ++ [{| activity := BusinessStep name job (S n);
                             succeeded := false |}]))
        as (pre & e & Hrun & Hpre & Hper & Hname & Hextra & Hlast).
      exists ({| activity := BusinessStep name job (S n); succeeded := false |} :: pre), e.
      rewrite Hrun, <- app_assoc. simpl. repeat split; auto.
    + eexists [], _; simpl; repeat split; reflexivity.
Qed.

Lemma runSteps_run (names : list string) job :
  forall h,
  exists d,
    snd (runSteps answers retryOptions names job h) = h ++ d
    /\ persisted d = []
    /\ match fst (runSteps answers retryOptions names job h) with
       | None => forallb (fun x => negb (fatal x)) d = true
       | Some (name, _) =>
           exists pre e,
             d = pre ++ [e]
             /\ forallb (fun x => negb (fatal x)) pre = true
             /\ fatal e = true
             /\ nameOf (activity e) = name /\ extraOf (activity e) = None
       end.
Proof.
  induction names as [|name names IH]; intros h; simpl.
  - exists []. rewrite app_nil_r. auto.
  - destruct (callActivityWithRetry_run name job (retries retryOptions) h)
      as (pre & e & Hrun & Hpre & Hper & Hname & Hextra & Hlast).
    destruct (callActivityWithRetry answers name job (retries retryOptions) h)
      as [[reason|] h1]; simpl in *; subst h1.
    + exists (pre ++ [e]). repeat split; auto. exists pre, e. auto.
    + destruct (IH (h ++ pre ++ [e])) as (d & Hrun' & Hper' & Hrest).
      exists ((pre ++ [e]) ++ d). rewrite Hrun', <- !app_assoc.
      split; [reflexivity|]. split.
      * rewrite app_assoc, persisted_app, Hper, Hper'. reflexivity.
      * assert (Hok : forallb (fun x => negb (fatal x)) (pre ++ [e]) = true).
        { rewrite forallb_app, Hpre. simpl. unfold fatal. rewrite Hlast. reflexivity. }
        destruct (fst (runSteps answers retryOptions names job (h ++ pre ++ [e])))
          as [[name' reason]|].
        -- destruct Hrest as (pre' & e' & -> & Hpre' & He' & Hname' & Hextra').
           exists ((pre ++ [e]) ++ pre'), e'. rewrite <- !app_assoc.
           repeat split; auto. rewrite app_assoc, forallb_app, Hok, Hpre'. reflexivity.
        -- rewrite app_assoc, forallb_app, Hok, Hrest. reflexivity.
Qed.
End WorkflowFacts.

Section WorkflowRuns.
Import UserDataDownloadOrchestrator.
Import UserDataDownloadSubOrchestrator.
Variable answers : Answers.
Variable retryOptions : RetryOptions.
Variable steps : list string.

(** The two ways a job that is accepted ends: every call succeeded, at the
    last attempt at least, and the job is closed; or one call [e] failed
    for good, and the next and last call [final] is the transition to
    [FAILED]. *)
Lemma handler_accepted (job : WorkflowJob) :
  let run := handler answers retryOptions steps job in
  status job = PENDING \/ status job = FAILED ->
  (fst run = Returns OrchestratorSuccess
   /\ forallb (fun x => negb (fatal x)) (snd run) = true
   /\ persisted (snd run) = [(status job, WIP); (WIP, CLOSED)])
  \/ (exists pre e final reason current,
         snd run = pre ++ [e; final]
         /\ forallb (fun x => negb (fatal x)) pre = true
         /\ fatal e = true
         /\ activity final = SetUserDataProcessingStatus current FAILED
         /\ fst run
            = if succeeded final
              then Returns (ActivityFailure (nameOf (activity e)) reason
                                            (extraOf (activity e)))
              else FatalError
                     (match answers (pre ++ [e]) (activity final) with
                      | Some message => message
                      | None => EmptyString
                      end)).
Proof.
  intros run Haccepted. subst run.
  destruct (handler answers retryOptions steps job) as [outcome trace] eqn:Hrun.
  simpl. unfold handler in Hrun.
  assert (Hbranch :
            forall (A : Type) (x y : A),
              match status job with WIP | CLOSED => x | _ => y end = y).
  { intros A x y. destruct Haccepted as [-> | ->]; reflexivity. }
  rewrite Hbranch in Hrun. clear Hbranch.
  unfold toFailed, callActivity in Hrun. simpl app in Hrun.
  destruct (answers [] (SetUserDataProcessingStatus job WIP)) as [reason|].
  - right.
    exists [], {| activity := SetUserDataProcessingStatus job WIP; succeeded := false |}.
    destruct (answers _ (SetUserDataProcessingStatus job FAILED)) as [message|] eqn:EF;
      inversion Hrun; subst; clear Hrun; simpl in EF;
      eexists _, reason, job; repeat split; simpl; rewrite ?EF; reflexivity.
  - set (wip := {| activity := SetUserDataProcessingStatus job WIP; succeeded := true |})
      in *.
    destruct (runSteps_run answers retryOptions steps (withStatus job WIP) [wip])
      as (d & Hd & Hper & Hres).
    destruct (runSteps answers retryOptions steps (withStatus job WIP) [wip])
      as [[[name reason]|] h2]; simpl in Hd, Hres; subst h2.
    + right. destruct Hres as (pre & e & -> & Hpre & He & Hname & Hextra).
      exists (wip :: pre), e.
      destruct (answers _ (SetUserDataProcessingStatus (withStatus job WIP) FAILED))
        as [message|] eqn:EF;
        inversion Hrun; subst; clear Hrun; simpl in EF;
        eexists _, reason, (withStatus job WIP);
        rewrite Hextra; simpl app; rewrite <- ?app_assoc;
        repeat split; simpl; rewrite <- ?app_assoc; simpl; rewrite ?EF; auto.
    + destruct (answers (wip :: d)
                        (SetUserDataProcessingStatus (withStatus job WIP) CLOSED))
        as [reason|].
      * right.
        exists (wip :: d),
          {| activity := SetUserDataProcessingStatus (withStatus job WIP) CLOSED;
             succeeded := false |}.
        destruct (answers _ (SetUserDataProcessingStatus (withStatus job WIP) FAILED))
          as [message|] eqn:EF;
          inversion Hrun; subst; clear Hrun; simpl in EF;
          eexists _, reason, (withStatus job WIP);
          simpl app; rewrite <- ?app_assoc;
          repeat split; simpl; rewrite <- ?app_assoc; simpl; rewrite ?EF; auto.
      * left. inversion Hrun; subst; clear Hrun. simpl. repeat split.
        -- rewrite forallb_app, Hres. reflexivity.
        -- rewrite persisted_app, Hper. reflexivity.
Qed.
End WorkflowRuns.

(** ** C6: jobs that are in progress or closed *)

(** C6.  A job whose status is [WIP] or [CLOSED] when it is offered to the
    workflow is not processed again: whatever the activities would answer,
    the workflow returns the outcome [NotProcessable], which is neither the
    failure of an activity nor a fatal error, and it makes no call at all,
    neither an update of the status nor an attempt of a business step.  The
    outcome and the empty history are those of these two statuses alone: for
    a job that is accepted the workflow never returns [NotProcessable], and
    it makes at least one call. *)
Theorem wip_and_closed_jobs_are_not_reprocessed
        (answers : UserDataDownloadSubOrchestrator.Answers)
        (retryOptions : UserDataDownloadSubOrchestrator.RetryOptions)
        (steps : list string) (job : UserDataDownloadSubOrchestrator.WorkflowJob) :
  let run := UserDataDownloadSubOrchestrator.handler answers retryOptions steps job in
  let skipped :=
    UserDataDownloadSubOrchestrator.status job = UserDataDownloadOrchestrator.WIP
    \/ UserDataDownloadSubOrchestrator.status job = UserDataDownloadOrchestrator.CLOSED in
  (skipped ->
   run = (UserDataDownloadSubOrchestrator.Returns
            UserDataDownloadSubOrchestrator.NotProcessable, []))
  /\ (fst run = UserDataDownloadSubOrchestrator.Returns
                  UserDataDownloadSubOrchestrator.NotProcessable -> skipped)
  /\ (snd run = [] -> skipped).
Proof.
  intros run skipped.
  assert (Hskip : skipped ->
                  run = (UserDataDownloadSubOrchestrator.Returns
                           UserDataDownloadSubOrchestrator.NotProcessable, [])).
  { unfold skipped, run, UserDataDownloadSubOrchestrator.handler.
    intros [E|E]; rewrite E; reflexivity. }
  assert (Haccepted :
            UserDataDownloadSubOrchestrator.status job = UserDataDownloadOrchestrator.PENDING
            \/ UserDataDownloadSubOrchestrator.status job
               = UserDataDownloadOrchestrator.FAILED ->
            fst run <> UserDataDownloadSubOrchestrator.Returns
                         UserDataDownloadSubOrchestrator.NotProcessable
            /\ snd run <> []).
  { intros Hacc.
    destruct (handler_accepted answers retryOptions steps job Hacc)
      as [(Hresult & _ & Hpersisted)
         |(pre & e & final & reason & current & Htrace & _ & _ & _ & Hresult)];
      unfold run.
    - split.
      + rewrite Hresult. discriminate.
      + intros E. rewrite E in Hpersisted. discriminate.
    - split.
      + rewrite Hresult.
        destruct (UserDataDownloadSubOrchestrator.succeeded final); discriminate.
      + rewrite Htrace. destruct pre; discriminate. }
  split; [exact Hskip|].
  unfold skipped in *.
  destruct (UserDataDownloadSubOrchestrator.status job) eqn:Hstatus;
    split; intros H; auto;
      (destruct Haccepted as [Hresult Htrace]; [auto | contradiction]).
Qed.

(** The job in progress and the closed job of the tests: the workflow leaves
    both, whatever would fail. *)
Lemma wip_and_closed_jobs_are_not_reprocessed_witness :
  UserDataDownloadSubOrchestrator.handler
    Sample.extractionAndFailedFail Sample.aRetryPolicy
    UserDataDownloadSubOrchestrator.downloadSteps
    (UserDataDownloadSubOrchestrator.withStatus
       Sample.aUserDataProcessing UserDataDownloadOrchestrator.WIP)
  = (UserDataDownloadSubOrchestrator.Returns
       UserDataDownloadSubOrchestrator.NotProcessable, [])
  /\ UserDataDownloadSubOrchestrator.handler
       Sample.allWell Sample.aRetryPolicy
       UserDataDownloadSubOrchestrator.downloadSteps
       (UserDataDownloadSubOrchestrator.withStatus
          Sample.aUserDataProcessing UserDataDownloadOrchestrator.CLOSED)
     = (UserDataDownloadSubOrchestrator.Returns
          UserDataDownloadSubOrchestrator.NotProcessable, []).
Proof.
  split.
  - destruct (wip_and_closed_jobs_are_not_reprocessed
                Sample.extractionAndFailedFail Sample.aRetryPolicy
                UserDataDownloadSubOrchestrator.downloadSteps
                (UserDataDownloadSubOrchestrator.withStatus
                   Sample.aUserDataProcessing UserDataDownloadOrchestrator.WIP))
      as [Hskipped _].
    apply Hskipped. left. reflexivity.
  - destruct (wip_and_closed_jobs_are_not_reprocessed
                Sample.allWell Sample.aRetryPolicy
                UserDataDownloadSubOrchestrator.downloadSteps
                (UserDataDownloadSubOrchestrator.withStatus
                   Sample.aUserDataProcessing UserDataDownloadOrchestrator.CLOSED))
      as [Hskipped _].
    apply Hskipped. right. reflexivity.
Defined.

(** ** C7: the transitions of a job that succeeds *)

(** C7.  A pending job none of whose calls fails for good, whether an update
    of the status or the last attempt of a step, has its status persisted
    exactly twice, from [PENDING] to [WIP] and then from [WIP] to [CLOSED],
    and the workflow returns its success. *)
Theorem pending_job_goes_to_wip_then_closed
        (answers : UserDataDownloadSubOrchestrator.Answers)
        (retryOptions : UserDataDownloadSubOrchestrator.RetryOptions)
        (steps : list string) (job : UserDataDownloadSubOrchestrator.WorkflowJob) :
  let run := UserDataDownloadSubOrchestrator.handler answers retryOptions steps job in
  UserDataDownloadSubOrchestrator.status job = UserDataDownloadOrchestrator.PENDING ->
  forallb (fun e => negb (UserDataDownloadSubOrchestrator.fatal e)) (snd run) = true ->
  fst run
  = UserDataDownloadSubOrchestrator.Returns
      UserDataDownloadSubOrchestrator.OrchestratorSuccess
  /\ UserDataDownloadSubOrchestrator.persisted (snd run)
     = [(UserDataDownloadOrchestrator.PENDING, UserDataDownloadOrchestrator.WIP);
        (UserDataDownloadOrchestrator.WIP, UserDataDownloadOrchestrator.CLOSED)].
Proof.
  intros run Hpending Hok.
  destruct (handler_accepted answers retryOptions steps job (or_introl Hpending))
    as [(Hresult & _ & Hpersisted)
       |(pre & e & final & reason & current & Htrace & _ & He & _)].
  - fold run in Hresult, Hpersisted. rewrite Hpending in Hpersisted. auto.
  - fold run in Htrace. rewrite Htrace, forallb_app in Hok. simpl in Hok.
    rewrite He in Hok. simpl in Hok. rewrite andb_false_r in Hok. discriminate.
Qed.

(** The pending job of the tests, when every activity succeeds. *)
Lemma pending_job_goes_to_wip_then_closed_witness :
  let run :=
    UserDataDownloadSubOrchestrator.handler
      Sample.allWell Sample.aRetryPolicy UserDataDownloadSubOrchestrator.downloadSteps
      Sample.aUserDataProcessing in
  fst run
  = UserDataDownloadSubOrchestrator.Returns
      UserDataDownloadSubOrchestrator.OrchestratorSuccess
  /\ UserDataDownloadSubOrchestrator.persisted (snd run)
     = [(UserDataDownloadOrchestrator.PENDING, UserDataDownloadOrchestrator.WIP);
        (UserDataDownloadOrchestrator.WIP, UserDataDownloadOrchestrator.CLOSED)].
Proof.
  apply (pending_job_goes_to_wip_then_closed
           Sample.allWell Sample.aRetryPolicy
           UserDataDownloadSubOrchestrator.downloadSteps Sample.aUserDataProcessing);
    reflexivity.
Defined.

(** ** C8: the transitions of a job that fails *)

(** C8 (as amended).  When a call of an accepted job fails for good, the next
    and last call of the workflow is the transition of the job to [FAILED].
    If that transition is persisted, the workflow returns the failure of the
    activity, with the name of the call that failed and, for an update of the
    status, the status that was being set; if it is not, the workflow ends
    with a fatal error. *)
Theorem failed_step_sets_job_failed
        (answers : UserDataDownloadSubOrchestrator.Answers)
        (retryOptions : UserDataDownloadSubOrchestrator.RetryOptions)
        (steps : list string) (job : UserDataDownloadSubOrchestrator.WorkflowJob) :
  let run := UserDataDownloadSubOrchestrator.handler answers retryOptions steps job in
  UserDataDownloadSubOrchestrator.status job = UserDataDownloadOrchestrator.PENDING
  \/ UserDataDownloadSubOrchestrator.status job = UserDataDownloadOrchestrator.FAILED ->
  existsb UserDataDownloadSubOrchestrator.fatal (snd run) = true ->
  exists pre e final reason current,
    snd run = pre ++ [e; final]
    /\ forallb (fun x => negb (UserDataDownloadSubOrchestrator.fatal x)) pre = true
    /\ UserDataDownloadSubOrchestrator.fatal e = true
    /\ UserDataDownloadSubOrchestrator.activity final
       = UserDataDownloadSubOrchestrator.SetUserDataProcessingStatus
           current UserDataDownloadOrchestrator.FAILED
    /\ (UserDataDownloadSubOrchestrator.succeeded final = true ->
        fst run
        = UserDataDownloadSubOrchestrator.Returns
            (UserDataDownloadSubOrchestrator.ActivityFailure
               (UserDataDownloadSubOrchestrator.nameOf
                  (UserDataDownloadSubOrchestrator.activity e))
               reason
               (UserDataDownloadSubOrchestrator.extraOf
                  (UserDataDownloadSubOrchestrator.activity e))))
    /\ (UserDataDownloadSubOrchestrator.succeeded final = false ->
        exists message, fst run = UserDataDownloadSubOrchestrator.FatalError message).
Proof.
  intros run Haccepted Hfatal.
  destruct (handler_accepted answers retryOptions steps job Haccepted)
    as [(_ & Hok & _)
       |(pre & e & final & reason & current & Htrace & Hpre & He & Hfinal & Hresult)].
  - fold run in Hok.
    assert (Hnone : existsb UserDataDownloadSubOrchestrator.fatal (snd run) = false).
    { clear Hfatal. induction (snd run) as [|x xs IH]; simpl in *; [reflexivity|].
      apply andb_true_iff in Hok. destruct Hok as [Hx Hxs].
      apply negb_true_iff in Hx. rewrite Hx. auto. }
    congruence.
  - fold run in Htrace, Hresult.
    exists pre, e, final, reason, current. repeat split; auto.
    + intros Hs. rewrite Hresult, Hs. reflexivity.
    + intros Hs. rewrite Hresult, Hs. eauto.
Qed.

(** The pending job of the tests, when the extraction of the data fails at
    every attempt: the last two calls are the failed attempt and the
    transition to [FAILED]. *)
Lemma failed_step_sets_job_failed_witness :
  let run :=
    UserDataDownloadSubOrchestrator.handler
      Sample.extractionFails Sample.aRetryPolicy
      UserDataDownloadSubOrchestrator.downloadSteps Sample.aUserDataProcessing in
  exists pre e final current,
    snd run = pre ++ [e; final]
    /\ UserDataDownloadSubOrchestrator.fatal e = true
    /\ UserDataDownloadSubOrchestrator.activity final
       = UserDataDownloadSubOrchestrator.SetUserDataProcessingStatus
           current UserDataDownloadOrchestrator.FAILED.
Proof.
  destruct (failed_step_sets_job_failed
              Sample.extractionFails Sample.aRetryPolicy
              UserDataDownloadSubOrchestrator.downloadSteps Sample.aUserDataProcessing)
    as (pre & e & final & reason & current & Htrace & _ & He & Hfinal & _).
  - left. reflexivity.
  - reflexivity.
  - exists pre, e, final, current. auto.
Defined.

(** C8 as stated fails when the transition to [FAILED] cannot be persisted:
    the extraction of the data fails at its last attempt, the job stays in
    progress, and the workflow ends with a fatal error in place of the
    failure of the activity. *)
Lemma failed_transition_is_fatal :
  let run :=
    UserDataDownloadSubOrchestrator.handler
      Sample.extractionAndFailedFail Sample.aRetryPolicy
      UserDataDownloadSubOrchestrator.downloadSteps Sample.aUserDataProcessing in
  existsb UserDataDownloadSubOrchestrator.fatal (snd run) = true
  /\ fst run = UserDataDownloadSubOrchestrator.FatalError "any non-success value"
  /\ UserDataDownloadSubOrchestrator.persisted (snd run)
     = [(UserDataDownloadOrchestrator.PENDING, UserDataDownloadOrchestrator.WIP)].
Proof. vm_compute. repeat split. Qed.

(** * Further properties of the code *)

(** ** The outcomes of an array of tasks *)

Lemma joinFrom_Right_inv {L A} (rs : list (Either L A)) :
  forall xs ys,
    joinFrom (Right xs) rs = Right ys ->
    exists zs, ys = xs ++ zs /\ rs = List.map (fun z => Right z) zs.
Proof.
  induction rs as [|r rs IH]; intros xs ys E.
  - exists []. unfold joinFrom in E. simpl in E. inversion E.
    split; [symmetry; apply app_nil_r | reflexivity].
  - rewrite joinFrom_Right_cons in E. destruct r as [l|a].
    + discriminate.
    + destruct (IH _ _ E) as (zs & -> & ->). exists (a :: zs).
      split; [rewrite <- app_assoc; reflexivity | reflexivity].
Qed.

Section EachRun.
Context {S : Type} `{HasWorld S}.
Variable inv : S -> Prop.

Lemma emits_runAll_each {L A B} (f : B -> TaskEither S L A)
      (P : B -> Either L A -> list Event -> Prop) (bs : list B) :
  (forall b, In b bs -> emits inv (f b) (P b)) ->
  emits inv (runAll (List.map f bs)) (Each P bs).
Proof.
  induction bs as [|b bs IH]; intros Hf s Hs; simpl.
  - exists []. split; [exact Hs|]. split; [symmetry; apply app_nil_r | constructor].
  - destruct (Hf b (or_introl eq_refl) s Hs) as (d1 & Hinv1 & Hw1 & HP).
    destruct (f b s) as [r s1] eqn:E1. simpl in *.
    destruct (IH (fun b' Hb' => Hf b' (or_intror Hb')) s1 Hinv1) as (d2 & Hinv2 & Hw2 & HE).
    destruct (runAll (List.map f bs) s1) as [rs s2] eqn:E2. simpl in *.
    exists (d1 ++ d2). split; [exact Hinv2|]. split.
    + rewrite Hw2, Hw1, app_assoc. reflexivity.
    + constructor; assumption.
Qed.
End EachRun.

Lemma Each_In {B R} (P : B -> R -> list Event -> Prop) bs rs d :
  Each P bs rs d ->
  forall b, In b bs ->
    exists r d1 d2 d3, In r rs /\ d = d1 ++ d2 ++ d3 /\ P b r d2.
Proof.
  induction 1 as [|b0 bs r rs d ds HP HE IH]; intros b Hb.
  - destruct Hb.
  - destruct Hb as [<- | Hb].
    + exists r, [], d, ds. split; [left; reflexivity|]. split; [reflexivity | exact HP].
    + destruct (IH b Hb) as (r' & d1 & d2 & d3 & Hr & -> & HP').
      exists r', (d ++ d1), d2, d3. split; [right; exact Hr|].
      split; [rewrite <- app_assoc; reflexivity | exact HP'].
Qed.

Lemma Each_Forall2 {B R} (P : B -> R -> list Event -> Prop) bs rs d :
  Each P bs rs d -> Forall2 (fun b r => exists d', P b r d') bs rs.
Proof.
  induction 1; constructor; eauto.
Qed.

(** ** A backup followed by a deletion *)

Section Backups.
Variable JSON_stringify : forall T : Type, T -> string.
Variable info : IBlobServiceInfo.

Lemma backup_then_delete_run {T R B} (blobName : string) (data : T) (c : Call)
      (answer : World -> PromiseOutcome (Either QueryErrorOrError R)) (f : T -> R -> B)
      (w : World) :
  ap_seq (map f (saveDataToBlob JSON_stringify info blobName data))
         (mapLeft toDocumentDeleteFailure (fromQueryEither (invoke c answer))) w
  = match answerCreateBlockBlobFromText
            (blobService info) (containerName info)
            (backupBlobPath (folder info) blobName) (JSON_stringify data) w with
    | Some err =>
        (Left (BlobCreationFailure err),
         w ++ [{| call := saveCall JSON_stringify info blobName data; ok := false |}])
    | None =>
        let w1 := w ++ [{| call := saveCall JSON_stringify info blobName data;
                           ok := true |}] in
        (match answer w1 with
         | Resolves (Right r) => Right (f data r)
         | _ => Left (DocumentDeleteFailure (messageOf (answer w1)))
         end,
         w1 ++ [{| call := c; ok := resolved (answer w1) |}])
    end.
Proof.
  unfold ap_seq, chain. rewrite map_run, saveDataToBlob_run.
  destruct (answerCreateBlockBlobFromText _ _ _ _ w) as [err|]; simpl; [reflexivity|].
  rewrite map_run, delete_run. simpl.
  destruct (answer _) as [m|[[m|j]|r]]; reflexivity.
Qed.
End Backups.

(** ** The walker on one page *)

Section WalkerFacts.
Variable JSON_stringify : forall T : Type, T -> string.
Variable info : IBlobServiceInfo.
Context {T : Type}.
Variable deleteCall : T -> Call.
Variable answer : T -> World -> PromiseOutcome (Either QueryErrorOrError string).
Variable makeBackupBlobName : T -> string.
Variable q : Query.

Lemma fetch_run l1 l2 (it : IResultIterator T) (w : World) :
  bimap (debug l1) (debug l2)
        (foldTaskEither
           (fun e => fromEither (Left (toQueryFailure (IsError e))))
           (fun e => mapLeft toQueryFailure (fromEither e))
           (tryCatch executeNext)) (it, w)
  = match pages it with
    | [] =>
        (Right None, (it, w ++ [{| call := ExecuteNext (query it); ok := true |}]))
    | page :: rest =>
        (match page w with
         | Resolves (Right maybeResults) => Right maybeResults
         | _ => Left (QueryFailure (messageOf (page w)) None)
         end,
         ({| query := query it; pages := rest |},
          w ++ [{| call := ExecuteNext (query it); ok := resolved (page w) |}]))
    end.
Proof.
  unfold bimap, foldTaskEither, tryCatch, executeNext, mapLeft, fromEither.
  destruct (pages it) as [|page rest]; simpl; [reflexivity|].
  destruct (page w) as [m|[[m|j]|r]]; reflexivity.
Qed.

Lemma recordTask_run rest (item : T) (it : IResultIterator T) (w : World) :
  recordTask JSON_stringify (fun item => invoke (deleteCall item) (answer item))
             info makeBackupBlobName rest item (it, w)
  = match answerCreateBlockBlobFromText
            (blobService info) (containerName info)
            (backupBlobPath (folder info) (makeBackupBlobName item))
            (JSON_stringify item) w with
    | Some err =>
        (Left (BlobCreationFailure err),
         (it, w ++ [{| call := saveCall JSON_stringify info (makeBackupBlobName item) item;
                       ok := false |}]))
    | None =>
        let w1 := w ++ [{| call := saveCall JSON_stringify info (makeBackupBlobName item)
                                            item;
                           ok := true |}] in
        match answer item w1 with
        | Resolves (Right _) =>
            let run := rest (it, w1 ++ [{| call := deleteCall item; ok := true |}]) in
            (either_map (fun nextResults => Arr (Item item :: nextResults)) (fst run),
             snd run)
        | _ =>
            (Left (DocumentDeleteFailure (messageOf (answer item w1))),
             (it, w1 ++ [{| call := deleteCall item; ok := false |}]))
        end
    end.
Proof.
  unfold recordTask, map at 1, sequenceT3_seq.
  unfold ap_seq at 1. unfold chain.
  rewrite <- liftW_backup_then_delete. unfold liftW at 1.
  rewrite backup_then_delete_run.
  destruct (answerCreateBlockBlobFromText _ _ _ _ w) as [err|]; simpl; [reflexivity|].
  destruct (answer item _) as [m|[[m|j]|r]]; simpl; try reflexivity.
  rewrite map_run. simpl. destruct (fst (rest _)); reflexivity.
Qed.

Lemma recordTask_emits rest R (item : T) :
  emits (fun s : IResultIterator T * World => query (fst s) = q) rest R ->
  emits (fun s : IResultIterator T * World => query (fst s) = q)
        (recordTask JSON_stringify (fun item => invoke (deleteCall item) (answer item))
                    info makeBackupBlobName rest item)
        (RecordRun JSON_stringify info deleteCall makeBackupBlobName R item).
Proof.
  intros HR [it w] Hinv. rewrite recordTask_run.
  destruct (answerCreateBlockBlobFromText _ _ _ _ w) as [err|]; simpl.
  - eexists. split; [exact Hinv|]. split; [reflexivity|]. constructor.
  - destruct (answer item _) as [m|[[m|j]|r]] eqn:Ea; simpl;
      try (eexists; split; [exact Hinv|]; split; [rewrite <- app_assoc; reflexivity|];
           constructor).
    match goal with
    | |- context [rest ?s] => destruct (HR s Hinv) as (d & Hinv' & Hw & HRd)
    end.
    exists ({| call := saveCall JSON_stringify info (makeBackupBlobName item) item;
               ok := true |}
              :: {| call := deleteCall item; ok := true |} :: d).
    split; [exact Hinv'|]. split.
    + unfold worldOf, HasWorld_pair in *. simpl in *. rewrite Hw.
      rewrite <- !app_assoc. reflexivity.
    + constructor. exact HRd.
Qed.

Lemma RecordRun_Right R (item : T) z d :
  RecordRun JSON_stringify info deleteCall makeBackupBlobName R item (Right z) d ->
  exists nextResults d',
    z = Arr (Item item :: nextResults)
    /\ d = {| call := saveCall JSON_stringify info (makeBackupBlobName item) item;
              ok := true |}
             :: {| call := deleteCall item; ok := true |} :: d'
    /\ R (Right nextResults) d'.
Proof.
  inversion 1 as [| |r d' HR Hr Hd]. destruct r as [l|nextResults]; simpl in Hr.
  - discriminate.
  - inversion Hr. eauto.
Qed.

Lemma RecordRun_starts R (item : T) r d :
  RecordRun JSON_stringify info deleteCall makeBackupBlobName R item r d ->
  exists b d',
    d = {| call := saveCall JSON_stringify info (makeBackupBlobName item) item;
           ok := b |} :: d'.
Proof.
  inversion 1; eauto.
Qed.

(** One step of the walker: the page is fetched; an error ends the walk
    with a query failure, an absent page with the empty list, and the
    records of a page are mapped to their tasks. *)
Lemma executeRecursive_run (fuel : nat) (it : IResultIterator T) (w : World) :
  executeRecursive JSON_stringify (fun item => invoke (deleteCall item) (answer item))
                   info makeBackupBlobName (S fuel) (it, w)
  = match pages it with
    | [] =>
        (Right [], (it, w ++ [{| call := ExecuteNext (query it); ok := true |}]))
    | page :: rest =>
        let s1 := ({| query := query it; pages := rest |},
                   w ++ [{| call := ExecuteNext (query it); ok := resolved (page w) |}]) in
        match page w with
        | Resolves (Right (Some items)) =>
            array_sequence
              (List.map
                 (recordTask JSON_stringify
                             (fun item => invoke (deleteCall item) (answer item))
                             info makeBackupBlobName
                             (executeRecursive
                                JSON_stringify
                                (fun item => invoke (deleteCall item) (answer item))
                                info makeBackupBlobName fuel))
                 items)
              s1
        | Resolves (Right None) => (Right [], s1)
        | _ => (Left (QueryFailure (messageOf (page w)) None), s1)
        end
    end.
Proof.
  rewrite executeRecursive_unfold. unfold foldTaskEither at 1. rewrite fetch_run.
  destruct (pages it) as [|page rest]; [reflexivity|].
  destruct (page w) as [m|[[m|j]|[items|]]]; reflexivity.
Qed.

(** Whatever the fuel, the walker only appends calls. *)
Lemma executeRecursive_appends (fuel : nat) :
  emits (fun s : IResultIterator T * World => query (fst s) = q)
        (executeRecursive JSON_stringify
                          (fun item => invoke (deleteCall item) (answer item))
                          info makeBackupBlobName fuel)
        (fun _ _ => True).
Proof.
  eapply emits_weaken; [apply follows_executeRecursive|].
  auto.
Qed.

(** The walk of a page that holds records: the page is fetched, then the
    task of every record runs. *)
Lemma walker_first_page (page : World -> Page T) (rest : list (World -> Page T))
      (items : list T) (w : World) :
  page w = Resolves (Right (Some items)) ->
  executeRecursiveBackupAndDelete
    JSON_stringify (fun item => invoke (deleteCall item) (answer item))
    info makeBackupBlobName {| query := q; pages := page :: rest |} w
  = let run :=
      runAll
        (List.map
           (recordTask JSON_stringify (fun item => invoke (deleteCall item) (answer item))
                       info makeBackupBlobName
                       (executeRecursive
                          JSON_stringify
                          (fun item => invoke (deleteCall item) (answer item))
                          info makeBackupBlobName (S (List.length rest))))
           items)
        ({| query := q; pages := rest |},
         w ++ [{| call := ExecuteNext q; ok := true |}]) in
    (joinFrom (Right []) (fst run), snd (snd run)).
Proof.
  intros Hpage. unfold executeRecursiveBackupAndDelete, withIterator.
  simpl List.length. rewrite executeRecursive_run. simpl. rewrite Hpage. simpl.
  rewrite array_sequence_runAll.
  destruct (runAll _ _) as [rs [it' w']]. reflexivity.
Qed.

Lemma records_append (rest : TaskEither (IResultIterator T * World) DataFailure
                                        (list (Nested T)))
      R (items : list T) :
  emits (fun s : IResultIterator T * World => query (fst s) = q) rest R ->
  emits (fun s : IResultIterator T * World => query (fst s) = q)
        (runAll
           (List.map
              (recordTask JSON_stringify
                          (fun item => invoke (deleteCall item) (answer item))
                          info makeBackupBlobName rest)
              items))
        (Each (RecordRun JSON_stringify info deleteCall makeBackupBlobName R) items).
Proof.
  intros HR. apply emits_runAll_each. intros item _. apply recordTask_emits, HR.
Qed.

Lemma executeRecursive_fetches_first (fuel : nat) :
  emits (fun s : IResultIterator T * World => query (fst s) = q)
        (executeRecursive JSON_stringify
                          (fun item => invoke (deleteCall item) (answer item))
                          info makeBackupBlobName (S fuel))
        (fun _ d => exists b d', d = {| call := ExecuteNext q; ok := b |} :: d').
Proof.
  intros [it w] Hinv. simpl in Hinv. rewrite executeRecursive_run.
  destruct (pages it) as [|page rest] eqn:Hpages.
  - simpl. eexists. split; [exact Hinv|]. split; [reflexivity|].
    rewrite Hinv. eauto.
  - destruct (page w) as [m|[[m|j]|[items|]]] eqn:Hpage; simpl;
      try (eexists; split; [exact Hinv|]; split; [reflexivity|]; rewrite Hinv; eauto).
    rewrite array_sequence_runAll. simpl.
    match goal with
    | |- context [runAll ?ts ?s] =>
        destruct (@records_append (executeRecursive
                                     JSON_stringify
                                     (fun item => invoke (deleteCall item) (answer item))
                                     info makeBackupBlobName fuel)
                                  (fun _ _ => True) items
                                  (executeRecursive_appends fuel) s Hinv)
          as (d & Hinv' & Hw & _)
    end.
    exists ({| call := ExecuteNext q; ok := true |} :: d).
    split; [exact Hinv'|]. split.
    + unfold worldOf, HasWorld_pair in *. simpl in *. rewrite Hw, Hinv.
      rewrite <- app_assoc. reflexivity.
    + eauto.
Qed.

Lemma records_all_right R (items : list T) :
  forall zs d,
    Each (RecordRun JSON_stringify info deleteCall makeBackupBlobName R) items
         (List.map (fun z => Right z) zs) d ->
    Forall2 (fun item entry => exists nextResults, entry = Arr (Item item :: nextResults))
            items zs
    /\ forall item,
        In item items ->
        In {| call := saveCall JSON_stringify info (makeBackupBlobName item) item;
              ok := true |} d
        /\ In {| call := deleteCall item; ok := true |} d.
Proof.
  induction items as [|item items IH]; intros zs d HE.
  - inversion HE. destruct zs; [|discriminate]. split; [constructor|].
    intros item [].
  - inversion HE as [|b bs r rs d1 d2 HP HE' Hb Hr Hd]. subst.
    destruct zs as [|z zs]; [discriminate|]. simpl in Hr. inversion Hr. subst.
    destruct (RecordRun_Right HP) as (nextResults & d' & -> & -> & _).
    destruct (IH _ _ HE') as (HF & Hin). split.
    + constructor; eauto.
    + intros item' [<- | Hitem'].
      * split; simpl; auto.
      * destruct (Hin item' Hitem'). split; apply in_or_app; right; assumption.
Qed.

Lemma records_fetch_again (items : list T) :
  forall zs d,
    Each (RecordRun JSON_stringify info deleteCall makeBackupBlobName
                    (fun _ d => exists b d', d = {| call := ExecuteNext q; ok := b |} :: d'))
         items (List.map (fun z => Right z) zs) d ->
    List.length items <= List.length (List.filter (fun e => isExecuteNext (call e)) d).
Proof.
  induction items as [|item items IH]; intros zs d HE.
  - apply Nat.le_0_l.
  - inversion HE as [|b bs r rs d1 d2 HP HE' Hb Hr Hd]. subst.
    destruct zs as [|z zs]; [discriminate|]. simpl in Hr. inversion Hr. subst.
    destruct (RecordRun_Right HP) as (nextResults & d' & -> & -> & (b & d'' & ->)).
    specialize (IH _ _ HE').
    rewrite filter_app, length_app.
    assert (1 <= List.length
                   (List.filter
                      (fun e => isExecuteNext (call e))
                      ({| call := saveCall JSON_stringify info (makeBackupBlobName item)
                                           item; ok := true |}
                         :: {| call := deleteCall item; ok := true |}
                         :: {| call := ExecuteNext q; ok := b |} :: d''))).
    { simpl. destruct (isExecuteNext (deleteCall item)); simpl; lia. }
    simpl List.length at 1. lia.
Qed.

Lemma walker_fetches_first (pgs : list (World -> Page T)) :
  emits (fun _ : World => True)
        (executeRecursiveBackupAndDelete
           JSON_stringify (fun item => invoke (deleteCall item) (answer item))
           info makeBackupBlobName {| query := q; pages := pgs |})
        (fun _ d => exists b d', d = {| call := ExecuteNext q; ok := b |} :: d').
Proof.
  unfold executeRecursiveBackupAndDelete.
  apply (emits_withIterator (fun it : IResultIterator T => query it = q));
    [reflexivity|].
  apply executeRecursive_fetches_first.
Qed.

(** X13: an absent or an empty page ends the walk.  When the iterator is
    exhausted, or when the page it answers is absent or holds no record, the
    walker returns the empty list after that one [executeNext], and the
    pages the iterator may still hold are never asked for. *)
Theorem walker_stops_at_an_absent_or_empty_page (pgs : list (World -> Page T))
        (w : World) :
  noRecords pgs w ->
  executeRecursiveBackupAndDelete
    JSON_stringify (fun item => invoke (deleteCall item) (answer item))
    info makeBackupBlobName {| query := q; pages := pgs |} w
  = (Right [], w ++ [{| call := ExecuteNext q; ok := true |}]).
Proof.
  intros Hno. unfold executeRecursiveBackupAndDelete, withIterator.
  rewrite executeRecursive_run. simpl.
  destruct pgs as [|page rest]; [reflexivity|].
  simpl in Hno. destruct Hno as [-> | ->]; reflexivity.
Qed.

(** X14: a fetch that fails ends the walk.  When the first [executeNext]
    rejects or answers an error, the walker returns a query failure whose
    reason is the message of the error ([QueryError: ...] for a query
    error), and it backs up and deletes nothing. *)
Theorem walker_reports_a_failed_fetch (page : World -> Page T)
        (rest : list (World -> Page T)) (w : World) :
  resolved (page w) = false ->
  executeRecursiveBackupAndDelete
    JSON_stringify (fun item => invoke (deleteCall item) (answer item))
    info makeBackupBlobName {| query := q; pages := page :: rest |} w
  = (Left (QueryFailure (messageOf (page w)) None),
     w ++ [{| call := ExecuteNext q; ok := false |}]).
Proof.
  intros Hfailed. unfold executeRecursiveBackupAndDelete, withIterator.
  rewrite executeRecursive_run. simpl.
  destruct (page w) as [m|[[m|j]|r]]; try reflexivity. discriminate.
Qed.

(** X10: a successful walk covers the page.  When the walk of an iterator
    whose first page holds [items] succeeds, the result has one entry for
    each record of the page, in order, and the entry of a record is an array
    that starts with the record; every record of the page was backed up and
    deleted. *)
Theorem walker_success_covers_the_page (page : World -> Page T)
        (rest : list (World -> Page T)) (items : list T) (w : World)
        (result : list (Nested T)) :
  let run :=
    executeRecursiveBackupAndDelete
      JSON_stringify (fun item => invoke (deleteCall item) (answer item))
      info makeBackupBlobName {| query := q; pages := page :: rest |} w in
  page w = Resolves (Right (Some items)) ->
  fst run = Right result ->
  Forall2 (fun item entry => exists nextResults, entry = Arr (Item item :: nextResults))
          items result
  /\ exists d,
      snd run = w ++ d
      /\ forall item,
          In item items ->
          In {| call := saveCall JSON_stringify info (makeBackupBlobName item) item;
                ok := true |} d
          /\ In {| call := deleteCall item; ok := true |} d.
Proof.
  intros run Hpage Hres. unfold run in *. clear run.
  rewrite (walker_first_page page rest w Hpage) in *. cbv zeta in *. cbn [fst snd] in *.
  match goal with
  | _ : context [runAll ?ts ?s] |- _ =>
      destruct (@records_append _ (fun _ _ => True) items
                                (executeRecursive_appends (S (List.length rest)))
                                s eq_refl)
        as (d & _ & Hw & HE)
  end.
  apply joinFrom_Right_inv in Hres. destruct Hres as (zs & -> & Hrs).
  rewrite Hrs in HE. apply records_all_right in HE. destruct HE as (HF & Hin).
  split; [exact HF|].
  exists ({| call := ExecuteNext q; ok := true |} :: d). split.
  - unfold worldOf, HasWorld_pair in Hw. cbn [fst snd] in Hw. rewrite Hw.
    rewrite <- app_assoc. reflexivity.
  - intros item Hitem. destruct (Hin item Hitem). split; right; assumption.
Qed.

(** X11: the backup of every record of a page is attempted.  Whatever fails
    for the other records, the walker asks for the backup of each record of
    the page it fetched: the tasks of the records of a page are all
    started. *)
Theorem walker_attempts_every_record (page : World -> Page T)
        (rest : list (World -> Page T)) (items : list T) (w : World) :
  let run :=
    executeRecursiveBackupAndDelete
      JSON_stringify (fun item => invoke (deleteCall item) (answer item))
      info makeBackupBlobName {| query := q; pages := page :: rest |} w in
  page w = Resolves (Right (Some items)) ->
  exists d,
    snd run = w ++ d
    /\ forall item,
        In item items ->
        exists b,
          In {| call := saveCall JSON_stringify info (makeBackupBlobName item) item;
                ok := b |} d.
Proof.
  intros run Hpage. unfold run. clear run.
  rewrite (walker_first_page page rest w Hpage). cbv zeta. cbn [fst snd].
  match goal with
  | |- context [runAll ?ts ?s] =>
      destruct (@records_append _ (fun _ _ => True) items
                                (executeRecursive_appends (S (List.length rest)))
                                s eq_refl)
        as (d & _ & Hw & HE)
  end.
  exists ({| call := ExecuteNext q; ok := true |} :: d). split.
  - unfold worldOf, HasWorld_pair in Hw. cbn [fst snd] in Hw. rewrite Hw.
    rewrite <- app_assoc. reflexivity.
  - intros item Hitem.
    destruct (Each_In HE item Hitem) as (r & d1 & d2 & d3 & _ & -> & HP).
    destruct (RecordRun_starts HP) as (b & d' & ->). exists b.
    right. apply in_or_app. right. left. reflexivity.
Qed.

(** X12: the walker fetches again after each record.  In a successful
    walk of an iterator whose first page holds [items], [executeNext] is
    called at least once more for each record of the page: the recursive
    step stands in the task of a record, not after the page. *)
Theorem walker_fetches_again_after_each_record (page : World -> Page T)
        (rest : list (World -> Page T)) (items : list T) (w : World)
        (result : list (Nested T)) :
  let run :=
    executeRecursiveBackupAndDelete
      JSON_stringify (fun item => invoke (deleteCall item) (answer item))
      info makeBackupBlobName {| query := q; pages := page :: rest |} w in
  page w = Resolves (Right (Some items)) ->
  fst run = Right result ->
  exists d,
    snd run = w ++ d
    /\ S (List.length items)
       <= List.length (List.filter (fun e => isExecuteNext (call e)) d).
Proof.
  intros run Hpage Hres. unfold run in *. clear run.
  rewrite (walker_first_page page rest w Hpage) in *. cbv zeta in *. cbn [fst snd] in *.
  match goal with
  | _ : context [runAll ?ts ?s] |- _ =>
      destruct (@records_append _ _ items
                                (executeRecursive_fetches_first (List.length rest))
                                s eq_refl)
        as (d & _ & Hw & HE)
  end.
  apply joinFrom_Right_inv in Hres. destruct Hres as (zs & _ & Hrs).
  rewrite Hrs in HE. apply records_fetch_again in HE.
  exists ({| call := ExecuteNext q; ok := true |} :: d). split.
  - unfold worldOf, HasWorld_pair in Hw. cbn [fst snd] in Hw. rewrite Hw.
    rewrite <- app_assoc. reflexivity.
  - simpl. lia.
Qed.
End WalkerFacts.

(** An empty page ends the walk although a page with a record follows. *)
Lemma walker_stops_at_an_absent_or_empty_page_witness :
  executeRecursiveBackupAndDelete
    Sample.JSON_stringify
    (fun item => invoke (Cases.deleteProfileCall item) (Cases.deletedProfile item))
    Sample.aBackup Cases.profileBlobName
    {| query := ProfileVersions Sample.aFiscalCode; pages := Cases.emptyThenOne |} []
  = (Right [], [{| call := ExecuteNext (ProfileVersions Sample.aFiscalCode); ok := true |}]).
Proof.
  apply (walker_stops_at_an_absent_or_empty_page
           Sample.JSON_stringify Sample.aBackup Cases.deleteProfileCall
           Cases.deletedProfile Cases.profileBlobName (ProfileVersions Sample.aFiscalCode)
           Cases.emptyThenOne []).
  simpl. right. reflexivity.
Defined.

(** A cursor whose first fetch answers a query error. *)
Lemma walker_reports_a_failed_fetch_witness :
  executeRecursiveBackupAndDelete
    Sample.JSON_stringify
    (fun item => invoke (Cases.deleteProfileCall item) (Cases.deletedProfile item))
    Sample.aBackup Cases.profileBlobName
    {| query := ProfileVersions Sample.aFiscalCode; pages := Cases.brokenCursor |} []
  = (Left (QueryFailure "QueryError: {code:429}" None),
     [{| call := ExecuteNext (ProfileVersions Sample.aFiscalCode); ok := false |}]).
Proof.
  apply (walker_reports_a_failed_fetch
           Sample.JSON_stringify Sample.aBackup Cases.deleteProfileCall
           Cases.deletedProfile Cases.profileBlobName (ProfileVersions Sample.aFiscalCode)
           (fun _ => Resolves (Left (IsQueryError "{code:429}"))) [] []).
  reflexivity.
Defined.

(** The two versions of the profile, in one page, are both backed up and
    deleted. *)
Lemma walker_success_covers_the_page_witness :
  let run :=
    executeRecursiveBackupAndDelete
      Sample.JSON_stringify
      (fun item => invoke (Cases.deleteProfileCall item) (Cases.deletedProfile item))
      Sample.aBackup Cases.profileBlobName
      {| query := ProfileVersions Sample.aFiscalCode; pages := Cases.twoVersions |} [] in
  Forall2 (fun item entry => exists nextResults, entry = Arr (Item item :: nextResults))
          [Sample.profile0; Sample.profile1]
          [Arr [Item Sample.profile0]; Arr [Item Sample.profile1]]
  /\ exists d,
      snd run = d
      /\ forall item,
          In item [Sample.profile0; Sample.profile1] ->
          In {| call := saveCall Sample.JSON_stringify Sample.aBackup
                                 (Cases.profileBlobName item) item;
                ok := true |} d
          /\ In {| call := Cases.deleteProfileCall item; ok := true |} d.
Proof.
  apply (walker_success_covers_the_page
           Sample.JSON_stringify Sample.aBackup Cases.deleteProfileCall
           Cases.deletedProfile Cases.profileBlobName (ProfileVersions Sample.aFiscalCode)
           (fun _ => Resolves (Right (Some [Sample.profile0; Sample.profile1]))) [] []).
  - reflexivity.
  - reflexivity.
Defined.

(** The deletion of version 0 is refused; the backup of version 1 is asked
    for all the same. *)
Lemma walker_attempts_every_record_witness :
  let run :=
    executeRecursiveBackupAndDelete
      Sample.JSON_stringify
      (fun item => invoke (Cases.deleteProfileCall item) (Cases.refusedFirst item))
      Sample.aBackup Cases.profileBlobName
      {| query := ProfileVersions Sample.aFiscalCode; pages := Cases.twoVersions |} [] in
  isLeft (fst run) = true
  /\ exists d,
      snd run = d
      /\ forall item,
          In item [Sample.profile0; Sample.profile1] ->
          exists b,
            In {| call := saveCall Sample.JSON_stringify Sample.aBackup
                                   (Cases.profileBlobName item) item;
                  ok := b |} d.
Proof.
  split; [reflexivity|].
  apply (walker_attempts_every_record
           Sample.JSON_stringify Sample.aBackup Cases.deleteProfileCall
           Cases.refusedFirst Cases.profileBlobName (ProfileVersions Sample.aFiscalCode)
           (fun _ => Resolves (Right (Some [Sample.profile0; Sample.profile1]))) [] []).
  reflexivity.
Defined.

(** One page of two records: at least three calls of [executeNext]. *)
Lemma walker_fetches_again_after_each_record_witness :
  exists d,
    snd (executeRecursiveBackupAndDelete
           Sample.JSON_stringify
           (fun item => invoke (Cases.deleteProfileCall item) (Cases.deletedProfile item))
           Sample.aBackup Cases.profileBlobName
           {| query := ProfileVersions Sample.aFiscalCode; pages := Cases.twoVersions |} [])
    = d
    /\ 3 <= List.length (List.filter (fun e => isExecuteNext (call e)) d).
Proof.
  apply (@walker_fetches_again_after_each_record
           Sample.JSON_stringify Sample.aBackup _ Cases.deleteProfileCall
           Cases.deletedProfile Cases.profileBlobName (ProfileVersions Sample.aFiscalCode)
           (fun _ => Resolves (Right (Some [Sample.profile0; Sample.profile1]))) []
           [Sample.profile0; Sample.profile1] []
           [Arr [Item Sample.profile0]; Arr [Item Sample.profile1]]).
  - reflexivity.
  - reflexivity.
Defined.

(** ** What a run in the grammar tells *)

Lemma Grammar_success (steps : Step -> Prop) o d :
  Grammar steps o d -> o = None ->
  Forall (fun e => ok e = true \/ steps (StepLookup (call e))) d.
Proof.
  induction 1 as [| | | | | | |o1 d1 o2 d2 H1 IH1 H2 IH2]; intros Ho;
    try discriminate.
  - constructor.
  - constructor; [left; reflexivity | constructor].
  - constructor; [right; assumption | constructor].
  - constructor; [left; reflexivity|]. constructor; [left; reflexivity | constructor].
  - destruct o1; [discriminate|]. simpl in Ho. apply Forall_app. auto.
Qed.

Lemma Grammar_query_unnamed (steps : Step -> Prop) o d :
  Grammar steps o d ->
  forall reason query, o = Some (QueryFailure reason query) -> query = None.
Proof.
  induction 1 as [| | | | | | |o1 d1 o2 d2 H1 IH1 H2 IH2]; intros r q Ho;
    try discriminate.
  - inversion Ho. reflexivity.
  - destruct o1; simpl in Ho; eauto.
Qed.

Lemma failed_In (p : Call -> bool) (d : list Event) :
  failed p d = true -> exists e, In e d /\ ok e = false /\ p (call e) = true.
Proof.
  unfold failed. intros H. apply existsb_exists in H. destruct H as (e & He & Hp).
  apply andb_true_iff in Hp. destruct Hp as [Hp Hok]. exists e.
  repeat split; auto. destruct (ok e); [discriminate | reflexivity].
Qed.

(** ** The activity and the grammar *)

Section ActivityFacts.
Variable JSON_stringify : forall T : Type, T -> string.
Variable isFiscalCode : string -> bool.
Variable readableReport : Errors -> string.
Variable deps : IActivityHandlerInput.

(** The run of the activity on an input that decodes: its result is the
    failure of the cascade, if any, and its calls are in the grammar. *)
Lemma activity_grammar (input : JsValue) (decoded : ActivityInput) (w : World) :
  ActivityInput_decode isFiscalCode input = Right decoded ->
  exists o d,
    createDeleteUserDataActivityHandler
      JSON_stringify isFiscalCode readableReport deps input w
    = (match o with
       | Some failure => ActivityResultFailureOf (DataFailureOf failure)
       | None => ActivityResultSuccess
       end, w ++ d)
    /\ Grammar (AllUserDataSteps JSON_stringify (userDataBackupOf deps decoded)
                                 (fiscalCode decoded)) o d.
Proof.
  intros E.
  rewrite (@handler_run_decoded JSON_stringify isFiscalCode readableReport deps
                                input decoded w E).
  pose proof (follows_backupAndDeleteAllUserData
                JSON_stringify (userDataBackupOf deps decoded)
                (messageModel deps) (messageStatusModel deps) (notificationModel deps)
                (notificationStatusModel deps) (profileModel deps) (fiscalCode decoded))
    as HF.
  destruct (HF w I) as (d & _ & Hw & HG). unfold worldOf, HasWorld_World in Hw.
  cbv zeta.
  destruct (backupAndDeleteAllUserData _ _ _ _ _ _ _ _ w) as [r w'] eqn:Hrun.
  simpl in *. subst w'. exists (failureOf r), d. split; [|exact HG].
  destruct r; reflexivity.
Qed.

(** X3: a success of the activity.  When the activity answers [SUCCESS],
    every query, every backup and every deletion of the run succeeded: the
    only calls that may have failed are lookups of the content of a
    message. *)
Theorem success_means_every_call_succeeded (input : JsValue) (w : World) :
  let run :=
    createDeleteUserDataActivityHandler
      JSON_stringify isFiscalCode readableReport deps input w in
  fst run = ActivityResultSuccess ->
  exists d,
    snd run = w ++ d
    /\ Forall (fun e => ok e = true
                        \/ exists messageId, call e = GetContentFromBlob messageId) d.
Proof.
  intros run Hsuccess. unfold run in *. clear run.
  destruct (ActivityInput_decode isFiscalCode input) as [errors|decoded] eqn:E.
  - rewrite (@handler_run_invalid JSON_stringify isFiscalCode readableReport deps
                                  input errors w E) in Hsuccess.
    discriminate.
  - destruct (@activity_grammar input decoded w E) as (o & d & Hrun & HG).
    rewrite Hrun in *. simpl in *. exists d. split; [reflexivity|].
    destruct o as [failure|]; [discriminate|].
    eapply Forall_impl; [|apply (Grammar_success HG eq_refl)].
    intros e [Hok | Hlookup]; [left; exact Hok | right].
    invert_steps. eauto.
Qed.

(** X4: the kind of a failure of the cascade.  When the activity answers a
    failure of kind [QUERY_FAILURE], [BLOB_FAILURE] or [DELETE_FAILURE], a
    call of that class (a query, a backup, a deletion) failed in the run. *)
Theorem failure_kind_names_a_failed_call (input : JsValue) (w : World)
        (failure : DataFailure) :
  let run :=
    createDeleteUserDataActivityHandler
      JSON_stringify isFiscalCode readableReport deps input w in
  fst run = ActivityResultFailureOf (DataFailureOf failure) ->
  exists d e,
    snd run = w ++ d /\ In e d /\ ok e = false
    /\ match failure with
       | QueryFailure _ _ => isQueryCall (call e)
       | BlobCreationFailure _ => isSave (call e)
       | DocumentDeleteFailure _ => isDelete (call e)
       end = true.
Proof.
  intros run Hfailure. unfold run in *. clear run.
  destruct (ActivityInput_decode isFiscalCode input) as [errors|decoded] eqn:E.
  - rewrite (@handler_run_invalid JSON_stringify isFiscalCode readableReport deps
                                  input errors w E) in Hfailure.
    discriminate.
  - destruct (@activity_grammar input decoded w E) as (o & d & Hrun & HG).
    rewrite Hrun in *. simpl in *.
    destruct o as [failure'|]; [|discriminate]. inversion Hfailure. subst failure'.
    destruct (@Grammar_accounts _ (@AllUserDataSteps_wellFormed _ _ _) _ _ HG)
      as [_ Hkind].
    specialize (Hkind failure eq_refl).
    destruct failure; apply failed_In in Hkind; destruct Hkind as (e & He & Hok & Hp);
      exists d, e; auto.
Qed.

(** X15: the line logged for a query failure.  [toQueryFailure] never sets
    the optional [query] of a query failure, so whenever the activity answers
    a [QUERY_FAILURE] the line [logFailure] writes for it names the query
    [undefined]. *)
Theorem query_failures_are_logged_without_the_query (input : JsValue) (w : World)
        (reason : string) (query : option string) :
  let run :=
    createDeleteUserDataActivityHandler
      JSON_stringify isFiscalCode readableReport deps input w in
  fst run = ActivityResultFailureOf (DataFailureOf (QueryFailure reason query)) ->
  query = None
  /\ logFailure (DataFailureOf (QueryFailure reason query))
     = ("DeleteUserDataActivity|Error undefined query error|ERROR=" ++ reason)%string.
Proof.
  intros run Hfailure. unfold run in *. clear run.
  destruct (ActivityInput_decode isFiscalCode input) as [errors|decoded] eqn:E.
  - rewrite (@handler_run_invalid JSON_stringify isFiscalCode readableReport deps
                                  input errors w E) in Hfailure.
    discriminate.
  - destruct (@activity_grammar input decoded w E) as (o & d & Hrun & HG).
    rewrite Hrun in *. simpl in *.
    destruct o as [failure'|]; [|discriminate]. inversion Hfailure. subst failure'.
    rewrite (Grammar_query_unnamed HG eq_refl). split; reflexivity.
Qed.

Lemma answered_failures (input : JsValue) (w : World) (failure : ActivityResultFailure) :
  fst (createDeleteUserDataActivityHandler
         JSON_stringify isFiscalCode readableReport deps input w)
  = ActivityResultFailureOf failure ->
  answeredFailure failure.
Proof.
  intros Hfailure.
  destruct (ActivityInput_decode isFiscalCode input) as [errors|decoded] eqn:E.
  - rewrite (@handler_run_invalid JSON_stringify isFiscalCode readableReport deps
                                  input errors w E) in Hfailure.
    inversion Hfailure. exact I.
  - destruct (@activity_grammar input decoded w E) as (o & d & Hrun & HG).
    rewrite Hrun in Hfailure. simpl in Hfailure.
    destruct o as [failure'|]; [|discriminate]. inversion Hfailure. subst failure.
    destruct failure' as [reason [query|]| |]; simpl; auto.
    discriminate (Grammar_query_unnamed HG eq_refl).
Qed.

Lemma logFailure_inj (f1 f2 : ActivityResultFailure) :
  answeredFailure f1 -> answeredFailure f2 -> logFailure f1 = logFailure f2 -> f1 = f2.
Proof.
  destruct f1 as [|r1|[r1 [q1|]|r1|r1]]; destruct f2 as [|r2|[r2 [q2|]|r2|r2]];
    simpl; intros H1 H2 H; try contradiction;
    unfold logPrefix in H; simpl in H; try discriminate H;
    inversion H; reflexivity.
Qed.

(** X16: the line logged for a failure tells the failure.  Two failures the
    activity answers, in whatever runs, that [logFailure] writes as the same
    line are the same failure: the line gives the kind and the reason. *)
Theorem log_line_identifies_the_failure
        (input1 input2 : JsValue) (w1 w2 : World) (f1 f2 : ActivityResultFailure) :
  fst (createDeleteUserDataActivityHandler
         JSON_stringify isFiscalCode readableReport deps input1 w1)
  = ActivityResultFailureOf f1 ->
  fst (createDeleteUserDataActivityHandler
         JSON_stringify isFiscalCode readableReport deps input2 w2)
  = ActivityResultFailureOf f2 ->
  logFailure f1 = logFailure f2 ->
  f1 = f2.
Proof.
  intros H1 H2. apply logFailure_inj; eapply answered_failures; eassumption.
Qed.
End ActivityFacts.

(** A user with two versions of the profile and no message. *)
Lemma success_means_every_call_succeeded_witness :
  exists d,
    snd (createDeleteUserDataActivityHandler
           Sample.JSON_stringify Sample.isFiscalCode Sample.readableReport
           Sample.someDeps Sample.anInput []) = d
    /\ Forall (fun e => ok e = true
                        \/ exists messageId, call e = GetContentFromBlob messageId) d.
Proof.
  apply (success_means_every_call_succeeded
           Sample.JSON_stringify Sample.isFiscalCode Sample.readableReport
           Sample.someDeps Sample.anInput []).
  reflexivity.
Defined.

(** The backup of version 1 of the profile is refused: a backup failed. *)
Lemma failure_kind_names_a_failed_call_witness :
  exists d e,
    snd (createDeleteUserDataActivityHandler
           Sample.JSON_stringify Sample.isFiscalCode Sample.readableReport
           Cases.refusingDeps Sample.anInput []) = d
    /\ In e d /\ ok e = false /\ isSave (call e) = true.
Proof.
  apply (@failure_kind_names_a_failed_call
           Sample.JSON_stringify Sample.isFiscalCode Sample.readableReport
           Cases.refusingDeps Sample.anInput [] (BlobCreationFailure "backup refused")).
  reflexivity.
Defined.

(** The query of the messages is rejected. *)
Lemma query_failures_are_logged_without_the_query_witness :
  logFailure (DataFailureOf (QueryFailure "ECONNRESET" None))
  = "DeleteUserDataActivity|Error undefined query error|ERROR=ECONNRESET".
Proof.
  apply (@query_failures_are_logged_without_the_query
           Sample.JSON_stringify Sample.isFiscalCode Sample.readableReport
           Cases.unreachableDeps Sample.anInput [] "ECONNRESET" None).
  reflexivity.
Defined.

(** An input that is not an object and an input without folder are logged
    with the same line: the report of the decoder is the same. *)
Lemma log_line_identifies_the_failure_witness :
  InvalidInputFailure (Sample.readableReport {| refused := Cases.notAnObject |})
  = InvalidInputFailure (Sample.readableReport {| refused := Cases.noFolderInput |}).
Proof.
  apply (@log_line_identifies_the_failure
           Sample.JSON_stringify Sample.isFiscalCode Sample.readableReport
           Sample.someDeps Cases.notAnObject Cases.noFolderInput [] []).
  - reflexivity.
  - reflexivity.
  - reflexivity.
Defined.

(** ** The runs of the functions of the cascade *)

Lemma query_run {R} (c : Call)
      (answer : World -> PromiseOutcome (Either QueryErrorOrError R)) (w : World) :
  mapLeft (fun e => toQueryFailure (IsError e)) (fromQueryEither (invoke c answer)) w
  = (match answer w with
     | Resolves (Right r) => Right r
     | _ => Left (QueryFailure (messageOf (answer w)) None)
     end,
     w ++ [{| call := c; ok := resolved (answer w) |}]).
Proof.
  unfold mapLeft, fromQueryEither, chain, tryCatch, invoke, fromEither.
  destruct (answer w) as [m|[[m|j]|r]]; reflexivity.
Qed.

Section CascadeRuns.
Variable JSON_stringify : forall T : Type, T -> string.
Variable info : IBlobServiceInfo.
Variable messageModel : MessageModel.t.
Variable messageStatusModel : MessageStatusModel.t.
Variable notificationModel : NotificationModel.t.
Variable notificationStatusModel : NotificationStatusModel.t.
Variable profileModel : ProfileModel.t.

Lemma backupAndDeleteAllMessagesData_run (fiscalCode : string) (w : World) :
  backupAndDeleteAllMessagesData
    JSON_stringify messageModel messageStatusModel notificationModel
    notificationStatusModel info fiscalCode w
  = let o := MessageModel.answerFindMessages messageModel fiscalCode w in
    let w1 := w ++ [{| call := FindMessages fiscalCode; ok := resolved o |}] in
    match o with
    | Resolves (Right messages) =>
        array_sequence
          (List.map
             (backupAndDeleteOneMessageData
                JSON_stringify messageModel messageStatusModel notificationModel
                notificationStatusModel info)
             messages)
          w1
    | _ => (Left (QueryFailure (messageOf o) None), w1)
    end.
Proof.
  unfold backupAndDeleteAllMessagesData. rewrite bimap_debug_run.
  unfold foldTaskEither, MessageModel.findMessages. rewrite query_run.
  destruct (MessageModel.answerFindMessages messageModel fiscalCode w)
    as [m|[[m|j]|r]]; reflexivity.
Qed.

(** The cascade starts with the query of the messages. *)
Lemma cascade_starts_with_the_messages (fiscalCode : string) (w : World) :
  exists d,
    snd (backupAndDeleteAllUserData
           JSON_stringify messageModel messageStatusModel notificationModel
           notificationStatusModel profileModel info fiscalCode w)
    = w ++ {| call := FindMessages fiscalCode;
              ok := resolved (MessageModel.answerFindMessages messageModel fiscalCode w) |}
        :: d.
Proof.
  unfold backupAndDeleteAllUserData, chain.
  assert (Hmessages :
            exists d,
              snd (backupAndDeleteAllMessagesData
                     JSON_stringify messageModel messageStatusModel notificationModel
                     notificationStatusModel info fiscalCode w)
              = w ++ {| call := FindMessages fiscalCode;
                        ok := resolved (MessageModel.answerFindMessages
                                          messageModel fiscalCode w) |} :: d).
  { rewrite backupAndDeleteAllMessagesData_run. cbv zeta.
    destruct (MessageModel.answerFindMessages messageModel fiscalCode w)
      as [m|[[m|j]|messages]]; try (exists []; reflexivity).
    match goal with
    | |- context [array_sequence ?ts ?s] =>
        assert (Happ : emits (fun _ : World => True) (array_sequence ts)
                             (fun _ _ => True))
    end.
    { apply emits_array_sequence with (Q1 := fun _ _ => True); [|auto].
      apply Forall_forall. intros t Ht. apply in_map_iff in Ht.
      destruct Ht as (message & <- & _).
      eapply emits_weaken;
        [apply (follows_backupAndDeleteOneMessageData
                  JSON_stringify info messageModel messageStatusModel notificationModel
                  notificationStatusModel message)|].
      auto. }
    match goal with
    | |- context [array_sequence ?ts ?s] => destruct (Happ s I) as (d & _ & Hw & _)
    end.
    exists d. unfold worldOf, HasWorld_World in Hw. rewrite Hw.
    rewrite <- app_assoc. reflexivity. }
  destruct Hmessages as (d & Hd).
  destruct (backupAndDeleteAllMessagesData _ _ _ _ _ _ _ w) as [[failure|messages] w1];
    simpl in *.
  - exists d. exact Hd.
  - pose proof (follows_backupAndDeleteProfile JSON_stringify info profileModel fiscalCode)
      as HF.
    destruct (HF w1 I) as (d' & _ & Hw & _). unfold worldOf, HasWorld_World in Hw.
    rewrite Hw, Hd. exists (d ++ d'). rewrite <- app_assoc. reflexivity.
Qed.

(** *** The content of a message *)

Lemma backupAndDeleteMessageContent_run (message : RetrievedMessageWithoutContent.t)
      (w : World) :
  backupAndDeleteMessageContent JSON_stringify messageModel info message w
  = let o := MessageModel.answerGetContentFromBlob
               messageModel (RetrievedMessageWithoutContent.id message) w in
    let w1 := w ++ [{| call := GetContentFromBlob (RetrievedMessageWithoutContent.id message);
                       ok := resolved o |}] in
    match o with
    | Resolves (Right (Some content)) =>
        let run :=
          sequenceT2_seq
            (saveDataToBlob JSON_stringify info
                            ("messagecontent--" ++ RetrievedMessageWithoutContent.id message
                                                ++ ".json")%string
                            content)
            (mapLeft toDocumentDeleteFailure
                     (fromQueryEither
                        (MessageModel.deleteContentFromBlob
                           messageModel (RetrievedMessageWithoutContent.id message))))
            w1 in
        (either_map (fun _ => Some content) (fst run), snd run)
    | _ => (Right None, w1)
    end.
Proof.
  unfold backupAndDeleteMessageContent. rewrite bimap_debug_run.
  unfold foldTaskEither, fromQueryEither at 1, chain, tryCatch,
    MessageModel.getContentFromBlob, invoke at 1, mapLeft at 1, fromEither.
  destruct (MessageModel.answerGetContentFromBlob _ _ w) as [m|[[m|j]|[content|]]];
    try reflexivity.
  cbv zeta. simpl either_mapLeft. cbv iota beta. apply map_run.
Qed.

(** X8: the content of a message that is found.  The content is written
    to the blob [messagecontent--<id of the message>.json]; it is deleted
    only once that backup succeeded; the step ends with a [BLOB_FAILURE]
    when the backup fails, with a [DELETE_FAILURE] when the deletion fails,
    and with the content otherwise. *)
Theorem found_content_is_backed_up_then_deleted
        (message : RetrievedMessageWithoutContent.t) (content : MessageContent.t)
        (w : World) :
  let messageId := RetrievedMessageWithoutContent.id message in
  let lookup := {| call := GetContentFromBlob messageId; ok := true |} in
  let save :=
    saveCall JSON_stringify info ("messagecontent--" ++ messageId ++ ".json")%string
             content in
  let delete := DeleteContentFromBlob messageId in
  let run := backupAndDeleteMessageContent JSON_stringify messageModel info message w in
  MessageModel.answerGetContentFromBlob messageModel messageId w
  = Resolves (Right (Some content)) ->
  (exists reason,
      run = (Left (BlobCreationFailure reason),
             w ++ [lookup; {| call := save; ok := false |}]))
  \/ (exists reason,
         run = (Left (DocumentDeleteFailure reason),
                w ++ [lookup; {| call := save; ok := true |};
                      {| call := delete; ok := false |}]))
  \/ run = (Right (Some content),
            w ++ [lookup; {| call := save; ok := true |};
                  {| call := delete; ok := true |}]).
Proof.
  intros messageId lookup save delete run Hfound. unfold run. clear run.
  rewrite backupAndDeleteMessageContent_run. cbv zeta. fold messageId.
  rewrite Hfound. cbn [resolved]. unfold sequenceT2_seq, MessageModel.deleteContentFromBlob.
  rewrite backup_then_delete_run. fold messageId. fold save. fold delete. fold lookup.
  destruct (answerCreateBlockBlobFromText _ _ _ _ _) as [err|].
  - left. exists err. cbn [fst snd either_map]. rewrite <- app_assoc. reflexivity.
  - cbv zeta. cbn [fst snd].
    destruct (MessageModel.answerDeleteContentFromBlob _ _ _) as [m|[[m|j]|r]];
      cbn [either_map resolved messageOf].
    + right. left. eexists. rewrite <- !app_assoc. reflexivity.
    + right. left. eexists. rewrite <- !app_assoc. reflexivity.
    + right. left. eexists. rewrite <- !app_assoc. reflexivity.
    + right. right. rewrite <- !app_assoc. reflexivity.
Qed.

(** *** The children of a message and the message *)

Lemma called_app_l c d1 d2 : called c d1 -> called c (d1 ++ d2).
Proof. intros [b Hb]. exists b. apply in_or_app. left. exact Hb. Qed.

Lemma called_app_r c d1 d2 : called c d2 -> called c (d1 ++ d2).
Proof. intros [b Hb]. exists b. apply in_or_app. right. exact Hb. Qed.

Lemma called_first c b d : called c ({| call := c; ok := b |} :: d).
Proof. exists b. left. reflexivity. Qed.

Lemma content_is_looked_up (message : RetrievedMessageWithoutContent.t) :
  emits (fun _ : World => True)
        (backupAndDeleteMessageContent JSON_stringify messageModel info message)
        (fun _ d => called (GetContentFromBlob (RetrievedMessageWithoutContent.id message))
                           d).
Proof.
  pose proof (follows_backupAndDeleteMessageContent
                JSON_stringify info messageModel message) as HF.
  intros w _. destruct (HF w I) as (d & _ & Hw & _).
  exists d. split; [exact I|]. split; [exact Hw|].
  unfold worldOf, HasWorld_World in Hw. revert Hw.
  rewrite backupAndDeleteMessageContent_run. cbv zeta.
  destruct (MessageModel.answerGetContentFromBlob _ _ w) as [m|[[m|j]|[content|]]];
    cbn [snd]; try (intros Hw; apply app_inv_head in Hw; subst d; apply called_first).
  unfold sequenceT2_seq, MessageModel.deleteContentFromBlob.
  rewrite backup_then_delete_run.
  destruct (answerCreateBlockBlobFromText _ _ _ _ _) as [err|]; cbv zeta; cbn [snd];
    rewrite <- ?app_assoc; intros Hw; apply app_inv_head in Hw; subst d;
    apply called_first.
Qed.

Lemma statuses_are_fetched (message : RetrievedMessageWithoutContent.t) :
  emits (fun _ : World => True)
        (backupAndDeleteMessageStatus JSON_stringify messageStatusModel info message)
        (fun _ d =>
           called (ExecuteNext (MessageStatusVersions
                                  (RetrievedMessageWithoutContent.id message))) d).
Proof.
  unfold backupAndDeleteMessageStatus. apply emits_bimap.
  eapply emits_weaken.
  - exact (walker_fetches_first
             JSON_stringify info _ _ _ _
             (MessageStatusModel.pagesOfAllVersions
                messageStatusModel (RetrievedMessageWithoutContent.id message))).
  - intros r d (b & d' & ->). apply called_first.
Qed.

Lemma one_notification_appends (message : RetrievedMessageWithoutContent.t)
      (notification : RetrievedNotification.t) :
  follows (fun _ : World => True) (MessageChildrenSteps JSON_stringify info message)
          (backupAndDeleteOneNotificationData
             JSON_stringify notificationModel notificationStatusModel info notification).
Proof.
  apply follows_sequenceT2_seq.
  - eapply follows_mono; [|apply follows_backupAndDeleteNotificationStatus].
    intros st Hst. eapply MessageChildrenSteps_notification.
    apply NotificationSteps_status. exact Hst.
  - eapply follows_mono; [|apply follows_backupAndDeleteNotification].
    intros st Hst. eapply MessageChildrenSteps_notification. exact Hst.
Qed.

Lemma backupAndDeleteAllNotificationsData_run
      (message : RetrievedMessageWithoutContent.t) (w : World) :
  backupAndDeleteAllNotificationsData
    JSON_stringify message notificationModel notificationStatusModel info w
  = let o := NotificationModel.answerFindNotificationsForMessage
               notificationModel (RetrievedMessageWithoutContent.id message) w in
    let w1 := w ++ [{| call := FindNotificationsForMessage
                                 (RetrievedMessageWithoutContent.id message);
                       ok := resolved o |}] in
    match o with
    | Resolves (Right notifications) =>
        array_sequence
          (List.map
             (backupAndDeleteOneNotificationData
                JSON_stringify notificationModel notificationStatusModel info)
             notifications)
          w1
    | _ => (Left (QueryFailure (messageOf o) None), w1)
    end.
Proof.
  unfold backupAndDeleteAllNotificationsData. rewrite bimap_debug_run.
  unfold foldTaskEither, mapLeft, bimap, fromQueryEither, chain, tryCatch,
    NotificationModel.findNotificationsForMessage, invoke, fromEither.
  destruct (NotificationModel.answerFindNotificationsForMessage _ _ w)
    as [m|[[m|j]|r]]; reflexivity.
Qed.

Lemma notifications_are_asked_for (message : RetrievedMessageWithoutContent.t) :
  emits (fun _ : World => True)
        (backupAndDeleteAllNotificationsData
           JSON_stringify message notificationModel notificationStatusModel info)
        (fun _ d =>
           called (FindNotificationsForMessage
                     (RetrievedMessageWithoutContent.id message)) d).
Proof.
  intros w _. rewrite backupAndDeleteAllNotificationsData_run. cbv zeta.
  destruct (NotificationModel.answerFindNotificationsForMessage _ _ w)
    as [m|[[m|j]|notifications]];
    try (eexists; split; [exact I|]; split; [reflexivity|]; apply called_first).
  match goal with
  | |- context [array_sequence ?ts ?s] =>
      assert (Happ : emits (fun _ : World => True) (array_sequence ts) (fun _ _ => True))
  end.
  { apply emits_array_sequence with (Q1 := fun _ _ => True); [|auto].
    apply Forall_forall. intros t Ht. apply in_map_iff in Ht.
    destruct Ht as (notification & <- & _).
    eapply emits_weaken; [apply (one_notification_appends message notification)|].
    auto. }
  match goal with
  | |- context [array_sequence ?ts ?s] => destruct (Happ s I) as (d & _ & Hw & _)
  end.
  eexists. split; [exact I|]. split.
  - unfold worldOf, HasWorld_World in *. rewrite Hw, <- app_assoc. reflexivity.
  - apply called_first.
Qed.

Lemma children_are_started (message : RetrievedMessageWithoutContent.t) :
  emits (fun _ : World => True)
        (backupAndDeleteMessageChildren
           JSON_stringify messageModel messageStatusModel notificationModel
           notificationStatusModel info message)
        (fun _ d => childrenStarted message d).
Proof.
  unfold backupAndDeleteMessageChildren, sequenceT3_par.
  eapply emits_ap_par
    with (Q1 := fun _ d =>
                  called (GetContentFromBlob (RetrievedMessageWithoutContent.id message)) d
                  /\ called (ExecuteNext (MessageStatusVersions
                                            (RetrievedMessageWithoutContent.id message)))
                            d)
         (Q2 := fun _ d =>
                  called (FindNotificationsForMessage
                            (RetrievedMessageWithoutContent.id message)) d).
  - eapply emits_ap_par
      with (Q1 := fun _ d =>
                    called (GetContentFromBlob (RetrievedMessageWithoutContent.id message))
                           d)
           (Q2 := fun _ d =>
                    called (ExecuteNext (MessageStatusVersions
                                           (RetrievedMessageWithoutContent.id message)))
                           d).
    + apply emits_map. apply content_is_looked_up.
    + apply statuses_are_fetched.
    + intros r1 d1 r2 d2 H1 H2. split; [apply called_app_l | apply called_app_r]; auto.
  - apply notifications_are_asked_for.
  - intros r1 d1 r2 d2 [H1 H2] H3. repeat split.
    + apply called_app_l, H1.
    + apply called_app_l, H2.
    + apply called_app_r, H3.
Qed.

Lemma backupAndDeleteMessage_run (message : RetrievedMessageWithoutContent.t)
      (w : World) :
  backupAndDeleteMessage JSON_stringify messageModel info message w
  = let save := saveCall JSON_stringify info
                         ("message--" ++ RetrievedMessageWithoutContent.id message
                                      ++ ".json")%string message in
    match answerCreateBlockBlobFromText
            (blobService info) (containerName info)
            (backupBlobPath (folder info)
                            ("message--" ++ RetrievedMessageWithoutContent.id message
                                         ++ ".json"))
            (JSON_stringify message) w with
    | Some err =>
        (Left (BlobCreationFailure err), w ++ [{| call := save; ok := false |}])
    | None =>
        let w1 := w ++ [{| call := save; ok := true |}] in
        let o := MessageModel.answerDeleteMessage
                   messageModel (RetrievedMessageWithoutContent.fiscalCode message)
                   (RetrievedMessageWithoutContent.id message) w1 in
        (match o with
         | Resolves (Right _) => Right message
         | _ => Left (DocumentDeleteFailure (messageOf o))
         end,
         w1 ++ [{| call := DeleteMessage
                             (RetrievedMessageWithoutContent.fiscalCode message)
                             (RetrievedMessageWithoutContent.id message);
                   ok := resolved o |}])
    end.
Proof.
  unfold backupAndDeleteMessage. rewrite bimap_debug_run.
  unfold map at 1, sequenceT2_seq, MessageModel.deleteMessage.
  rewrite backup_then_delete_run.
  destruct (answerCreateBlockBlobFromText _ _ _ _ _) as [err|]; cbv zeta;
    [reflexivity|].
  destruct (MessageModel.answerDeleteMessage _ _ _ _) as [m|[[m|j]|r]]; reflexivity.
Qed.

Lemma message_is_backed_up_and_deleted (message : RetrievedMessageWithoutContent.t) :
  emits (fun _ : World => True)
        (backupAndDeleteMessage JSON_stringify messageModel info message)
        (fun r d =>
           isRight r = true ->
           d = [{| call := saveCall JSON_stringify info
                                    ("message--" ++ RetrievedMessageWithoutContent.id message
                                                 ++ ".json")%string message;
                   ok := true |};
                {| call := DeleteMessage (RetrievedMessageWithoutContent.fiscalCode message)
                                         (RetrievedMessageWithoutContent.id message);
                   ok := true |}]).
Proof.
  intros w _. rewrite backupAndDeleteMessage_run. cbv zeta.
  destruct (answerCreateBlockBlobFromText _ _ _ _ _) as [err|].
  - eexists. split; [exact I|]. split; [reflexivity|]. simpl. intros H. discriminate H.
  - destruct (MessageModel.answerDeleteMessage _ _ _ _) as [m|[[m|j]|r]];
      (eexists; split; [exact I|]; split;
       [unfold worldOf, HasWorld_World; cbn [snd]; rewrite <- app_assoc; reflexivity|]);
      simpl; intros H; try discriminate H.
    reflexivity.
Qed.

Lemma one_message_run (message : RetrievedMessageWithoutContent.t) :
  emits (fun _ : World => True)
        (backupAndDeleteOneMessageData
           JSON_stringify messageModel messageStatusModel notificationModel
           notificationStatusModel info message)
        (fun r d =>
           childrenStarted message d
           /\ (isRight r = true ->
               In {| call := saveCall JSON_stringify info
                                      ("message--"
                                         ++ RetrievedMessageWithoutContent.id message
                                         ++ ".json")%string message;
                     ok := true |} d
               /\ In {| call := DeleteMessage
                                  (RetrievedMessageWithoutContent.fiscalCode message)
                                  (RetrievedMessageWithoutContent.id message);
                        ok := true |} d)).
Proof.
  unfold backupAndDeleteOneMessageData.
  eapply emits_chain
    with (Q1 := fun _ d => childrenStarted message d)
         (Q2 := fun _ r d =>
                  isRight r = true ->
                  d = [{| call := saveCall JSON_stringify info
                                           ("message--"
                                              ++ RetrievedMessageWithoutContent.id message
                                              ++ ".json")%string message;
                          ok := true |};
                       {| call := DeleteMessage
                                    (RetrievedMessageWithoutContent.fiscalCode message)
                                    (RetrievedMessageWithoutContent.id message);
                          ok := true |}]).
  - apply children_are_started.
  - intros _. apply message_is_backed_up_and_deleted.
  - intros l d H. split; [exact H | discriminate].
  - intros a d1 r d2 (H1 & H2 & H3) Hr. split.
    + repeat split; apply called_app_l; assumption.
    + intros Hright. rewrite (Hr Hright).
      split; apply in_or_app; right; simpl; auto.
Qed.

(** The cascade over the messages that were found: every message has its
    run. *)
Lemma messages_run (fiscalCode : string)
      (messages : list RetrievedMessageWithoutContent.t) (w : World) :
  MessageModel.answerFindMessages messageModel fiscalCode w = Resolves (Right messages) ->
  exists rs d,
    backupAndDeleteAllMessagesData
      JSON_stringify messageModel messageStatusModel notificationModel
      notificationStatusModel info fiscalCode w
    = (joinFrom (Right []) rs,
       w ++ {| call := FindMessages fiscalCode; ok := true |} :: d)
    /\ Each (fun message r d =>
               childrenStarted message d
               /\ (isRight r = true ->
                   In {| call := saveCall JSON_stringify info
                                          ("message--"
                                             ++ RetrievedMessageWithoutContent.id message
                                             ++ ".json")%string message;
                         ok := true |} d
                   /\ In {| call := DeleteMessage
                                      (RetrievedMessageWithoutContent.fiscalCode message)
                                      (RetrievedMessageWithoutContent.id message);
                            ok := true |} d))
            messages rs d.
Proof.
  intros Hfound. rewrite backupAndDeleteAllMessagesData_run. cbv zeta.
  rewrite Hfound. cbn [resolved]. rewrite array_sequence_runAll.
  match goal with
  | |- context [runAll (List.map ?f messages) ?s] =>
      destruct (@emits_runAll_each
                  World _ (fun _ => True) _ _ _ f _ messages
                  (fun message _ => one_message_run message) s I)
        as (d & _ & Hw & HE)
  end.
  unfold worldOf, HasWorld_World in Hw.
  eexists. exists d. split; [|exact HE].
  rewrite Hw, <- app_assoc. reflexivity.
Qed.

(** *** A notification and the history of its statuses *)

Lemma NotificationStatusSteps_not_onNotification
      (notification : RetrievedNotification.t) st :
  NotificationStatusSteps JSON_stringify info (RetrievedNotification.id notification) st ->
  stepCalls (fun c => onNotification info notification c = false) st.
Proof.
  intros Hst. invert_steps; simpl; auto; split; auto;
    apply String.eqb_neq; intros E; apply backupBlobPath_inj in E; discriminate E.
Qed.

(** X7: the statuses of a notification before the notification.  For
    every notification of a message, the history of its statuses is backed
    up and deleted first; when that fails the failure is the outcome, and
    the notification itself is neither backed up nor deleted; when it
    succeeds the notification is backed up and deleted next. *)
Theorem status_failure_prevents_notification_delete
        (notification : RetrievedNotification.t) (w : World) :
  let status :=
    backupAndDeleteNotificationStatus
      JSON_stringify notificationStatusModel info notification w in
  let run :=
    backupAndDeleteOneNotificationData
      JSON_stringify notificationModel notificationStatusModel info notification w in
  (isLeft (fst status) = true ->
   exists failure d,
     run = (Left failure, w ++ d)
     /\ snd status = w ++ d
     /\ Forall (fun e => onNotification info notification (call e) = false) d)
  /\ (forall statuses,
         fst status = Right statuses ->
         let self :=
           backupAndDeleteNotification JSON_stringify notificationModel info notification
                                       (snd status) in
         run = (either_map (fun n => (statuses, n)) (fst self), snd self)).
Proof.
  intros status run.
  pose proof (follows_backupAndDeleteNotificationStatus
                JSON_stringify info notificationStatusModel notification) as HF.
  destruct (HF w I) as (d & _ & Hw & Hg). clear HF.
  unfold worldOf, HasWorld_World in Hw. fold status in Hw, Hg.
  assert (Hrun : run = match fst status with
                       | Left l => (Left l, snd status)
                       | Right statuses =>
                           map (fun n => (statuses, n))
                               (backupAndDeleteNotification
                                  JSON_stringify notificationModel info notification)
                               (snd status)
                       end).
  { unfold run, backupAndDeleteOneNotificationData, sequenceT2_seq, ap_seq, chain.
    rewrite map_run. fold status. destruct (fst status); reflexivity. }
  split.
  - intros Hfail. destruct (fst status) as [failure|statuses] eqn:Hs; [|discriminate].
    exists failure, d. rewrite Hrun, Hw. repeat split.
    eapply (@Grammar_calls _ (fun c => onNotification info notification c = false));
      [|exact Hg].
    apply NotificationStatusSteps_not_onNotification.
  - intros statuses Hs self. rewrite Hrun, Hs. apply map_run.
Qed.

(** *** The names of the backups of the statuses *)

(** X9: the backups of the statuses are named by their version alone.
    Every backup written by the cascade over the statuses of a message goes
    to [message-status--<version>.json], and every backup written by the
    cascade over the statuses of a notification to
    [notification-status--<version>.json], with the record as text: neither
    the id of the record nor the id of its message or notification is part
    of the name, so that two statuses with the same version, of whichever
    messages or notifications of the user, are written to the same blob. *)
Theorem status_backups_are_named_by_version_alone
        (message : RetrievedMessageWithoutContent.t)
        (notification : RetrievedNotification.t) (w : World) :
  (exists d,
      snd (backupAndDeleteMessageStatus JSON_stringify messageStatusModel info message w)
      = w ++ d
      /\ Forall (fun e =>
                   forall container blobName text,
                     call e = CreateBlockBlobFromText container blobName text ->
                     exists status : RetrievedMessageStatus.t,
                       blobName
                       = backupBlobPath
                           (folder info)
                           ("message-status--"
                              ++ Number_toString (RetrievedMessageStatus.version status)
                              ++ ".json")
                       /\ text = JSON_stringify status) d)
  /\ (exists d,
         snd (backupAndDeleteNotificationStatus
                JSON_stringify notificationStatusModel info notification w)
         = w ++ d
         /\ Forall (fun e =>
                      forall container blobName text,
                        call e = CreateBlockBlobFromText container blobName text ->
                        exists status : RetrievedNotificationStatus.t,
                          blobName
                          = backupBlobPath
                              (folder info)
                              ("notification-status--"
                                 ++ Number_toString
                                      (RetrievedNotificationStatus.version status)
                                 ++ ".json")
                          /\ text = JSON_stringify status) d).
Proof.
  split.
  - pose proof (follows_backupAndDeleteMessageStatus
                  JSON_stringify info messageStatusModel message) as HF.
    destruct (HF w I) as (d & _ & Hw & Hg). exists d. split; [exact Hw|].
    eapply (@Grammar_calls
              _ (fun c =>
                   forall container blobName text,
                     c = CreateBlockBlobFromText container blobName text ->
                     exists status : RetrievedMessageStatus.t,
                       blobName
                       = backupBlobPath
                           (folder info)
                           ("message-status--"
                              ++ Number_toString (RetrievedMessageStatus.version status)
                              ++ ".json")
                       /\ text = JSON_stringify status));
      [|exact Hg].
    intros st Hst. invert_steps; simpl.
    + intros container blobName text E. discriminate E.
    + split; intros container blobName text E; [|discriminate E].
      unfold saveCall in E. inversion E. eauto.
  - pose proof (follows_backupAndDeleteNotificationStatus
                  JSON_stringify info notificationStatusModel notification) as HF.
    destruct (HF w I) as (d & _ & Hw & Hg). exists d. split; [exact Hw|].
    eapply (@Grammar_calls
              _ (fun c =>
                   forall container blobName text,
                     c = CreateBlockBlobFromText container blobName text ->
                     exists status : RetrievedNotificationStatus.t,
                       blobName
                       = backupBlobPath
                           (folder info)
                           ("notification-status--"
                              ++ Number_toString
                                   (RetrievedNotificationStatus.version status)
                              ++ ".json")
                       /\ text = JSON_stringify status));
      [|exact Hg].
    intros st Hst. invert_steps; simpl.
    + intros container blobName text E. discriminate E.
    + split; intros container blobName text E; [|discriminate E].
      unfold saveCall in E. inversion E. eauto.
Qed.
End CascadeRuns.

Section ActivityRuns2.
Variable JSON_stringify : forall T : Type, T -> string.
Variable isFiscalCode : string -> bool.
Variable readableReport : Errors -> string.
Variable deps : IActivityHandlerInput.

(** X6: an input that does not decode.  The activity answers
    [INVALID_INPUT_FAILURE], with the report of the decoder as reason, and
    calls no service; on an input that decodes its first call is the query
    of the messages of the decoded fiscal code, and its answer is never
    [INVALID_INPUT_FAILURE]. *)
Theorem invalid_input_calls_no_service (input : JsValue) (w : World) :
  let run :=
    createDeleteUserDataActivityHandler
      JSON_stringify isFiscalCode readableReport deps input w in
  match ActivityInput_decode isFiscalCode input with
  | Left errors =>
      run = (ActivityResultFailureOf (InvalidInputFailure (readableReport errors)), w)
  | Right decoded =>
      kind (fst run) <> "INVALID_INPUT_FAILURE"
      /\ exists b d,
          snd run = w ++ {| call := FindMessages (fiscalCode decoded); ok := b |} :: d
  end.
Proof.
  intros run. unfold run. clear run.
  destruct (ActivityInput_decode isFiscalCode input) as [errors|decoded] eqn:E.
  - apply handler_run_invalid. exact E.
  - rewrite (@handler_run_decoded JSON_stringify isFiscalCode readableReport deps
                                  input decoded w E).
    cbv zeta. cbn [fst snd]. split.
    + destruct (fst (backupAndDeleteAllUserData _ _ _ _ _ _ _ _ w)) as [[r q|r|r]|a];
        simpl; discriminate.
    + destruct (cascade_starts_with_the_messages
                  JSON_stringify (userDataBackupOf deps decoded) (messageModel deps)
                  (messageStatusModel deps) (notificationModel deps)
                  (notificationStatusModel deps) (profileModel deps)
                  (fiscalCode decoded) w) as (d & Hd).
      eauto.
Qed.

(** X5: a failed query of the messages.  When the query of the messages of
    the user is rejected or answers an error, the activity answers a
    [QUERY_FAILURE] whose reason is the message of the error, and makes no
    other call: nothing is backed up, nothing is deleted, and the versions
    of the profile are not asked for. *)
Theorem failed_query_of_the_messages_ends_the_activity
        (input : JsValue) (decoded : ActivityInput) (w : World) :
  let answer :=
    MessageModel.answerFindMessages (messageModel deps) (fiscalCode decoded) w in
  ActivityInput_decode isFiscalCode input = Right decoded ->
  resolved answer = false ->
  createDeleteUserDataActivityHandler
    JSON_stringify isFiscalCode readableReport deps input w
  = (ActivityResultFailureOf (DataFailureOf (QueryFailure (messageOf answer) None)),
     w ++ [{| call := FindMessages (fiscalCode decoded); ok := false |}]).
Proof.
  intros answer E Hfailed.
  rewrite (@handler_run_decoded JSON_stringify isFiscalCode readableReport deps
                                input decoded w E).
  cbv zeta. unfold backupAndDeleteAllUserData, chain.
  rewrite backupAndDeleteAllMessagesData_run. cbv zeta. fold answer.
  rewrite Hfailed. destruct answer as [m|[[m|j]|r]]; try reflexivity. discriminate.
Qed.

Lemma childrenStarted_among message d1 d2 d3 :
  childrenStarted message d2 -> childrenStarted message (d1 ++ d2 ++ d3).
Proof.
  intros (H1 & H2 & H3).
  repeat split; apply called_app_r, called_app_l; assumption.
Qed.

(** The run of the activity when the messages are found: the query, the
    runs of the messages, and what follows them. *)
Lemma activity_messages_run (input : JsValue) (decoded : ActivityInput) (w : World)
      (messages : list RetrievedMessageWithoutContent.t) :
  let run :=
    createDeleteUserDataActivityHandler
      JSON_stringify isFiscalCode readableReport deps input w in
  ActivityInput_decode isFiscalCode input = Right decoded ->
  MessageModel.answerFindMessages (messageModel deps) (fiscalCode decoded) w
  = Resolves (Right messages) ->
  exists rs d1 d2,
    snd run = w ++ {| call := FindMessages (fiscalCode decoded); ok := true |} :: d1 ++ d2
    /\ Each (fun message (r : Either DataFailure RetrievedMessageWithoutContent.t) d =>
               childrenStarted message d
               /\ (isRight r = true ->
                   In {| call := saveCall JSON_stringify (userDataBackupOf deps decoded)
                                          ("message--"
                                             ++ RetrievedMessageWithoutContent.id message
                                             ++ ".json")%string message;
                         ok := true |} d
                   /\ In {| call := DeleteMessage
                                      (RetrievedMessageWithoutContent.fiscalCode message)
                                      (RetrievedMessageWithoutContent.id message);
                            ok := true |} d))
            messages rs d1
    /\ (fst run = ActivityResultSuccess -> exists zs, rs = List.map (fun z => Right z) zs).
Proof.
  intros run E Hfound. unfold run. clear run.
  rewrite (@handler_run_decoded JSON_stringify isFiscalCode readableReport deps
                                input decoded w E).
  cbv zeta. cbn [fst snd]. unfold backupAndDeleteAllUserData, chain.
  destruct (@messages_run JSON_stringify (userDataBackupOf deps decoded)
                          (messageModel deps) (messageStatusModel deps)
                          (notificationModel deps) (notificationStatusModel deps)
                          (fiscalCode decoded) messages w Hfound)
    as (rs & d1 & Hrun & HE).
  rewrite Hrun. exists rs, d1.
  destruct (joinFrom (Right []) rs) as [failure|found] eqn:Hjoin.
  - exists []. cbn [fst snd]. rewrite app_nil_r. repeat split; [exact HE|].
    intros H. discriminate H.
  - pose proof (follows_backupAndDeleteProfile
                  JSON_stringify (userDataBackupOf deps decoded) (profileModel deps)
                  (fiscalCode decoded)) as HF.
    match goal with
    | |- context [backupAndDeleteProfile _ _ _ _ ?s] =>
        destruct (HF s I) as (d2 & _ & Hw & _)
    end.
    unfold worldOf, HasWorld_World in Hw. exists d2. rewrite Hw.
    split; [|split; [exact HE|]].
    + rewrite <- app_assoc. reflexivity.
    + intros _. apply joinFrom_Right_inv in Hjoin. destruct Hjoin as (zs & _ & Hzs).
      exists zs. exact Hzs.
Qed.

(** X2: every message that is found is visited.  Whatever fails, for every
    message the query answers the activity looks up its content, asks for
    the first page of its statuses and asks for its notifications: a failure
    on one message does not stop the cascade over the other messages. *)
Theorem every_message_is_visited (input : JsValue) (decoded : ActivityInput)
        (w : World) (messages : list RetrievedMessageWithoutContent.t) :
  let run :=
    createDeleteUserDataActivityHandler
      JSON_stringify isFiscalCode readableReport deps input w in
  ActivityInput_decode isFiscalCode input = Right decoded ->
  MessageModel.answerFindMessages (messageModel deps) (fiscalCode decoded) w
  = Resolves (Right messages) ->
  exists d,
    snd run = w ++ d
    /\ forall message, In message messages -> childrenStarted message d.
Proof.
  intros run E Hfound.
  destruct (activity_messages_run input w E Hfound) as (rs & d1 & d2 & Hw & HE & _).
  fold run in Hw. eexists. split; [exact Hw|].
  intros message Hmessage.
  destruct (Each_In HE message Hmessage) as (r & a & b & c & _ & -> & Hstarted & _).
  apply (@childrenStarted_among
           message ({| call := FindMessages (fiscalCode decoded); ok := true |} :: a)
           b (c ++ d2)) in Hstarted.
  simpl in Hstarted. rewrite <- !app_assoc. exact Hstarted.
Qed.

(** X1: a success covers every message.  When the activity answers
    [SUCCESS], every message the query answered was backed up, under
    [message--<id>.json], and deleted. *)
Theorem success_covers_every_message (input : JsValue) (decoded : ActivityInput)
        (w : World) (messages : list RetrievedMessageWithoutContent.t) :
  let run :=
    createDeleteUserDataActivityHandler
      JSON_stringify isFiscalCode readableReport deps input w in
  ActivityInput_decode isFiscalCode input = Right decoded ->
  MessageModel.answerFindMessages (messageModel deps) (fiscalCode decoded) w
  = Resolves (Right messages) ->
  fst run = ActivityResultSuccess ->
  exists d,
    snd run = w ++ d
    /\ forall message,
        In message messages ->
        In {| call := saveCall JSON_stringify (userDataBackupOf deps decoded)
                               ("message--" ++ RetrievedMessageWithoutContent.id message
                                            ++ ".json")%string message;
              ok := true |} d
        /\ In {| call := DeleteMessage (RetrievedMessageWithoutContent.fiscalCode message)
                                       (RetrievedMessageWithoutContent.id message);
                 ok := true |} d.
Proof.
  intros run E Hfound Hsuccess.
  destruct (activity_messages_run input w E Hfound) as (rs & d1 & d2 & Hw & HE & Hall).
  fold run in Hw, Hall. destruct (Hall Hsuccess) as (zs & ->).
  eexists. split; [exact Hw|].
  intros message Hmessage.
  destruct (Each_In HE message Hmessage) as (r & a & b & c & Hr & -> & _ & Hdone).
  apply in_map_iff in Hr. destruct Hr as (z & <- & _).
  destruct (Hdone eq_refl) as [Hsave Hdelete].
  split; right; apply in_or_app; left; apply in_or_app; right; apply in_or_app; left;
    assumption.
Qed.
End ActivityRuns2.

(** An input whose backup folder is empty is refused, and no service is
    called. *)
Lemma invalid_input_calls_no_service_witness :
  createDeleteUserDataActivityHandler
    Sample.JSON_stringify Sample.isFiscalCode Sample.readableReport
    Sample.someDeps Cases.noFolderInput []
  = (ActivityResultFailureOf (InvalidInputFailure "value is not a valid input"), []).
Proof.
  exact (invalid_input_calls_no_service
           Sample.JSON_stringify Sample.isFiscalCode Sample.readableReport
           Sample.someDeps Cases.noFolderInput []).
Defined.

(** The query of the messages is rejected. *)
Lemma failed_query_of_the_messages_ends_the_activity_witness :
  createDeleteUserDataActivityHandler
    Sample.JSON_stringify Sample.isFiscalCode Sample.readableReport
    Cases.unreachableDeps Sample.anInput []
  = (ActivityResultFailureOf (DataFailureOf (QueryFailure "ECONNRESET" None)),
     [{| call := FindMessages Sample.aFiscalCode; ok := false |}]).
Proof.
  apply (@failed_query_of_the_messages_ends_the_activity
           Sample.JSON_stringify Sample.isFiscalCode Sample.readableReport
           Cases.unreachableDeps Sample.anInput Cases.decodedInput []).
  - reflexivity.
  - reflexivity.
Defined.

(** The content of the message is found, backed up and deleted. *)
Lemma found_content_is_backed_up_then_deleted_witness :
  backupAndDeleteMessageContent Sample.JSON_stringify Cases.withContent Sample.aBackup
                                Sample.aMessage []
  = (Right (Some Cases.aContent),
     [{| call := GetContentFromBlob "A_MESSAGE_ID"; ok := true |};
      {| call := CreateBlockBlobFromText "user-data-backup"
                                         "a-folder/messagecontent--A_MESSAGE_ID.json" "{}";
         ok := true |};
      {| call := DeleteContentFromBlob "A_MESSAGE_ID"; ok := true |}]).
Proof.
  destruct (@found_content_is_backed_up_then_deleted
              Sample.JSON_stringify Sample.aBackup Cases.withContent Sample.aMessage
              Cases.aContent [] eq_refl) as [[reason H] | [[reason H] | H]].
  - discriminate H.
  - discriminate H.
  - exact H.
Defined.

(** The deletion of the status of the notification is refused: the
    notification is left alone. *)
Lemma status_failure_prevents_notification_delete_witness :
  exists failure d,
    backupAndDeleteOneNotificationData
      Sample.JSON_stringify Sample.noNotifications Cases.refusingNotificationStatuses
      Sample.aBackup Sample.aNotification []
    = (Left failure, d)
    /\ Forall (fun e => onNotification Sample.aBackup Sample.aNotification (call e)
                        = false) d.
Proof.
  destruct (status_failure_prevents_notification_delete
              Sample.JSON_stringify Sample.aBackup Sample.noNotifications
              Cases.refusingNotificationStatuses Sample.aNotification [])
    as [Hfailed _].
  destruct (Hfailed eq_refl) as (failure & d & Hrun & _ & Hcalls).
  exists failure, d. split; [exact Hrun | exact Hcalls].
Defined.

(** Two messages; the deletion of the status of the first one is refused,
    and the second one is visited all the same. *)
Lemma every_message_is_visited_witness :
  let run :=
    createDeleteUserDataActivityHandler
      Sample.JSON_stringify Sample.isFiscalCode Sample.readableReport
      Cases.twoMessagesDeps Sample.anInput [] in
  kind (fst run) = "DELETE_FAILURE"
  /\ exists d,
      snd run = d
      /\ forall message,
          In message [Sample.aMessage; Cases.anotherMessage] ->
          childrenStarted message d.
Proof.
  split; [reflexivity|].
  apply (@every_message_is_visited
           Sample.JSON_stringify Sample.isFiscalCode Sample.readableReport
           Cases.twoMessagesDeps Sample.anInput Cases.decodedInput []
           [Sample.aMessage; Cases.anotherMessage]).
  - reflexivity.
  - reflexivity.
Defined.

(** One message, backed up and deleted. *)
Lemma success_covers_every_message_witness :
  exists d,
    snd (createDeleteUserDataActivityHandler
           Sample.JSON_stringify Sample.isFiscalCode Sample.readableReport
           Cases.oneMessageDeps Sample.anInput []) = d
    /\ forall message,
        In message [Sample.aMessage] ->
        In {| call := saveCall Sample.JSON_stringify
                               (userDataBackupOf Cases.oneMessageDeps Cases.decodedInput)
                               ("message--" ++ RetrievedMessageWithoutContent.id message
                                            ++ ".json")%string message;
              ok := true |} d
        /\ In {| call := DeleteMessage (RetrievedMessageWithoutContent.fiscalCode message)
                                       (RetrievedMessageWithoutContent.id message);
                 ok := true |} d.
Proof.
  apply (@success_covers_every_message
           Sample.JSON_stringify Sample.isFiscalCode Sample.readableReport
           Cases.oneMessageDeps Sample.anInput Cases.decodedInput [] [Sample.aMessage]).
  - reflexivity.
  - reflexivity.
  - reflexivity.
Defined.
(** ** The orchestrator of the downloads *)

Section Scheduling.
Import UserDataDownloadOrchestrator.
Variable readableReport : Errors -> string.
Variable isUnknownRecord : JsValue -> bool.
Context {UserDataProcessing : Type}.
Variable UserDataProcessing_decode : JsValue -> option UserDataProcessing.

Lemma keepProcessable_filter (documents : list JsValue) :
  keepProcessable
    readableReport
    (List.map (ProcessableUserDataProcessing_decode UserDataProcessing_decode) documents)
  = (decodedRequests UserDataProcessing_decode documents,
     List.map (fun doc => skipping readableReport {| refused := doc |})
              (List.filter (fun doc => negb (isProcessable UserDataProcessing_decode doc))
                           documents)).
Proof.
  induction documents as [|doc documents IH]; [reflexivity|].
  simpl List.map. rewrite keepProcessable_cons, IH. simpl.
  unfold isProcessable, ProcessableUserDataProcessing_decode.
  destruct (UserDataProcessing_decode doc) as [value|]; [|reflexivity].
  destruct (hasStatus doc PENDING || hasStatus doc FAILED); reflexivity.
Qed.

Lemma decodedRequests_length (documents : list JsValue) :
  List.length (decodedRequests UserDataProcessing_decode documents)
  + List.length (List.filter (fun doc => negb (isProcessable UserDataProcessing_decode doc))
                             documents)
  = List.length documents.
Proof.
  induction documents as [|doc documents IH]; [reflexivity|].
  unfold decodedRequests in *. cbn [flat_map List.filter].
  unfold isProcessable at 1.
  destruct (ProcessableUserDataProcessing_decode UserDataProcessing_decode doc);
    simpl; lia.
Qed.

Lemma decodedRequests_In (documents : list JsValue) (value : UserDataProcessing) :
  In value (decodedRequests UserDataProcessing_decode documents) ->
  exists doc,
    In doc documents
    /\ ProcessableUserDataProcessing_decode UserDataProcessing_decode doc = Right value.
Proof.
  unfold decodedRequests. intros Hin. apply in_flat_map in Hin.
  destruct Hin as (doc & Hdoc & Hvalue). exists doc. split; [exact Hdoc|].
  destruct (ProcessableUserDataProcessing_decode UserDataProcessing_decode doc)
    as [errors|value']; [destruct Hvalue|].
  destruct Hvalue as [<-|[]]. reflexivity.
Qed.

(** X17: an input that is not a collection of records.  When the input is
    not an array, or when one of its elements is not a record, the
    orchestrator throws [UserDataDownloadOrchestrator: cannot decode input
    [...]] before any document is looked at: it logs nothing and schedules
    no sub-orchestrator, not even for the processable documents of the
    batch. *)
Theorem undecodable_input_stops_the_orchestrator (input : JsValue) :
  (forall documents,
      input = JsArray documents -> forallb isUnknownRecord documents = false) ->
  handler readableReport isUnknownRecord UserDataProcessing_decode input
  = (Throws ("UserDataDownloadOrchestrator: cannot decode input ["
               ++ readableReport {| refused := input |} ++ "]")%string,
     []).
Proof.
  intros Hbad. unfold handler, CosmosDbDocumentCollection_decode.
  destruct input as [| | | | |documents|]; try reflexivity.
  rewrite (Hbad documents eq_refl). reflexivity.
Qed.

(** X18: the requests that are scheduled.  On an array of records the
    orchestrator schedules one [UserDataDownloadSubOrchestrator] for each
    document the codec accepts, in the order of the input, and the input of
    the sub-orchestrator is the value the codec decodes from the document,
    not the document; the sub-orchestrators come after one warning for each
    of the other documents, in the order of the input as well, and before
    one line that counts them.  A value that is scheduled is decoded by the
    codec [UserDataProcessing] from a document whose status is [PENDING] or
    [FAILED]; a document whose status is [WIP] or [CLOSED] is among those
    the orchestrator skips. *)
Theorem decoded_requests_are_scheduled_in_order (documents : list JsValue) :
  let processable := decodedRequests UserDataProcessing_decode documents in
  let others :=
    List.filter (fun doc => negb (isProcessable UserDataProcessing_decode doc))
                documents in
  forallb isUnknownRecord documents = true ->
  handler readableReport isUnknownRecord UserDataProcessing_decode (JsArray documents)
  = (Yields (List.map (fun value => ("UserDataDownloadSubOrchestrator", value))
                      processable),
     List.map (fun doc => skipping readableReport {| refused := doc |}) others
       ++ List.map (fun value =>
                      CallSubOrchestrator "UserDataDownloadSubOrchestrator" value)
                   processable
       ++ [LogInfo ("UserDataDownloadOrchestrator: processing "
                      ++ Number_toString (N.of_nat (List.length processable))
                      ++ " document"
                      ++ (if Nat.eqb (List.length processable) 1 then "" else "s"))%string])
  /\ List.length processable + List.length others = List.length documents
  /\ (forall value,
         In value processable ->
         exists doc,
           In doc documents
           /\ UserDataProcessing_decode doc = Some value
           /\ (hasStatus doc PENDING = true \/ hasStatus doc FAILED = true))
  /\ (forall doc,
         In doc documents ->
         hasStatus doc WIP = true \/ hasStatus doc CLOSED = true ->
         In doc others).
Proof.
  intros processable others Hrecords. split; [|split; [|split]].
  - unfold handler, CosmosDbDocumentCollection_decode. rewrite Hrecords.
    rewrite keepProcessable_filter. fold processable. fold others.
    rewrite List.map_map, List.length_map. reflexivity.
  - apply decodedRequests_length.
  - intros value Hvalue. apply decodedRequests_In in Hvalue.
    destruct Hvalue as (doc & Hdoc & Hdecoded). exists doc. split; [exact Hdoc|].
    unfold ProcessableUserDataProcessing_decode in Hdecoded.
    destruct (UserDataProcessing_decode doc) as [value'|]; [|discriminate].
    destruct (hasStatus doc PENDING) eqn:Hpending; simpl in Hdecoded.
    + inversion Hdecoded. auto.
    + destruct (hasStatus doc FAILED) eqn:Hfailed; [|discriminate].
      inversion Hdecoded. auto.
  - intros doc Hdoc Hstatus. apply filter_In. split; [exact Hdoc|].
    unfold isProcessable, ProcessableUserDataProcessing_decode.
    destruct (UserDataProcessing_decode doc) as [value|]; [|reflexivity].
    destruct (hasStatus doc PENDING) eqn:Hpending.
    { destruct Hstatus as [H|H];
        pose proof (hasStatus_unique _ _ _ Hpending H); discriminate. }
    destruct (hasStatus doc FAILED) eqn:Hfailed.
    { destruct Hstatus as [H|H];
        pose proof (hasStatus_unique _ _ _ Hfailed H); discriminate. }
    reflexivity.
Qed.
End Scheduling.

(** One element of the batch is a number: nothing is scheduled. *)
Lemma undecodable_input_stops_the_orchestrator_witness :
  UserDataDownloadOrchestrator.handler
    Sample.readableReport Cases.isRecord Requests.decodeRequest
    (JsArray [Requests.pendingRequest; JsNumber 3])
  = (UserDataDownloadOrchestrator.Throws
       "UserDataDownloadOrchestrator: cannot decode input [value is not a valid input]",
     []).
Proof.
  apply (@undecodable_input_stops_the_orchestrator
           Sample.readableReport Cases.isRecord _ Requests.decodeRequest
           (JsArray [Requests.pendingRequest; JsNumber 3])).
  intros documents E. inversion E. reflexivity.
Defined.

(** A failed request, a closed one, a record that is not a request, a
    pending request and a request in progress: the failed and the pending
    requests are scheduled, as the values decoded from them. *)
Lemma decoded_requests_are_scheduled_in_order_witness :
  UserDataDownloadOrchestrator.handler
    Sample.readableReport Cases.isRecord Requests.decodeRequest
    (JsArray [Requests.failedRequest; Requests.closedRequest; Requests.statusAlone;
              Requests.pendingRequest; Requests.wipRequest])
  = (UserDataDownloadOrchestrator.Yields
       [("UserDataDownloadSubOrchestrator", Requests.decoded "request-2" "FAILED");
        ("UserDataDownloadSubOrchestrator", Requests.decoded "request-1" "PENDING")],
     [UserDataDownloadOrchestrator.LogWarn
        "UserDataDownloadOrchestrator: skipping document [value is not a valid input]";
      UserDataDownloadOrchestrator.LogWarn
        "UserDataDownloadOrchestrator: skipping document [value is not a valid input]";
      UserDataDownloadOrchestrator.LogWarn
        "UserDataDownloadOrchestrator: skipping document [value is not a valid input]";
      UserDataDownloadOrchestrator.CallSubOrchestrator
        "UserDataDownloadSubOrchestrator" (Requests.decoded "request-2" "FAILED");
      UserDataDownloadOrchestrator.CallSubOrchestrator
        "UserDataDownloadSubOrchestrator" (Requests.decoded "request-1" "PENDING");
      UserDataDownloadOrchestrator.LogInfo
        "UserDataDownloadOrchestrator: processing 2 documents"]).
Proof.
  apply (@decoded_requests_are_scheduled_in_order
           Sample.readableReport Cases.isRecord _ Requests.decodeRequest
           [Requests.failedRequest; Requests.closedRequest; Requests.statusAlone;
            Requests.pendingRequest; Requests.wipRequest]).
  reflexivity.
Defined.

(** ** The handler of GetUser *)

Section GetUserFacts.
Import GetUser.
Variables GroupContract SubscriptionContract Group Subscription UserInfo : Type.
Variable IResponseErrorInternal : Type.
Variable answerGetApiClient :
  IServicePrincipalCreds -> string -> World ->
  Either string (ApiManagementClient SubscriptionContract).
Variable answerGetUserGroups :
  ApiManagementClient SubscriptionContract -> string -> string -> string -> World ->
  Either string (list GroupContract).
Variable groupContractToApiGroup : GroupContract -> Either string Group.
Variable subscriptionContractToApiSubscription :
  SubscriptionContract -> Either string Subscription.
Variable genericInternalErrorHandler : string -> string -> string -> IResponseErrorInternal.
Variable genericInternalValidationErrorHandler :
  string -> Errors -> string -> IResponseErrorInternal.
Variable UserInfo_decode :
  string + list Group -> string + list Subscription -> Either Errors UserInfo.

Lemma listNextPages_run (apimClient : ApiManagementClient SubscriptionContract)
      link w pages rejected w' :
  Pages apimClient link w pages rejected w' ->
  forall fuel subscriptionList,
    List.length pages + match rejected with Some _ => 1 | None => 0 end <= fuel ->
    listNextPages fuel apimClient link subscriptionList w
    = Some (match rejected with
            | Some reason => Rejects reason
            | None => Resolves (subscriptionList ++ flat_map value pages)
            end, w').
Proof.
  induction 1 as [w|w|c s w reason Hnext|c s w page pages rejected w' Hnext Hpages IH];
    intros fuel subscriptionList Hfuel.
  - destruct fuel; simpl; rewrite app_nil_r; reflexivity.
  - destruct fuel; simpl; rewrite app_nil_r; reflexivity.
  - destruct fuel as [|fuel]; [simpl in Hfuel; lia|]. simpl. rewrite Hnext. reflexivity.
  - destruct fuel as [|fuel]; [simpl in Hfuel; lia|]. simpl. rewrite Hnext. simpl.
    rewrite IH by (simpl in Hfuel; lia).
    destruct rejected; [reflexivity|]. rewrite <- app_assoc. reflexivity.
Qed.

(** X23: the listing of the subscriptions, page after page.  When the first
    page and the pages behind its links are all answered, down to a page
    whose link is absent or empty, and the fuel covers the number of pages,
    [getUserSubscriptions] completes with the subscriptions of all the pages
    in the order of the pages, after one call for each page. *)
Theorem subscriptions_are_listed_page_after_page
        (apimClient : ApiManagementClient SubscriptionContract)
        (apimResourceGroup apim userName : string) (w w' : World)
        (first : Listing SubscriptionContract)
        (pages : list (Listing SubscriptionContract)) (fuel : nat) :
  userSubscription_list apimClient apimResourceGroup apim userName w = Resolves first ->
  Pages apimClient (nextLink first)
        (w ++ [{| call := UserSubscriptionList apimResourceGroup apim userName;
                  ok := true |}])
        pages None w' ->
  List.length pages <= fuel ->
  getUserSubscriptions fuel apimClient apimResourceGroup apim userName w
  = Some (Right (flat_map value (first :: pages)), w').
Proof.
  intros Hfirst Hpages Hfuel. unfold getUserSubscriptions, tryCatch.
  rewrite Hfirst. cbv zeta. cbn [settled].
  rewrite (listNextPages_run Hpages) by (simpl; lia). reflexivity.
Qed.

(** X24: a page that is rejected.  When the call for a page behind a link
    is rejected, [getUserSubscriptions] completes with the reason of the
    rejection as its error: the subscriptions of the pages answered before
    are dropped, and no further page is asked for. *)
Theorem rejected_page_loses_the_listing
        (apimClient : ApiManagementClient SubscriptionContract)
        (apimResourceGroup apim userName : string) (w w' : World)
        (first : Listing SubscriptionContract)
        (pages : list (Listing SubscriptionContract)) (reason : string) (fuel : nat) :
  userSubscription_list apimClient apimResourceGroup apim userName w = Resolves first ->
  Pages apimClient (nextLink first)
        (w ++ [{| call := UserSubscriptionList apimResourceGroup apim userName;
                  ok := true |}])
        pages (Some reason) w' ->
  List.length pages < fuel ->
  getUserSubscriptions fuel apimClient apimResourceGroup apim userName w
  = Some (Left reason, w').
Proof.
  intros Hfirst Hpages Hfuel. unfold getUserSubscriptions, tryCatch.
  rewrite Hfirst. cbv zeta. cbn [settled].
  rewrite (listNextPages_run Hpages) by (simpl; lia). reflexivity.
Qed.

(** The handler, step by step. *)
Lemma GetUserHandler_run (fuel : nat) (servicePrincipalCreds : IServicePrincipalCreds)
      (azureApimConfig : IAzureApimConfig) (email : string) (w : World) :
  GetUserHandler
    answerGetApiClient answerGetUserGroups groupContractToApiGroup
    subscriptionContractToApiSubscription genericInternalErrorHandler
    genericInternalValidationErrorHandler UserInfo_decode
    fuel servicePrincipalCreds azureApimConfig email w
  = let filter := ("email eq '" ++ email ++ "'")%string in
    let r := answerGetApiClient servicePrincipalCreds (subscriptionId azureApimConfig) w in
    let w1 := w ++ [{| call := GetApiClient (subscriptionId azureApimConfig);
                       ok := isRight r |}] in
    match r with
    | Left error =>
        Some (internalError UserInfo genericInternalErrorHandler
                            "Could not get the APIM client." error, w1)
    | Right apiClient =>
        let o := user_listByService apiClient (apimResourceGroup azureApimConfig)
                                    (apim azureApimConfig) filter w1 in
        let w2 := w1 ++ [{| call := UserListByService (apimResourceGroup azureApimConfig)
                                                      (apim azureApimConfig) filter;
                            ok := settled o |}] in
        match o with
        | Rejects reason =>
            Some (internalError UserInfo genericInternalErrorHandler
                                "Could not list the user by email." reason, w2)
        | Resolves [] =>
            Some (ResponseErrorNotFound UserInfo IResponseErrorInternal
                                        "Not found" "The required resource does not exist",
                  w2)
        | Resolves (first :: _) =>
            match NonEmptyString_decode (name first) with
            | Left errors =>
                Some (validationError UserInfo genericInternalValidationErrorHandler
                                      "Could not get user name from user contract." errors,
                      w2)
            | Right userName =>
                let g := answerGetUserGroups apiClient (apimResourceGroup azureApimConfig)
                                             (apim azureApimConfig) userName w2 in
                let w3 := w2 ++ [{| call := GetUserGroups
                                              (apimResourceGroup azureApimConfig)
                                              (apim azureApimConfig) userName;
                                    ok := isRight g |}] in
                match getUserSubscriptions fuel apiClient
                                           (apimResourceGroup azureApimConfig)
                                           (apim azureApimConfig) userName w3 with
                | None => None
                | Some (s, w4) =>
                    Some (match g, s with
                          | Left error, _ | Right _, Left error =>
                              internalError
                                UserInfo genericInternalErrorHandler
                                "Could not get user groups and subscriptions from APIM."
                                error
                          | Right groupContracts, Right subscriptionContracts =>
                              responseOfContracts
                                groupContractToApiGroup
                                subscriptionContractToApiSubscription
                                genericInternalErrorHandler
                                genericInternalValidationErrorHandler UserInfo_decode
                                groupContracts subscriptionContracts
                          end, w4)
                end
            end
        end
    end.
Proof.
  cbv beta iota zeta
      delta [GetUserHandler chain map mapLeft tryCatch fromPredicate fromEither sequenceT
             ap getApiClient getUserGroups either_map either_mapLeft either_ap isRight
             isLeft negb fst snd settled List.length Nat.eqb responseOfContracts
             internalError validationError either_value].
  destruct (answerGetApiClient _ _ w) as [error|apiClient]; [reflexivity|].
  destruct (user_listByService _ _ _ _ _) as [reason|[|first others]];
    [reflexivity|reflexivity|].
  destruct (NonEmptyString_decode (name first)) as [errors|userName]; [reflexivity|].
  destruct (getUserSubscriptions _ _ _ _ _ _) as [[s w4]|]; [|reflexivity].
  destruct (answerGetUserGroups _ _ _ _ _) as [error|groupContracts];
    [destruct s; reflexivity|].
  destruct s as [error|subscriptionContracts]; [reflexivity|].
  destruct (array_traverse groupContracts groupContractToApiGroup) as [e|groups];
    [reflexivity|].
  destruct (array_traverse subscriptionContracts subscriptionContractToApiSubscription)
    as [e|subscriptions]; [reflexivity|].
  destruct (UserInfo_decode _ _); reflexivity.
Qed.

Lemma listNextPages_appends (apimClient : ApiManagementClient SubscriptionContract)
      (fuel : nat) :
  forall link subscriptionList w o w',
    listNextPages fuel apimClient link subscriptionList w = Some (o, w') ->
    exists d, w' = w ++ d.
Proof.
  induction fuel as [|fuel IH]; intros link subscriptionList w o w' Hrun.
  - destruct link as [[|c s]|]; simpl in Hrun; inversion Hrun;
      exists []; symmetry; apply app_nil_r.
  - destruct link as [[|c s]|]; simpl in Hrun;
      try (inversion Hrun; exists []; symmetry; apply app_nil_r).
    destruct (userSubscription_listNext apimClient (String c s) w) as [reason|page].
    + inversion Hrun. eauto.
    + apply IH in Hrun. destruct Hrun as (d & ->). rewrite <- app_assoc. eauto.
Qed.

Lemma getUserSubscriptions_starts
      (apimClient : ApiManagementClient SubscriptionContract)
      (fuel : nat) (apimResourceGroup apim userName : string) (w : World) s w' :
  getUserSubscriptions fuel apimClient apimResourceGroup apim userName w = Some (s, w') ->
  exists b d,
    w' = w ++ {| call := UserSubscriptionList apimResourceGroup apim userName; ok := b |}
           :: d.
Proof.
  unfold getUserSubscriptions, tryCatch. cbv zeta.
  destruct (userSubscription_list apimClient apimResourceGroup apim userName w)
    as [reason|first].
  - intros Hrun. inversion Hrun. exists false, []. reflexivity.
  - destruct (listNextPages _ _ _ _ _) as [[o w'']|] eqn:Hpages; [|discriminate].
    apply listNextPages_appends in Hpages. destruct Hpages as (d & ->).
    intros Hrun. exists true, d.
    destruct o; inversion Hrun; rewrite <- app_assoc; reflexivity.
Qed.

Lemma array_traverse_joinFrom {L A B} (f : A -> Either L B) (ta : list A) :
  array_traverse ta f = joinFrom (Right []) (List.map f ta).
Proof.
  unfold array_traverse, joinFrom. generalize (@Right L (list B) []).
  induction ta as [|a ta IH]; intros acc; [reflexivity|]. simpl. apply IH.
Qed.

Lemma array_traverse_first_Left {L A B} (f : A -> Either L B) (pre post : list A)
      (a : A) (error : L) :
  Forall (fun x => isRight (f x) = true) pre ->
  f a = Left error ->
  array_traverse (pre ++ a :: post) f = Left error.
Proof.
  intros Hpre Ha. rewrite array_traverse_joinFrom. generalize (@nil B).
  induction Hpre as [|x pre Hx Hpre IH]; intros xs; cbn [app List.map].
  - rewrite joinFrom_Right_cons, Ha. reflexivity.
  - rewrite joinFrom_Right_cons. destruct (f x); [discriminate|]. apply IH.
Qed.

Lemma array_traverse_Right {L A B} (f : A -> Either L B) (ta : list A) (bs : list B) :
  array_traverse ta f = Right bs -> List.map f ta = List.map (fun b => Right b) bs.
Proof.
  rewrite array_traverse_joinFrom. intros H. apply joinFrom_Right_inv in H.
  destruct H as (zs & -> & Hzs). exact Hzs.
Qed.

(** X19: the user is not found exactly when no user is listed.  When the
    API management lists no user for the address, the handler answers [Not
    found] after the two calls that create the client and list the users;
    and it answers a response of that kind in no other case. *)
Theorem user_not_found_exactly_when_none_is_listed
        (fuel : nat) (servicePrincipalCreds : IServicePrincipalCreds)
        (azureApimConfig : IAzureApimConfig) (email : string) (w : World) :
  let run :=
    GetUserHandler
      answerGetApiClient answerGetUserGroups groupContractToApiGroup
      subscriptionContractToApiSubscription genericInternalErrorHandler
      genericInternalValidationErrorHandler UserInfo_decode
      fuel servicePrincipalCreds azureApimConfig email w in
  let created :=
    {| call := GetApiClient (subscriptionId azureApimConfig); ok := true |} in
  let filter := ("email eq '" ++ email ++ "'")%string in
  (forall apiClient,
      answerGetApiClient servicePrincipalCreds (subscriptionId azureApimConfig) w
      = Right apiClient ->
      user_listByService apiClient (apimResourceGroup azureApimConfig)
                         (apim azureApimConfig) filter (w ++ [created])
      = Resolves [] ->
      run = Some (ResponseErrorNotFound UserInfo IResponseErrorInternal
                                        "Not found" "The required resource does not exist",
                  w ++ [created;
                        {| call := UserListByService (apimResourceGroup azureApimConfig)
                                                     (apim azureApimConfig) filter;
                           ok := true |}]))
  /\ (forall title detail w',
         run = Some (ResponseErrorNotFound UserInfo IResponseErrorInternal title detail, w') ->
         exists apiClient,
           answerGetApiClient servicePrincipalCreds (subscriptionId azureApimConfig) w
           = Right apiClient
           /\ user_listByService apiClient (apimResourceGroup azureApimConfig)
                                 (apim azureApimConfig) filter (w ++ [created])
              = Resolves []).
Proof.
  intros run created filter. unfold run. clear run. rewrite GetUserHandler_run.
  cbv zeta. fold filter. split.
  - intros apiClient Hclient Hlist. rewrite Hclient. cbn [isRight isLeft negb].
    fold created. rewrite Hlist. cbn [settled]. rewrite <- app_assoc. reflexivity.
  - intros title detail w'.
    destruct (answerGetApiClient _ _ w) as [error|apiClient]; [discriminate|].
    cbn [isRight isLeft negb]. fold created.
    destruct (user_listByService _ _ _ _ _) as [reason|[|first others]] eqn:Hlist;
      [discriminate| |].
    + intros _. exists apiClient. split; [reflexivity | exact Hlist].
    + destruct (NonEmptyString_decode (name first)) as [errors|userName];
        [discriminate|].
      destruct (getUserSubscriptions _ _ _ _ _ _) as [[s w4]|]; [|discriminate].
      destruct (answerGetUserGroups _ _ _ _ _) as [error|groupContracts];
        [destruct s; discriminate|].
      destruct s as [error|subscriptionContracts]; [discriminate|].
      unfold responseOfContracts.
      destruct (array_traverse groupContracts groupContractToApiGroup);
        [discriminate|].
      destruct (array_traverse subscriptionContracts
                               subscriptionContractToApiSubscription);
        [discriminate|].
      destruct (UserInfo_decode _ _); discriminate.
Qed.

(** X20: the user is the first one listed.  Of the users the API management
    lists for the address only the first is read.  When its name is absent
    or empty the handler answers an internal error and asks for nothing
    more; otherwise its next calls ask for the groups and for the
    subscriptions of that name. *)
Theorem the_first_user_listed_is_the_user
        (fuel : nat) (servicePrincipalCreds : IServicePrincipalCreds)
        (azureApimConfig : IAzureApimConfig) (email : string) (w : World)
        (apiClient : ApiManagementClient SubscriptionContract)
        (first : UserContract) (others : list UserContract) :
  let run :=
    GetUserHandler
      answerGetApiClient answerGetUserGroups groupContractToApiGroup
      subscriptionContractToApiSubscription genericInternalErrorHandler
      genericInternalValidationErrorHandler UserInfo_decode
      fuel servicePrincipalCreds azureApimConfig email w in
  let filter := ("email eq '" ++ email ++ "'")%string in
  let before :=
    [{| call := GetApiClient (subscriptionId azureApimConfig); ok := true |};
     {| call := UserListByService (apimResourceGroup azureApimConfig)
                                  (apim azureApimConfig) filter;
        ok := true |}] in
  answerGetApiClient servicePrincipalCreds (subscriptionId azureApimConfig) w
  = Right apiClient ->
  user_listByService
    apiClient (apimResourceGroup azureApimConfig) (apim azureApimConfig) filter
    (w ++ [{| call := GetApiClient (subscriptionId azureApimConfig); ok := true |}])
  = Resolves (first :: others) ->
  match name first with
  | Some (String c s) =>
      forall response w',
        run = Some (response, w') ->
        exists b1 b2 d,
          w' = w ++ before
                 ++ {| call := GetUserGroups (apimResourceGroup azureApimConfig)
                                             (apim azureApimConfig) (String c s);
                       ok := b1 |}
                 :: {| call := UserSubscriptionList (apimResourceGroup azureApimConfig)
                                                    (apim azureApimConfig) (String c s);
                       ok := b2 |}
                 :: d
  | _ =>
      exists errors,
        run = Some (validationError UserInfo genericInternalValidationErrorHandler
                                    "Could not get user name from user contract." errors,
                    w ++ before)
  end.
Proof.
  intros run filter before Hclient Hlist. unfold run. clear run.
  rewrite GetUserHandler_run. cbv zeta. fold filter.
  rewrite Hclient. cbn [isRight isLeft negb]. rewrite Hlist. cbn [settled].
  replace ((w ++ [{| call := GetApiClient (subscriptionId azureApimConfig);
                     ok := true |}])
             ++ [{| call := UserListByService (apimResourceGroup azureApimConfig)
                                              (apim azureApimConfig) filter;
                    ok := true |}])
    with (w ++ before) by (unfold before; rewrite <- app_assoc; reflexivity).
  destruct (name first) as [[|c s]|]; simpl NonEmptyString_decode; cbv iota.
  - eexists. reflexivity.
  - intros response w'.
    destruct (getUserSubscriptions _ _ _ _ _ _) as [[r w4]|] eqn:Hsubs; [|discriminate].
    apply getUserSubscriptions_starts in Hsubs. destruct Hsubs as (b2 & d & ->).
    intros Hrun. inversion Hrun. eexists. exists b2, d.
    rewrite <- !app_assoc. reflexivity.
  - eexists. reflexivity.
Qed.

(** X21: the groups and the subscriptions are asked for together.  When the
    groups of the user cannot be read, the subscriptions are listed all the
    same, and the handler answers only once that listing completes: then its
    answer is the internal error of the groups. *)
Theorem failed_groups_wait_for_the_subscriptions
        (fuel : nat) (servicePrincipalCreds : IServicePrincipalCreds)
        (azureApimConfig : IAzureApimConfig) (email : string) (w : World)
        (apiClient : ApiManagementClient SubscriptionContract)
        (first : UserContract) (others : list UserContract) (c : ascii) (s : string)
        (error : string) :
  let run :=
    GetUserHandler
      answerGetApiClient answerGetUserGroups groupContractToApiGroup
      subscriptionContractToApiSubscription genericInternalErrorHandler
      genericInternalValidationErrorHandler UserInfo_decode
      fuel servicePrincipalCreds azureApimConfig email w in
  let filter := ("email eq '" ++ email ++ "'")%string in
  let w2 :=
    w ++ [{| call := GetApiClient (subscriptionId azureApimConfig); ok := true |};
          {| call := UserListByService (apimResourceGroup azureApimConfig)
                                       (apim azureApimConfig) filter;
             ok := true |}] in
  let w3 :=
    w2 ++ [{| call := GetUserGroups (apimResourceGroup azureApimConfig)
                                    (apim azureApimConfig) (String c s);
              ok := false |}] in
  answerGetApiClient servicePrincipalCreds (subscriptionId azureApimConfig) w
  = Right apiClient ->
  user_listByService
    apiClient (apimResourceGroup azureApimConfig) (apim azureApimConfig) filter
    (w ++ [{| call := GetApiClient (subscriptionId azureApimConfig); ok := true |}])
  = Resolves (first :: others) ->
  name first = Some (String c s) ->
  answerGetUserGroups apiClient (apimResourceGroup azureApimConfig)
                      (apim azureApimConfig) (String c s) w2
  = Left error ->
  run
  = match getUserSubscriptions fuel apiClient (apimResourceGroup azureApimConfig)
                               (apim azureApimConfig) (String c s) w3 with
    | None => None
    | Some (_, w4) =>
        Some (internalError UserInfo genericInternalErrorHandler
                            "Could not get user groups and subscriptions from APIM."
                            error, w4)
    end.
Proof.
  intros run filter w2 w3 Hclient Hlist Hname Hgroups. unfold run. clear run.
  rewrite GetUserHandler_run. cbv zeta. fold filter.
  rewrite Hclient. cbn [isRight isLeft negb]. rewrite Hlist. cbn [settled].
  rewrite Hname. simpl NonEmptyString_decode. cbv iota.
  replace ((w ++ [{| call := GetApiClient (subscriptionId azureApimConfig);
                     ok := true |}])
             ++ [{| call := UserListByService (apimResourceGroup azureApimConfig)
                                              (apim azureApimConfig) filter;
                    ok := true |}])
    with w2 by (unfold w2; rewrite <- app_assoc; reflexivity).
  rewrite Hgroups. cbn [isRight isLeft negb]. fold w3.
  destruct (getUserSubscriptions _ _ _ _ _ _) as [[r w4]|]; reflexivity.
Qed.

(** X22: the contracts that do not convert.  Once the groups and the
    subscriptions are read, the handler answers a success only when every
    contract of a group and every contract of a subscription converts, and
    the payload decodes from the converted values in the order of the
    contracts; when a contract of a group does not convert, the answer is
    the internal error of the first such contract, whatever the
    subscriptions are. *)
Theorem contracts_are_converted_in_order
        (fuel : nat) (servicePrincipalCreds : IServicePrincipalCreds)
        (azureApimConfig : IAzureApimConfig) (email : string) (w w4 : World)
        (apiClient : ApiManagementClient SubscriptionContract)
        (first : UserContract) (others : list UserContract) (c : ascii) (s : string)
        (groupContracts : list GroupContract)
        (subscriptionContracts : list SubscriptionContract) :
  let run :=
    GetUserHandler
      answerGetApiClient answerGetUserGroups groupContractToApiGroup
      subscriptionContractToApiSubscription genericInternalErrorHandler
      genericInternalValidationErrorHandler UserInfo_decode
      fuel servicePrincipalCreds azureApimConfig email w in
  let filter := ("email eq '" ++ email ++ "'")%string in
  let w2 :=
    w ++ [{| call := GetApiClient (subscriptionId azureApimConfig); ok := true |};
          {| call := UserListByService (apimResourceGroup azureApimConfig)
                                       (apim azureApimConfig) filter;
             ok := true |}] in
  let w3 :=
    w2 ++ [{| call := GetUserGroups (apimResourceGroup azureApimConfig)
                                    (apim azureApimConfig) (String c s);
              ok := true |}] in
  answerGetApiClient servicePrincipalCreds (subscriptionId azureApimConfig) w
  = Right apiClient ->
  user_listByService
    apiClient (apimResourceGroup azureApimConfig) (apim azureApimConfig) filter
    (w ++ [{| call := GetApiClient (subscriptionId azureApimConfig); ok := true |}])
  = Resolves (first :: others) ->
  name first = Some (String c s) ->
  answerGetUserGroups apiClient (apimResourceGroup azureApimConfig)
                      (apim azureApimConfig) (String c s) w2
  = Right groupContracts ->
  getUserSubscriptions fuel apiClient (apimResourceGroup azureApimConfig)
                       (apim azureApimConfig) (String c s) w3
  = Some (Right subscriptionContracts, w4) ->
  (forall userInfo,
      run = Some (ResponseSuccessJson IResponseErrorInternal userInfo, w4) ->
      exists groups subscriptions,
        List.map groupContractToApiGroup groupContracts
        = List.map (fun g => Right g) groups
        /\ List.map subscriptionContractToApiSubscription subscriptionContracts
           = List.map (fun x => Right x) subscriptions
        /\ UserInfo_decode (inr groups) (inr subscriptions) = Right userInfo)
  /\ (forall pre contract post error,
         groupContracts = pre ++ contract :: post ->
         Forall (fun g => isRight (groupContractToApiGroup g) = true) pre ->
         groupContractToApiGroup contract = Left error ->
         run = Some (internalError UserInfo genericInternalErrorHandler
                                   "Invalid group contract from APIM." error, w4)).
Proof.
  intros run filter w2 w3 Hclient Hlist Hname Hgroups Hsubs.
  assert (Hrun : run = Some (responseOfContracts
                               groupContractToApiGroup
                               subscriptionContractToApiSubscription
                               genericInternalErrorHandler
                               genericInternalValidationErrorHandler UserInfo_decode
                               groupContracts subscriptionContracts, w4)).
  { unfold run. rewrite GetUserHandler_run. cbv zeta. fold filter.
    rewrite Hclient. cbn [isRight isLeft negb]. rewrite Hlist. cbn [settled].
    rewrite Hname. simpl NonEmptyString_decode. cbv iota.
    replace ((w ++ [{| call := GetApiClient (subscriptionId azureApimConfig);
                       ok := true |}])
               ++ [{| call := UserListByService (apimResourceGroup azureApimConfig)
                                                (apim azureApimConfig) filter;
                      ok := true |}])
      with w2 by (unfold w2; rewrite <- app_assoc; reflexivity).
    rewrite Hgroups. cbn [isRight isLeft negb]. fold w3. rewrite Hsubs. reflexivity. }
  rewrite Hrun. clear Hrun. unfold responseOfContracts. split.
  - intros userInfo.
    destruct (array_traverse groupContracts groupContractToApiGroup)
      as [e|groups] eqn:Eg; [discriminate|].
    destruct (array_traverse subscriptionContracts
                             subscriptionContractToApiSubscription)
      as [e|subscriptions] eqn:Es; [discriminate|].
    destruct (UserInfo_decode _ _) as [errors|info] eqn:Ed; [discriminate|].
    intros H. inversion H. subst info. exists groups, subscriptions.
    repeat split; auto using array_traverse_Right.
  - intros pre contract post error -> Hpre Hcontract.
    rewrite (@array_traverse_first_Left _ _ _ groupContractToApiGroup pre post contract
                                        error Hpre Hcontract).
    reflexivity.
Qed.
End GetUserFacts.

(** Two pages of subscriptions; the link of the second page is empty. *)
Lemma subscriptions_are_listed_page_after_page_witness :
  GetUser.getUserSubscriptions 1 Apim.aClient "a-group" "an-apim" "a-user" []
  = Some (Right ["s1"; "s2"; "s3"],
          [{| GetUser.call := GetUser.UserSubscriptionList "a-group" "an-apim" "a-user";
              GetUser.ok := true |};
           {| GetUser.call := GetUser.UserSubscriptionListNext "page-2";
              GetUser.ok := true |}]).
Proof.
  apply (@subscriptions_are_listed_page_after_page
           string Apim.aClient "a-group" "an-apim" "a-user" [] _
           {| GetUser.value := ["s1"; "s2"]; GetUser.nextLink := Some "page-2" |}
           [{| GetUser.value := ["s3"]; GetUser.nextLink := Some "" |}] 1).
  - reflexivity.
  - eapply Pages_next; [reflexivity|]. apply Pages_empty.
  - simpl. lia.
Defined.

(** The second page is rejected: the two subscriptions of the first page
    are lost. *)
Lemma rejected_page_loses_the_listing_witness :
  GetUser.getUserSubscriptions 1 Apim.aBrokenClient "a-group" "an-apim" "a-user" []
  = Some (Left "ETIMEDOUT",
          [{| GetUser.call := GetUser.UserSubscriptionList "a-group" "an-apim" "a-user";
              GetUser.ok := true |};
           {| GetUser.call := GetUser.UserSubscriptionListNext "page-2";
              GetUser.ok := false |}]).
Proof.
  apply (@rejected_page_loses_the_listing
           string Apim.aBrokenClient "a-group" "an-apim" "a-user" [] _
           {| GetUser.value := ["s1"; "s2"]; GetUser.nextLink := Some "page-2" |}
           [] "ETIMEDOUT" 1).
  - reflexivity.
  - apply Pages_rejected. reflexivity.
  - simpl. lia.
Defined.

(** No user is listed for the address. *)
Lemma user_not_found_exactly_when_none_is_listed_witness :
  GetUser.GetUserHandler
    (Apim.getClient Apim.anEmptyClient) Apim.groups Apim.convert Apim.convert
    Apim.internal Apim.validation Apim.decode 0 Apim.creds Apim.config "a@b.it" []
  = Some (GetUser.ResponseErrorNotFound
            (list string * list string) string
            "Not found" "The required resource does not exist",
          [{| GetUser.call := GetUser.GetApiClient "a-subscription"; GetUser.ok := true |};
           {| GetUser.call := GetUser.UserListByService "a-group" "an-apim"
                                                        "email eq 'a@b.it'";
              GetUser.ok := true |}]).
Proof.
  apply (user_not_found_exactly_when_none_is_listed
           (Apim.getClient Apim.anEmptyClient) Apim.groups Apim.convert Apim.convert
           Apim.internal Apim.validation Apim.decode 0 Apim.creds Apim.config "a@b.it" [])
    with (apiClient := Apim.anEmptyClient).
  - reflexivity.
  - reflexivity.
Defined.

(** Two users are listed: the groups and the subscriptions are those of the
    first. *)
Lemma the_first_user_listed_is_the_user_witness :
  exists b1 b2 d,
    [{| GetUser.call := GetUser.GetApiClient "a-subscription"; GetUser.ok := true |};
     {| GetUser.call := GetUser.UserListByService "a-group" "an-apim" "email eq 'a@b.it'";
        GetUser.ok := true |};
     {| GetUser.call := GetUser.GetUserGroups "a-group" "an-apim" "a-user";
        GetUser.ok := true |};
     {| GetUser.call := GetUser.UserSubscriptionList "a-group" "an-apim" "a-user";
        GetUser.ok := true |};
     {| GetUser.call := GetUser.UserSubscriptionListNext "page-2"; GetUser.ok := true |}]
    = [{| GetUser.call := GetUser.GetApiClient "a-subscription"; GetUser.ok := true |};
       {| GetUser.call := GetUser.UserListByService "a-group" "an-apim" "email eq 'a@b.it'";
          GetUser.ok := true |};
       {| GetUser.call := GetUser.GetUserGroups "a-group" "an-apim" "a-user";
          GetUser.ok := b1 |};
       {| GetUser.call := GetUser.UserSubscriptionList "a-group" "an-apim" "a-user";
          GetUser.ok := b2 |}] ++ d.
Proof.
  apply (@the_first_user_listed_is_the_user
           string string string string (list string * list string) string
           (Apim.getClient Apim.aClient) Apim.groups Apim.convert Apim.convert
           Apim.internal Apim.validation Apim.decode 1 Apim.creds Apim.config "a@b.it" []
           Apim.aClient Apim.aUser [Apim.anotherUser] eq_refl eq_refl
           (GetUser.ResponseErrorInternal (list string * list string)
                                          "Invalid group contract from APIM.")).
  reflexivity.
Defined.

(** The groups cannot be read; the two pages of the subscriptions are asked
    for all the same. *)
Lemma failed_groups_wait_for_the_subscriptions_witness :
  GetUser.GetUserHandler
    (Apim.getClient Apim.aClient) Apim.noGroups Apim.convert Apim.convert
    Apim.internal Apim.validation Apim.decode 1 Apim.creds Apim.config "a@b.it" []
  = Some (GetUser.ResponseErrorInternal
            (list string * list string)
            "Could not get user groups and subscriptions from APIM.",
          [{| GetUser.call := GetUser.GetApiClient "a-subscription"; GetUser.ok := true |};
           {| GetUser.call := GetUser.UserListByService "a-group" "an-apim"
                                                        "email eq 'a@b.it'";
              GetUser.ok := true |};
           {| GetUser.call := GetUser.GetUserGroups "a-group" "an-apim" "a-user";
              GetUser.ok := false |};
           {| GetUser.call := GetUser.UserSubscriptionList "a-group" "an-apim" "a-user";
              GetUser.ok := true |};
           {| GetUser.call := GetUser.UserSubscriptionListNext "page-2";
              GetUser.ok := true |}]).
Proof.
  apply (@failed_groups_wait_for_the_subscriptions
           string string string string (list string * list string) string
           (Apim.getClient Apim.aClient) Apim.noGroups Apim.convert Apim.convert
           Apim.internal Apim.validation Apim.decode 1 Apim.creds Apim.config "a@b.it" []
           Apim.aClient Apim.aUser [Apim.anotherUser] "a" "-user" "groups unavailable"
           eq_refl eq_refl eq_refl eq_refl).
Defined.

(** The second contract of the groups does not convert. *)
Lemma contracts_are_converted_in_order_witness :
  GetUser.GetUserHandler
    (Apim.getClient Apim.aClient) Apim.groups Apim.convert Apim.convert
    Apim.internal Apim.validation Apim.decode 1 Apim.creds Apim.config "a@b.it" []
  = Some (GetUser.ResponseErrorInternal (list string * list string)
                                        "Invalid group contract from APIM.",
          [{| GetUser.call := GetUser.GetApiClient "a-subscription"; GetUser.ok := true |};
           {| GetUser.call := GetUser.UserListByService "a-group" "an-apim"
                                                        "email eq 'a@b.it'";
              GetUser.ok := true |};
           {| GetUser.call := GetUser.GetUserGroups "a-group" "an-apim" "a-user";
              GetUser.ok := true |};
           {| GetUser.call := GetUser.UserSubscriptionList "a-group" "an-apim" "a-user";
              GetUser.ok := true |};
           {| GetUser.call := GetUser.UserSubscriptionListNext "page-2";
              GetUser.ok := true |}]).
Proof.
  destruct (@contracts_are_converted_in_order
              string string string string (list string * list string) string
              (Apim.getClient Apim.aClient) Apim.groups Apim.convert Apim.convert
              Apim.internal Apim.validation Apim.decode 1 Apim.creds Apim.config "a@b.it"
              [] _ Apim.aClient Apim.aUser [Apim.anotherUser] "a" "-user"
              ["g1"; "broken"; "g3"] ["s1"; "s2"; "s3"]
              eq_refl eq_refl eq_refl eq_refl eq_refl) as [_ Hbroken].
  apply (Hbroken ["g1"] "broken" ["g3"] "invalid contract" eq_refl).
  - repeat constructor.
  - reflexivity.
Defined.
